(** * pythonks: the PyTorch tutorial notebooks, embedded and verified

    The repository holds four Jupyter notebooks (fundamentals, workflow,
    classification, computer vision).  Their code cells are glue around the
    PyTorch, scikit-learn and matplotlib libraries.  This development embeds

    - the pure Python of the cells (slicing, integer and float arithmetic,
      [accuracy_function], the [forward] methods) as Rocq functions, and
    - the effectful cells (training loops, persistence) as programs over the
      library calls they issue, run against a handler that stands for the
      libraries.

    Python floats are IEEE binary64 and tensors of dtype [torch.float] hold
    IEEE binary32 values; both are [spec_float] with the matching precision. *)

From Stdlib Require Import ZArith QArith List Bool Lia Lra Reals String.
From Stdlib Require Import Floats.SpecFloat.
From stdpp Require Import gmap strings.

Import ListNotations.
Local Open Scope Z_scope.

(** ** Python floats: IEEE binary64, round to nearest even *)

Module PyFloat.

Definition prec : Z := 53.
Definition emax : Z := 1024.

Definition float := spec_float.

(** [float(n)] for a Python int. *)
Definition of_int (n : Z) : float := binary_normalize prec emax n 0 false.

Definition mul : float -> float -> float := SFmul prec emax.
Definition div : float -> float -> float := SFdiv prec emax.
Definition add : float -> float -> float := SFadd prec emax.
Definition sub : float -> float -> float := SFsub prec emax.

(** The decimal literals of the notebooks, as the doubles Python reads. *)
Definition lit_0_8 : float := S754_finite false 7205759403792794 (-53).
Definition lit_0_02 : float := S754_finite false 5764607523034235 (-58).
Definition lit_0_7 : float := S754_finite false 6305039478318694 (-53).
Definition lit_0_3 : float := S754_finite false 5404319552844595 (-54).

(** [int(x)]: truncation toward zero; [None] stands for the
    [OverflowError]/[ValueError] Python raises on infinities and NaN. *)
Definition to_int (x : float) : option Z :=
  match x with
  | S754_zero _ => Some 0
  | S754_finite s m e =>
      let a := if 0 <=? e then Zpos m * 2 ^ e else Zpos m / 2 ^ (- e) in
      Some (if s then - a else a)
  | S754_infinity _ | S754_nan => None
  end.

(** [math.ceil(x)], as [std::ceil] followed by the cast to an integer. *)
Definition ceil (x : float) : option Z :=
  match x with
  | S754_zero _ => Some 0
  | S754_finite s m e =>
      if 0 <=? e then Some (if s then - (Zpos m * 2 ^ e) else Zpos m * 2 ^ e)
      else
        let q := Zpos m / 2 ^ (- e) in
        let exact := Zpos m mod 2 ^ (- e) =? 0 in
        Some (if s then - q else if exact then q else q + 1)
  | S754_infinity _ | S754_nan => None
  end.

End PyFloat.

(** ** Tensor elements of dtype [torch.float]: IEEE binary32 *)

Module F32.

Definition prec : Z := 24.
Definition emax : Z := 128.

Definition t := spec_float.

Definition mul : t -> t -> t := SFmul prec emax.
Definition add : t -> t -> t := SFadd prec emax.
Definition eqb : t -> t -> bool := SFeqb.

(** Cast of a double to float32 (round to nearest even). *)
Definition of_double (x : PyFloat.float) : t :=
  match x with
  | S754_finite s m e => binary_normalize prec emax (if s then Zneg m else Zpos m) e s
  | _ => x
  end.

Definition one : t := S754_finite false 8388608 (-23).
Definition zero : t := S754_zero false.

End F32.

(** A one-dimensional tensor is the list of its elements. *)
Definition tensor := list F32.t.

(** ** Python exceptions and fallible results *)

Inductive exn :=
| FileExistsError
| FileNotFoundError
| NotADirectoryError
| IsADirectoryError
| UnpicklingError
| ZeroDivisionError
| TypeError
| RuntimeError
| LibraryError (code : nat).   (* any other failure raised inside a library *)

Inductive result (A : Type) :=
| Ok (a : A)
| Raise (e : exn).
Arguments Ok {A} a.
Arguments Raise {A} e.

(** An exception raised by a step is the result of the whole sequence:
    nothing below catches one.  Sequencing is written [x ← r; k]. *)
#[export] Instance result_ret : MRet result := fun A a => Ok a.

#[export] Instance result_bind : MBind result := fun A B k r =>
  match r with
  | Ok a => k a
  | Raise e => Raise e
  end.

(** ** The file system seen by [pathlib] and [torch.save]/[torch.load]

    A path is the list of its components below the working directory, last
    component first, so that [p / name] is [name :: p] and the parent of
    [name :: p] is [p].  The working directory itself is [[]]. *)

Module FS.

Definition path := list string.

(** What [torch.save] leaves in a file: the pickled object.  The notebooks
    only ever pickle a state dictionary. *)
Inductive content :=
| Pickled (state : gmap string tensor)
| Other.

Inductive node :=
| Dir
| File (c : content).

Definition is_dir (fs : gmap path node) (p : path) : bool :=
  match p with
  | [] => true
  | _ =>
      match fs !! p with
      | Some Dir => true
      | _ => false
      end
  end.

Definition present (fs : gmap path node) (p : path) : bool :=
  match p with
  | [] => true
  | _ => bool_decide (is_Some (fs !! p))
  end.

(** [os.mkdir(p)] *)
Definition os_mkdir (p : path) (fs : gmap path node) : result (gmap path node) :=
  match p with
  | [] => Raise FileExistsError
  | _ :: parent =>
      if present fs p then Raise FileExistsError
      else if negb (present fs parent) then Raise FileNotFoundError
      else if negb (is_dir fs parent) then Raise NotADirectoryError
      else Ok (<[p := Dir]> fs)
  end.

(** [Path.mkdir(parents=False, exist_ok=exist_ok)], the last step of the
    recursive call in [pathlib]. *)
Definition mkdir_leaf (exist_ok : bool) (p : path) (fs : gmap path node)
  : result (gmap path node) :=
  match os_mkdir p fs with
  | Ok fs' => Ok fs'
  | Raise FileNotFoundError => Raise FileNotFoundError
  | Raise e => if exist_ok && is_dir fs p then Ok fs else Raise e
  end.

(** [Path.mkdir(parents, exist_ok)] as [pathlib] implements it: try
    [os.mkdir]; on [FileNotFoundError] create the parents first (always
    with [parents=True, exist_ok=True]) and retry; any other [OSError] is
    swallowed only when [exist_ok] holds and the path is a directory. *)
Fixpoint mkdir (parents exist_ok : bool) (p : path) (fs : gmap path node)
  : result (gmap path node) :=
  match os_mkdir p fs with
  | Ok fs' => Ok fs'
  | Raise FileNotFoundError =>
      match p with
      | [] => Raise FileNotFoundError
      | _ :: parent =>
          if parents then
            fs1 ← mkdir true true parent fs;
            mkdir_leaf exist_ok p fs1
          else Raise FileNotFoundError
      end
  | Raise e => if exist_ok && is_dir fs p then Ok fs else Raise e
  end.

(** [torch.save(obj, f)]: open [f] for writing, then pickle [obj] into it.
    The failures are those of opening [f]; which exception class torch
    reports for them differs between its versions, and nothing below
    depends on the class. *)
Definition torch_save (obj : gmap string tensor) (f : path) (fs : gmap path node)
  : result (gmap path node) :=
  match f with
  | [] => Raise IsADirectoryError
  | _ :: parent =>
      if negb (present fs parent) then Raise FileNotFoundError
      else if negb (is_dir fs parent) then Raise NotADirectoryError
      else if is_dir fs f then Raise IsADirectoryError
      else Ok (<[f := File (Pickled obj)]> fs)
  end.

(** [torch.load(f)] *)
Definition torch_load (f : path) (fs : gmap path node) : result (gmap string tensor) :=
  match f with
  | [] => Raise IsADirectoryError
  | _ =>
      match fs !! f with
      | Some (File (Pickled obj)) => Ok obj
      | Some (File Other) => Raise UnpicklingError
      | Some Dir => Raise IsADirectoryError
      | None => Raise FileNotFoundError
      end
  end.

End FS.

(** ** Cells as programs over library calls

    What a cell does beyond pure Python is to call into the libraries it
    imports.  A program is the tree of those calls: each call hands its
    result to the rest of the program, and a library object the program never
    looks into is an opaque [value]. *)

(** The library entry points the embedded cells and functions use, named as
    in the source ([Module_call] is [model(x)], [Loss_call] is
    [loss_function(prediction, target)], [Tensor_add] is [+] on tensors,
    [Torch_sigmoid] is [torch.sigmoid], [getitem] is indexing and slicing of
    an array, a tensor or a dataset, [DataLoader] is the constructor). *)
Inductive api :=
| Torch_manual_seed | Torch_arange | Torch_randn | Torch_from_numpy
| Torch_sigmoid | Torch_round | Torch_eq | Torch_cuda_is_available
| inference_mode_enter | inference_mode_exit
| Module_init | Module_setattr | Module_getattr
| Module_train | Module_eval | Module_call | Module_to
| nn_Linear | nn_ReLU | nn_Flatten | nn_Sequential | nn_Parameter
| Loss_call | Optimizer_zero_grad | Optimizer_step
| Tensor_backward | Tensor_squeeze | Tensor_detach | Tensor_numpy
| Tensor_to | Tensor_type | Tensor_argmax | Tensor_sum | Tensor_item
| Tensor_len | Tensor_size | Tensor_add | Tensor_mul | Tensor_div | getitem
| DataLoader | DataLoader_iter | DataLoader_len | DataLoader_dataset | Dataset_len
| Accuracy_call
| make_circles | train_test_split | FashionMNIST | ToTensor
| print.

#[export] Instance api_eq_dec : EqDecision api.
Proof. solve_decision. Defined.

(** Python values.  [VObj f args] is an object of a library, opaque to the
    program; when the library is left uninterpreted it names the call that
    produced the object. *)
#[warnings="-register-all"]
Inductive value :=
| VNone
| VBool (b : bool)
| VInt (n : Z)
| VFloat (q : Q)
| VStr (s : string)
| VTuple (vs : list value)
| VTensor (t : tensor)
| VBools (bs : list bool)
| VObj (f : api) (args : list value).

(** A float the program writes or computes is carried as the rational its
    literal or its exact arithmetic denotes; where rounding decides a
    result the floats of [PyFloat] are used instead. *)

(** A keyword argument is passed as the pair of its name and value, and a
    slice [a:b] as the triple of the word [slice] and its bounds. *)
Definition kw (name : string) (v : value) : value := VTuple [VStr name; v].
Definition slice (a b : value) : value := VTuple [VStr "slice"; a; b].

Inductive prog :=
| Ret (v : value)                                   (* the value of the cell or function *)
| Throw (e : exn)                                   (* raised by Python itself *)
| Do (f : api) (args : list value) (k : value -> prog)   (* [x = f(args)], then [k x] *)
| With_inference_mode (body : prog) (k : value -> prog). (* [with torch.inference_mode(): body] *)

(** [x <~ c; k] runs [c] and binds its result to [x] in [k]. *)
Notation "x <~ c ; k" := (c (fun x => k))
  (at level 20, c at level 100, k at level 200, only parsing).

(** Calling a function whose body is a program. *)
Fixpoint pbind (p : prog) (k : value -> prog) : prog :=
  match p with
  | Ret v => k v
  | Throw e => Throw e
  | Do f args k1 => Do f args (fun x => pbind (k1 x) k)
  | With_inference_mode body k1 => With_inference_mode body (fun x => pbind (k1 x) k)
  end.

(** [for x in xs: body], the loop variables being threaded as [s]. *)
Fixpoint for_each {A S} (xs : list A) (body : A -> S -> (S -> prog) -> prog)
    (s : S) (k : S -> prog) : prog :=
  match xs with
  | [] => k s
  | x :: xs' => body x s (fun s' => for_each xs' body s' k)
  end.

(** The truth value Python gives a value in a condition. *)
Definition truthy (v : value) : bool :=
  match v with
  | VNone => false
  | VBool b => b
  | VInt n => negb (n =? 0)
  | VFloat q => negb (Qeq_bool q 0)
  | VStr s => match s with EmptyString => false | String _ _ => true end
  | VTuple vs => match vs with [] => false | _ => true end
  | VTensor _ | VBools _ | VObj _ _ => true
  end.

(** [range(n)] *)
Definition range (n : nat) : list Z := map Z.of_nat (seq 0 n).

(** *** Running a program against the libraries

    A handler gives every call its outcome and its effect on the world [W]
    (everything the libraries own: parameters, gradients, files, the
    screen).  [run] returns the outcome of the program, the final world and
    the calls made, in order, each with the worlds before and after it. *)
Inductive outcome :=
| Returned (v : value)
| Raised (e : exn).

Record entry (W : Type) := Entry {
  e_api : api;
  e_args : list value;
  e_out : outcome;
  e_pre : W;
  e_post : W;
  e_inside : nat   (* how many inference-mode blocks enclose the call *)
}.
Arguments Entry {W}.
Arguments e_api {W}.
Arguments e_args {W}.
Arguments e_out {W}.
Arguments e_pre {W}.
Arguments e_post {W}.
Arguments e_inside {W}.

Definition handler (W : Type) := api -> list value -> W -> outcome * W.

(** [run h d p w]: [d] is the number of inference-mode blocks already
    entered; a cell starts at 0. *)
Fixpoint run {W} (h : handler W) (d : nat) (p : prog) (w : W)
  : outcome * W * list (entry W) :=
  match p with
  | Ret v => (Returned v, w, [])
  | Throw e => (Raised e, w, [])
  | Do f args k =>
      let '(o, w1) := h f args w in
      let here := Entry f args o w w1 d in
      match o with
      | Returned v =>
          let '(o', w2, log) := run h d (k v) w1 in (o', w2, here :: log)
      | Raised e => (Raised e, w1, [here])
      end
  | With_inference_mode body k =>
      let '(o, w1) := h inference_mode_enter [] w in
      let enter := Entry inference_mode_enter [] o w w1 d in
      match o with
      | Raised e => (Raised e, w1, [enter])
      | Returned _ =>
          (* the block runs; the context is left whether or not it raised *)
          let '(ob, w2, logb) := run h (S d) body w1 in
          let '(ox, w3) := h inference_mode_exit [] w2 in
          let exit := Entry inference_mode_exit [] ox w2 w3 d in
          match ox, ob with
          | Raised e, _ => (Raised e, w3, enter :: logb ++ [exit])
          | Returned _, Raised e => (Raised e, w3, enter :: logb ++ [exit])
          | Returned _, Returned v =>
              let '(o', w4, log) := run h d (k v) w3 in
              (o', w4, enter :: logb ++ exit :: log)
          end
      end
  end.

(** ** Python slicing of a one-dimensional sequence

    [l[:i]] and [l[i:]]: a negative bound counts from the end, and every
    bound is clamped to the length. *)

Definition norm_index (len i : Z) : Z :=
  if i <? 0 then Z.max 0 (len + i) else Z.min i len.

Definition slice_to {A} (i : Z) (l : list A) : list A :=
  take (Z.to_nat (norm_index (Z.of_nat (length l)) i)) l.

Definition slice_from {A} (i : Z) (l : list A) : list A :=
  drop (Z.to_nat (norm_index (Z.of_nat (length l)) i)) l.

(** ** The workflow notebook: data and the 80/20 split *)

Module Workflow.

Definition true_weight : PyFloat.float := PyFloat.lit_0_7.
Definition true_bias : PyFloat.float := PyFloat.lit_0_3.

(** [torch.arange(start, end, step)]: the number of elements is
    [ceil((end - start) / step)] computed in double precision; element [i]
    is [start + step * i], stored as float32. *)
Definition arange_size (start end_ step : PyFloat.float) : option Z :=
  PyFloat.ceil (PyFloat.div (PyFloat.sub end_ start) step).

Definition torch_arange (start end_ step : PyFloat.float) : option tensor :=
  match arange_size start end_ step with
  | Some n =>
      Some (map (fun i => F32.of_double
                   (PyFloat.add start (PyFloat.mul step (PyFloat.of_int (Z.of_nat i)))))
                (seq 0 (Z.to_nat n)))
  | None => None
  end.

(** [predictor = torch.arange(0, 1, 0.02)] *)
Definition predictor : tensor :=
  default [] (torch_arange (PyFloat.of_int 0) (PyFloat.of_int 1) PyFloat.lit_0_02).

(** [target = true_weight * predictor + true_bias]: the Python scalars are
    cast to the tensor's dtype and applied element by element. *)
Definition affine (w b : PyFloat.float) (x : tensor) : tensor :=
  map (fun xi => F32.add (F32.mul (F32.of_double w) xi) (F32.of_double b)) x.

Definition target : tensor := affine true_weight true_bias predictor.

(** [train_cutoff = int(0.8 * predictor.size(dim=0))] *)
Definition train_cutoff (predictor : tensor) : option Z :=
  PyFloat.to_int
    (PyFloat.mul PyFloat.lit_0_8 (PyFloat.of_int (Z.of_nat (length predictor)))).

Record split_result := {
  train_predictor : tensor;
  train_target : tensor;
  test_predictor : tensor;
  test_target : tensor
}.

(** The split cell:
    [train_predictor, train_target = predictor[:train_cutoff], target[:train_cutoff]]
    [test_predictor, test_target = predictor[train_cutoff:], target[train_cutoff:]] *)
Definition split (predictor target : tensor) : option split_result :=
  match train_cutoff predictor with
  | Some c =>
      Some {| train_predictor := slice_to c predictor;
              train_target := slice_to c target;
              test_predictor := slice_from c predictor;
              test_target := slice_from c target |}
  | None => None
  end.

(** *** [LinearRegressionModel]

    The two parameters are tensors of shape [[1]] ([torch.randn(1)]); a
    parameter is recorded by its single element. *)
Record LinearRegressionModel := {
  _weight : F32.t;
  _bias : F32.t;
  training : bool
}.

(** [LinearRegressionModel()]: both parameters drawn at random, here
    [w0] and [b0]; a fresh module is in training state. *)
Definition new_model (w0 b0 : F32.t) : LinearRegressionModel :=
  {| _weight := w0; _bias := b0; training := true |}.

Definition weight (self : LinearRegressionModel) : tensor := [_weight self].
Definition bias (self : LinearRegressionModel) : tensor := [_bias self].

(** Element-wise tensor arithmetic with broadcasting of a one-element
    operand; [None] is the [RuntimeError] on incompatible sizes. *)
Definition broadcast2 (f : F32.t -> F32.t -> F32.t) (a b : tensor) : option tensor :=
  match a, b with
  | [x], _ => Some (map (f x) b)
  | _, [y] => Some (map (fun x => f x y) a)
  | _, _ => if (length a =? length b)%nat then Some (zip_with f a b) else None
  end.

(** [forward]: [return self.weight * predictor + self.bias] *)
Definition forward (self : LinearRegressionModel) (predictor : tensor) : option tensor :=
  wx ← broadcast2 F32.mul (weight self) predictor;
  broadcast2 F32.add wx (bias self).

(** [Module.eval()] *)
Definition eval (self : LinearRegressionModel) : LinearRegressionModel :=
  {| _weight := _weight self; _bias := _bias self; training := false |}.

(** [Module.state_dict()]: the registered parameters under their
    attribute names. *)
Definition state_dict (self : LinearRegressionModel) : gmap string tensor :=
  <["_weight" := weight self]> (<["_bias" := bias self]> ∅).

(** [Module.load_state_dict(state)] with the default [strict=True]: the
    keys must be exactly the module's parameter names and every tensor
    must have the parameter's shape. *)
Definition load_state_dict (self : LinearRegressionModel) (state : gmap string tensor)
  : result LinearRegressionModel :=
  if bool_decide (dom state = dom (state_dict self)) then
    match state !! "_weight", state !! "_bias" with
    | Some [w], Some [b] =>
        Ok {| _weight := w; _bias := b; training := training self |}
    | _, _ => Raise RuntimeError
    end
  else Raise RuntimeError.

(** *** Persistence cells *)

(** [model_path = Path("models")] and [model_path / "linear_regressor.pth"] *)
Definition model_path : FS.path := ["models"%string].
Definition model_file : FS.path := "linear_regressor.pth"%string :: model_path.

(** The saving cell:
    [model_path.mkdir(parents=True, exist_ok=True)]
    [torch.save(obj=sample_model.state_dict(), f=model_path / "linear_regressor.pth")] *)
Definition save_cell (sample_model : LinearRegressionModel) (fs : gmap FS.path FS.node)
  : result (gmap FS.path FS.node) :=
  fs1 ← FS.mkdir true true model_path fs;
  FS.torch_save (state_dict sample_model) model_file fs1.

(** The loading cell:
    [trained_model = LinearRegressionModel()]
    [trained_model.load_state_dict(torch.load(f=model_path / "linear_regressor.pth"))]
    [trained_model.eval()] *)
Definition load_cell (w0 b0 : F32.t) (fs : gmap FS.path FS.node)
  : result LinearRegressionModel :=
  let trained_model := new_model w0 b0 in
  state ← FS.torch_load model_file fs;
  trained_model ← load_state_dict trained_model state;
  Ok (eval trained_model).

(** *** The training cell

    [torch.manual_seed(42)], [epoch_count = 100], two empty lists, and the
    loop over [range(epoch_count)].  The globals of the notebook the cell
    reads are its parameters. *)
Definition training_epoch
    (sample_model loss_function optimizer : value)
    (train_predictor train_target test_predictor test_target : value)
    (epoch : Z) (losses : list value * list value)
    (k : list value * list value -> prog) : prog :=
  _u <~ Do Module_train [sample_model];
  prediction <~ Do Module_call [sample_model; train_predictor];
  loss <~ Do Loss_call [loss_function; prediction; train_target];
  _u <~ Do Optimizer_zero_grad [optimizer];
  _u <~ Do Tensor_backward [loss];
  _u <~ Do Optimizer_step [optimizer];
  _u <~ Do Module_eval [sample_model];
  test_loss <~ With_inference_mode (
    test_prediction <~ Do Module_call [sample_model; test_predictor];
    test_loss <~ Do Loss_call [loss_function; test_prediction; test_target];
    Ret test_loss);
  l <~ Do Tensor_detach [loss];
  l <~ Do Tensor_numpy [l];
  tl <~ Do Tensor_detach [test_loss];
  tl <~ Do Tensor_numpy [tl];
  k (losses.1 ++ [l], losses.2 ++ [tl]).

Definition training_loop
    (sample_model loss_function optimizer : value)
    (train_predictor train_target test_predictor test_target : value)
    (epoch_count : nat) : prog :=
  _u <~ Do Torch_manual_seed [VInt 42];
  losses <~ for_each (range epoch_count)
              (training_epoch sample_model loss_function optimizer
                 train_predictor train_target test_predictor test_target)
              ([], []);
  Ret (VTuple [VTuple losses.1; VTuple losses.2]).

Definition training_cell
    (sample_model loss_function optimizer : value)
    (train_predictor train_target test_predictor test_target : value) : prog :=
  training_loop sample_model loss_function optimizer
    train_predictor train_target test_predictor test_target 100.

(** *** The data cells, as a program

    The three cells that make [predictor] and [target] and split them. *)
Definition data_cells : prog :=
  let true_weight := VFloat (7 # 10) in
  let true_bias := VFloat (3 # 10) in
  predictor <~ Do Torch_arange [VInt 0; VInt 1; VFloat (2 # 100)];
  _u <~ Do print [predictor];
  wx <~ Do Tensor_mul [true_weight; predictor];
  target <~ Do Tensor_add [wx; true_bias];
  _u <~ Do print [target];
  n <~ Do Tensor_size [predictor; kw "dim" (VInt 0)];
  match n with
  | VInt n =>
      match PyFloat.to_int (PyFloat.mul PyFloat.lit_0_8 (PyFloat.of_int n)) with
      | Some train_cutoff =>
          train_predictor <~ Do getitem [predictor; slice VNone (VInt train_cutoff)];
          train_target <~ Do getitem [target; slice VNone (VInt train_cutoff)];
          test_predictor <~ Do getitem [predictor; slice (VInt train_cutoff) VNone];
          test_target <~ Do getitem [target; slice (VInt train_cutoff) VNone];
          Ret (VTuple [train_predictor; train_target; test_predictor; test_target])
      | None => Throw TypeError
      end
  | _ => Throw TypeError
  end.

(** The prediction cell:
    [new_predictor = torch.arange(1.02, 1.20, 0.02)], [sample_model.eval()],
    the forward pass on [new_predictor] in inference mode, and the print of
    the prediction. *)
Definition prediction_cell (sample_model : value) : prog :=
  new_predictor <~ Do Torch_arange [VFloat (102 # 100); VFloat (120 # 100);
                                    VFloat (2 # 100)];
  _u <~ Do Module_eval [sample_model];
  new_prediction <~ With_inference_mode (
    new_prediction <~ Do Module_call [sample_model; new_predictor];
    Ret new_prediction);
  _u <~ Do print [new_prediction];
  Ret VNone.

End Workflow.

(** ** The classification notebook: predictions and accuracy *)

Module Classification.

(** *** From logits to classes

    [torch.sigmoid] is the logistic function and [torch.round] rounds to
    the nearest integer, halves to the even neighbour.  Both are stated on
    real-valued elements. *)
Definition torch_sigmoid (x : R) : R := (1 / (1 + exp (- x)))%R.

Definition torch_round (x : R) : R :=
  let n := Int_part x in
  let f := frac_part x in
  if Rlt_dec f (1 / 2) then IZR n
  else if Rlt_dec (1 / 2) f then IZR (n + 1)
  else if Z.even n then IZR n else IZR (n + 1).

(** [torch.round(torch.sigmoid(logits))], element by element. *)
Definition classify (logit : R) : R := torch_round (torch_sigmoid logit).

(** *** [accuracy_function] *)

(** [torch.eq(a, b)]: element-wise IEEE equality, a one-element operand
    being broadcast; [None] is the [RuntimeError] on incompatible sizes. *)
Definition torch_eq (a b : tensor) : option (list bool) :=
  match a, b with
  | [x], _ => Some (map (F32.eqb x) b)
  | _, [y] => Some (map (fun x => F32.eqb x y) a)
  | _, _ => if (length a =? length b)%nat then Some (zip_with F32.eqb a b) else None
  end.

(** [.sum().item()] of a boolean tensor: the number of [True] entries, as
    a Python int. *)
Definition sum_item (l : list bool) : Z :=
  fold_right (fun b acc => Z.b2z b + acc) 0 l.

(** Python's [/] on two ints; the float it returns is carried as the
    rational it denotes. *)
Definition true_div (a b : Z) : result Q :=
  if b =? 0 then Raise ZeroDivisionError else Ok (inject_Z a / inject_Z b)%Q.

(** [def accuracy_function(test_output, test_classification):]
    [    correct = torch.eq(test_output, test_classification).sum().item()]
    [    return (correct / len(test_classification)) * 100] *)
Definition accuracy_function (test_output test_classification : tensor) : result Q :=
  match torch_eq test_output test_classification with
  | None => Raise RuntimeError
  | Some equal =>
      let correct := sum_item equal in
      q ← true_div correct (Z.of_nat (length test_classification));
      Ok (q * 100)%Q
  end.

(** The claim's own words, for comparison with the code: positions [i]
    at which the two tensors hold equal values, counted over the index
    range. *)
Definition agree_at (a b : tensor) (i : nat) : bool :=
  match a !! i, b !! i with
  | Some x, Some y => F32.eqb x y
  | _, _ => false
  end.

Definition equal_positions (a b : tensor) : nat :=
  length (List.filter (agree_at a b) (seq 0 (length a))).

Definition fraction_equal (a b : tensor) : Q :=
  (inject_Z (Z.of_nat (equal_positions a b)) / inject_Z (Z.of_nat (length a)))%Q.

(** *** The training cells

    The notebook has three of them, the same text but for the model trained,
    [epoch_count] (100, 100, 10000) and the printing period (10, 10, 1000).
    The loop keeps the last [test_classification] for the cell that follows. *)
Definition training_epoch
    (model loss_function optimizer : value)
    (train_input train_output test_input test_output : value)
    (period : Z) (epoch : Z) (test_classification : value)
    (k : value -> prog) : prog :=
  _u <~ Do Module_train [model];
  out <~ Do Module_call [model; train_input];
  train_logits <~ Do Tensor_squeeze [out];
  p <~ Do Torch_sigmoid [train_logits];
  train_classification <~ Do Torch_round [p];
  train_loss <~ Do Loss_call [loss_function; train_logits; train_output];
  _u <~ Do Optimizer_zero_grad [optimizer];
  _u <~ Do Tensor_backward [train_loss];
  _u <~ Do Optimizer_step [optimizer];
  _u <~ Do Module_eval [model];
  r <~ With_inference_mode (
    out <~ Do Module_call [model; test_input];
    test_logits <~ Do Tensor_squeeze [out];
    p <~ Do Torch_sigmoid [test_logits];
    test_classification <~ Do Torch_round [p];
    test_loss <~ Do Loss_call [loss_function; test_logits; test_output];
    Ret (VTuple [test_classification; test_loss]));
  match r with
  | VTuple [test_classification; test_loss] =>
      if epoch mod period =? 0 then
        _u <~ Do print [VStr "Epoch: {epoch} | Loss: {train_loss:.5f} | Test loss: {test_loss:.5f}";
                        VInt epoch; train_loss; test_loss];
        k test_classification
      else k test_classification
  | _ => Throw TypeError
  end.

Definition training_loop
    (model loss_function optimizer device : value)
    (train_input train_output test_input test_output : value)
    (period : Z) (epoch_count : nat) : prog :=
  _u <~ Do Torch_manual_seed [VInt 42];
  train_input <~ Do Tensor_to [train_input; device];
  test_input <~ Do Tensor_to [test_input; device];
  train_output <~ Do Tensor_to [train_output; device];
  test_output <~ Do Tensor_to [test_output; device];
  test_classification <~ for_each (range epoch_count)
              (training_epoch model loss_function optimizer
                 train_input train_output test_input test_output period)
              VNone;
  Ret test_classification.

(** *** The data cells, as a program

    The cells that make [points] and [classification], turn them into
    tensors and split them (the cells between them only print and plot). *)
Definition data_cells : prog :=
  let sample_size := VInt 1000 in
  r <~ Do make_circles [sample_size; kw "noise" (VFloat (3 # 100));
                        kw "random_state" (VInt 42)];
  match r with
  | VTuple [points; classification] =>
      p10 <~ Do getitem [points; slice VNone (VInt 10)];
      _u <~ Do print [p10];
      _u <~ Do print [];
      c10 <~ Do getitem [classification; slice VNone (VInt 10)];
      _u <~ Do print [c10];
      t <~ Do Torch_from_numpy [points];
      points <~ Do Tensor_type [t; VStr "torch.float"];
      t <~ Do Torch_from_numpy [classification];
      classification <~ Do Tensor_type [t; VStr "torch.float"];
      p10 <~ Do getitem [points; slice VNone (VInt 10)];
      _u <~ Do print [p10];
      _u <~ Do print [];
      c10 <~ Do getitem [classification; slice VNone (VInt 10)];
      _u <~ Do print [c10];
      r <~ Do train_test_split [points; classification;
                                kw "test_size" (VFloat (2 # 10));
                                kw "random_state" (VInt 42)];
      match r with
      | VTuple [train_input; test_input; train_output; test_output] =>
          Ret (VTuple [train_input; test_input; train_output; test_output])
      | _ => Throw TypeError
      end
  | _ => Throw TypeError
  end.

End Classification.

(** ** The computer-vision notebook: the training cell *)

Module Vision.

(** [a /= n] where [a] is the Python int [0] it was initialised to, or the
    tensor it has become after the first [+=]. *)
Definition idiv (a n : value) (k : value -> prog) : prog :=
  match a with
  | VInt z =>
      match n with
      | VInt m =>
          if m =? 0 then Throw ZeroDivisionError
          else k (VFloat (inject_Z z / inject_Z m))
      | _ => Throw TypeError
      end
  | _ => Do Tensor_div [a; n] k
  end.

(** [for x in dataloader]: the batches the loader yields, as one call. *)
Definition batches_of (dataloader : value) (k : list value -> prog) : prog :=
  bs <~ Do DataLoader_iter [dataloader];
  match bs with
  | VTuple l => k l
  | _ => Throw TypeError
  end.

(** [enumerate(xs)] *)
Definition enumerate {A} (xs : list A) : list (Z * A) :=
  zip (map Z.of_nat (seq 0 (length xs))) xs.

(** One pass of the inner loop over [enumerate(train_dataloader)]. *)
Definition train_batch
    (model loss_function optimizer DEVICE train_dataloader : value)
    (b : Z * value) (train_loss : value) (k : value -> prog) : prog :=
  let batch := b.1 in
  match b.2 with
  | VTuple [train_input; train_output] =>
      train_input <~ Do Tensor_to [train_input; DEVICE];
      train_output <~ Do Tensor_to [train_output; DEVICE];
      _u <~ Do Module_train [model];
      train_classification <~ Do Module_call [model; train_input];
      loss <~ Do Loss_call [loss_function; train_classification; train_output];
      train_loss <~ Do Tensor_add [train_loss; loss];
      _u <~ Do Optimizer_zero_grad [optimizer];
      _u <~ Do Tensor_backward [loss];
      _u <~ Do Optimizer_step [optimizer];
      if batch mod 400 =? 0 then
        n <~ Do Tensor_len [train_input];
        dataset <~ Do DataLoader_dataset [train_dataloader];
        total <~ Do Dataset_len [dataset];
        match n with
        | VInt n =>
            _u <~ Do print [VStr "Looked at {batch * len(train_input)}/{len(train_dataloader.dataset)} samples";
                            VInt (batch * n); total];
            k train_loss
        | _ => Throw TypeError
        end
      else k train_loss
  | _ => Throw TypeError
  end.

(** One pass of the loop over [test_dataloader], inside inference mode. *)
Definition test_batch
    (model loss_function accuracy_function DEVICE : value)
    (b : value) (s : value * value) (k : value * value -> prog) : prog :=
  match b with
  | VTuple [test_input; test_output] =>
      test_input <~ Do Tensor_to [test_input; DEVICE];
      test_output <~ Do Tensor_to [test_output; DEVICE];
      test_classification <~ Do Module_call [model; test_input];
      l <~ Do Loss_call [loss_function; test_classification; test_output];
      test_loss <~ Do Tensor_add [s.1; l];
      top <~ Do Tensor_argmax [test_classification; kw "dim" (VInt 1)];
      a <~ Do Accuracy_call [accuracy_function; test_output; top];
      test_accuracy <~ Do Tensor_add [s.2; a];
      k (test_loss, test_accuracy)
  | _ => Throw TypeError
  end.

Definition training_epoch
    (model loss_function optimizer accuracy_function DEVICE : value)
    (train_dataloader test_dataloader : value)
    (epoch : Z) (s : unit) (k : unit -> prog) : prog :=
  _u <~ Do print [VStr "Epoch: {epoch}\n--------"; VInt epoch];
  train_batches <~ batches_of train_dataloader;
  train_loss <~ for_each (enumerate train_batches)
                  (train_batch model loss_function optimizer DEVICE train_dataloader)
                  (VInt 0);
  n <~ Do DataLoader_len [train_dataloader];
  train_loss <~ idiv train_loss n;
  _u <~ Do Module_eval [model];
  r <~ With_inference_mode (
    test_batches <~ batches_of test_dataloader;
    s <~ for_each test_batches
           (test_batch model loss_function accuracy_function DEVICE)
           (VInt 0, VInt 0);
    n <~ Do DataLoader_len [test_dataloader];
    test_loss <~ idiv s.1 n;
    n <~ Do DataLoader_len [test_dataloader];
    test_accuracy <~ idiv s.2 n;
    Ret (VTuple [test_loss; test_accuracy]));
  match r with
  | VTuple [test_loss; test_accuracy] =>
      _u <~ Do print [VStr "\nTrain loss: {train_loss:.5f} | Test loss: {test_loss:.5f}, Test acc: {test_accuracy:.2f}%\n";
                      train_loss; test_loss; test_accuracy];
      k tt
  | _ => Throw TypeError
  end.

Definition training_loop
    (model loss_function optimizer accuracy_function DEVICE : value)
    (train_dataloader test_dataloader : value) (epoch_count : nat) : prog :=
  _u <~ Do Torch_manual_seed [VInt 42];
  _u <~ for_each (range epoch_count)
          (training_epoch model loss_function optimizer accuracy_function DEVICE
             train_dataloader test_dataloader)
          tt;
  Ret VNone.

(** The cells that load the two datasets and wrap them in loaders
    ([BATCH_SIZE = 32]). *)
Definition data_cells : prog :=
  tr <~ Do ToTensor [];
  train_data <~ Do FashionMNIST [kw "root" (VStr "data"); kw "train" (VBool true);
                                 kw "download" (VBool true); kw "transform" tr;
                                 kw "target_transform" VNone];
  tr <~ Do ToTensor [];
  test_data <~ Do FashionMNIST [kw "root" (VStr "data"); kw "train" (VBool false);
                                kw "download" (VBool true); kw "transform" tr];
  let BATCH_SIZE := VInt 32 in
  train_dataloader <~ Do DataLoader [train_data; kw "batch_size" BATCH_SIZE;
                                     kw "shuffle" (VBool true)];
  test_dataloader <~ Do DataLoader [test_data; kw "batch_size" BATCH_SIZE;
                                    kw "shuffle" (VBool false)];
  Ret (VTuple [train_dataloader; test_dataloader]).

(** [epoch_count = 3] *)
Definition training_cell
    (model loss_function optimizer accuracy_function DEVICE : value)
    (train_dataloader test_dataloader : value) : prog :=
  training_loop model loss_function optimizer accuracy_function DEVICE
    train_dataloader test_dataloader 3.

End Vision.

(** ** The device

    [device = "cuda" if torch.cuda.is_available() else "cpu"], as the
    classification, computer-vision and fundamentals notebooks have it, and
    [x.to(device)] with the device so chosen. *)
Definition select_device : prog :=
  available <~ Do Torch_cuda_is_available [];
  Ret (if truthy available then VStr "cuda" else VStr "cpu").

Definition to_device (x : value) : prog :=
  device <~ pbind select_device;
  Do Tensor_to [x; device] Ret.

(** For comparison only, a move the notebooks do not make: the same call
    with the device fixed to ["cuda"]. *)
Definition to_cuda (x : value) : prog :=
  Do Tensor_to [x; VStr "cuda"] Ret.

(** ** The functions the notebooks define

    Every [def] of the four notebooks, as the program of the library calls
    its body makes. *)

Module Functions.

(** Workflow notebook, [class LinearRegressionModel(nn.Module)]. *)
Definition LinearRegressionModel_init (self : value) : prog :=
  _u <~ Do Module_init [self];
  t <~ Do Torch_randn [VInt 1; kw "dtype" (VStr "torch.float")];
  p <~ Do nn_Parameter [t; kw "requires_grad" (VBool true)];
  _u <~ Do Module_setattr [self; VStr "_weight"; p];
  t <~ Do Torch_randn [VInt 1; kw "dtype" (VStr "torch.float")];
  p <~ Do nn_Parameter [t; kw "requires_grad" (VBool true)];
  _u <~ Do Module_setattr [self; VStr "_bias"; p];
  Ret VNone.

(** [return self._weight] *)
Definition LinearRegressionModel_weight (self : value) : prog :=
  Do Module_getattr [self; VStr "_weight"] Ret.

(** [return self._bias] *)
Definition LinearRegressionModel_bias (self : value) : prog :=
  Do Module_getattr [self; VStr "_bias"] Ret.

(** [return self.weight * predictor + self.bias] *)
Definition LinearRegressionModel_forward (self predictor : value) : prog :=
  w <~ pbind (LinearRegressionModel_weight self);
  wx <~ Do Tensor_mul [w; predictor];
  b <~ pbind (LinearRegressionModel_bias self);
  Do Tensor_add [wx; b] Ret.

(** Classification notebook, [class CircleModelLinearLayers(nn.Module)]. *)
Definition CircleModelLinearLayers_init (self : value) : prog :=
  _u <~ Do Module_init [self];
  l <~ Do nn_Linear [kw "in_features" (VInt 2); kw "out_features" (VInt 5)];
  _u <~ Do Module_setattr [self; VStr "layer_1"; l];
  l <~ Do nn_Linear [kw "in_features" (VInt 5); kw "out_features" (VInt 1)];
  _u <~ Do Module_setattr [self; VStr "layer_2"; l];
  Ret VNone.

(** [return self.layer_2(self.layer_1(points))] *)
Definition CircleModelLinearLayers_forward (self points : value) : prog :=
  layer_2 <~ Do Module_getattr [self; VStr "layer_2"];
  layer_1 <~ Do Module_getattr [self; VStr "layer_1"];
  h1 <~ Do Module_call [layer_1; points];
  Do Module_call [layer_2; h1] Ret.

(** Classification notebook, [class CircleModelNonLinear(nn.Module)]. *)
Definition CircleModelNonLinear_init (self : value) : prog :=
  _u <~ Do Module_init [self];
  l <~ Do nn_Linear [kw "in_features" (VInt 2); kw "out_features" (VInt 5)];
  _u <~ Do Module_setattr [self; VStr "layer_1"; l];
  l <~ Do nn_Linear [kw "in_features" (VInt 5); kw "out_features" (VInt 1)];
  _u <~ Do Module_setattr [self; VStr "layer_2"; l];
  r <~ Do nn_ReLU [];
  _u <~ Do Module_setattr [self; VStr "relu"; r];
  Ret VNone.

(** [return self.layer_2(self.relu(self.layer_1(points)))] *)
Definition CircleModelNonLinear_forward (self points : value) : prog :=
  layer_2 <~ Do Module_getattr [self; VStr "layer_2"];
  relu <~ Do Module_getattr [self; VStr "relu"];
  layer_1 <~ Do Module_getattr [self; VStr "layer_1"];
  h1 <~ Do Module_call [layer_1; points];
  h2 <~ Do Module_call [relu; h1];
  Do Module_call [layer_2; h2] Ret.

(** Division and multiplication of Python numbers, as Python does them. *)
Definition py_percentage (correct n : value) : prog :=
  match correct, n with
  | VInt c, VInt n =>
      if n =? 0 then Throw ZeroDivisionError
      else Ret (VFloat (inject_Z c / inject_Z n * 100))
  | _, _ => Throw TypeError
  end.

(** Classification notebook:
    [def accuracy_function(test_output, test_classification):]
    [    correct = torch.eq(test_output, test_classification).sum().item()]
    [    return (correct / len(test_classification)) * 100] *)
Definition accuracy_function (test_output test_classification : value) : prog :=
  equal <~ Do Torch_eq [test_output; test_classification];
  total <~ Do Tensor_sum [equal];
  correct <~ Do Tensor_item [total];
  n <~ Do Tensor_len [test_classification];
  py_percentage correct n.

(** Computer-vision notebook, [class FashionMNISTLinear(nn.Module)]. *)
Definition FashionMNISTLinear_init (self input_shape hidden_units output_shape : value)
  : prog :=
  _u <~ Do Module_init [self];
  f <~ Do nn_Flatten [];
  l1 <~ Do nn_Linear [kw "in_features" input_shape; kw "out_features" hidden_units];
  l2 <~ Do nn_Linear [kw "in_features" hidden_units; kw "out_features" output_shape];
  s <~ Do nn_Sequential [f; l1; l2];
  _u <~ Do Module_setattr [self; VStr "layer_stack"; s];
  Ret VNone.

(** [return self.layer_stack(x)] *)
Definition FashionMNISTLinear_forward (self x : value) : prog :=
  layer_stack <~ Do Module_getattr [self; VStr "layer_stack"];
  Do Module_call [layer_stack; x] Ret.

(** Fundamentals notebook: [def reset_seed(): torch.manual_seed(seed=1)] *)
Definition reset_seed : prog :=
  _u <~ Do Torch_manual_seed [kw "seed" (VInt 1)];
  Ret VNone.

End Functions.

(** [relays p]: when [p] returns, its value is the value of the last library
    call it made, or [None] when it returns nothing: [p] adds nothing of its
    own to what the libraries computed. *)
Definition relays (p : prog) : Prop :=
  forall (W : Type) (h : handler W) (d : nat) (w w' : W) (v : value) (log : list (entry W)),
    run h d p w = (Returned v, w', log) ->
    v = VNone \/ exists e, last log = Some e /\ e_out e = Returned v.

(** [computes_percentage p]: when [p] returns, its value is the percentage
    it has itself computed from two integers given by the libraries, the
    results of its [Tensor.item] and [len] calls. *)
Definition computes_percentage (p : prog) : Prop :=
  forall (W : Type) (h : handler W) (d : nat) (w w' : W) (v : value) (log : list (entry W)),
    run h d p w = (Returned v, w', log) ->
    exists (c n : Z) (e_item e_len : entry W),
      In e_item log /\ e_api e_item = Tensor_item /\ e_out e_item = Returned (VInt c) /\
      In e_len log /\ e_api e_len = Tensor_len /\ e_out e_len = Returned (VInt n) /\
      n <> 0 /\
      v = VFloat (inject_Z c / inject_Z n * 100).

(** ** The training schema

    The calls of a training loop that the schema is about, read off the
    record of a run: the forward pass with the data it is given, the loss
    with the target it is measured against, [zero_grad], [backward], [step],
    and entering and leaving inference mode. *)
Inductive schema_event :=
| SForward (data : value)
| SLoss (target : value)
| SZeroGrad
| SBackward
| SStep
| SEnterInference
| SExitInference.

Definition schema_of {W} (e : entry W) : option schema_event :=
  match e_api e, e_args e with
  | Module_call, [_; data] => Some (SForward data)
  | Loss_call, [_; _; target] => Some (SLoss target)
  | Optimizer_zero_grad, _ => Some SZeroGrad
  | Tensor_backward, _ => Some SBackward
  | Optimizer_step, _ => Some SStep
  | inference_mode_enter, _ => Some SEnterInference
  | inference_mode_exit, _ => Some SExitInference
  | _, _ => None
  end.

Definition schema_trace {W} (log : list (entry W)) : list schema_event :=
  omap schema_of log.

(** One training step on data [x] with targets [y]. *)
Definition step_schema (b : value * value) : list schema_event :=
  [SForward b.1; SLoss b.2; SZeroGrad; SBackward; SStep].

(** One evaluation on data [x] with targets [y]. *)
Definition eval_schema (b : value * value) : list schema_event :=
  [SForward b.1; SLoss b.2].

(** An epoch: the training steps of its batches, then the evaluation of the
    test batches inside inference mode. *)
Definition epoch_schema (train test : list (value * value)) : list schema_event :=
  concat (map step_schema train) ++
  [SEnterInference] ++ concat (map eval_schema test) ++ [SExitInference].

(** [segment rest log t]: [log] is a pass followed by [rest], and the schema
    events of the pass are [t]. *)
Definition segment {W} (rest log : list (entry W)) (t : list schema_event) : Prop :=
  exists l1, log = l1 ++ rest /\ schema_trace l1 = t.

(** The schema events without their arguments: the shape of a loop. *)
Inductive schema_kind :=
| KForward | KLoss | KZeroGrad | KBackward | KStep | KEnterInference | KExitInference.

Definition kind_of (e : schema_event) : schema_kind :=
  match e with
  | SForward _ => KForward
  | SLoss _ => KLoss
  | SZeroGrad => KZeroGrad
  | SBackward => KBackward
  | SStep => KStep
  | SEnterInference => KEnterInference
  | SExitInference => KExitInference
  end.

Definition shape {W} (log : list (entry W)) : list schema_kind :=
  map kind_of (schema_trace log).

(** The shape the claim words: forward, loss, [zero_grad], [backward],
    [step], and then the evaluation pass in inference mode. *)
Definition unit_shape : list schema_kind :=
  [KForward; KLoss; KZeroGrad; KBackward; KStep;
   KEnterInference; KForward; KLoss; KExitInference].

(** A program that never raises an exception of its own. *)
Inductive throw_free : prog -> Prop :=
| tf_Ret (v : value) : throw_free (Ret v)
| tf_Do (f : api) (args : list value) (k : value -> prog) :
    (forall v, throw_free (k v)) -> throw_free (Do f args k)
| tf_With (body : prog) (k : value -> prog) :
    throw_free body -> (forall v, throw_free (k v)) ->
    throw_free (With_inference_mode body k).

(** ** Where parameters can change

    [never_calls f p]: no run of [p] calls [f].  [steps_outside_inference p]:
    no inference-mode block of [p] calls [optimizer.step]. *)
Inductive never_calls (f : api) : prog -> Prop :=
| nc_Ret (v : value) : never_calls f (Ret v)
| nc_Throw (e : exn) : never_calls f (Throw e)
| nc_Do (g : api) (args : list value) (k : value -> prog) :
    g <> f -> (forall v, never_calls f (k v)) -> never_calls f (Do g args k)
| nc_With (body : prog) (k : value -> prog) :
    inference_mode_enter <> f -> inference_mode_exit <> f ->
    never_calls f body -> (forall v, never_calls f (k v)) ->
    never_calls f (With_inference_mode body k).

Inductive steps_outside_inference : prog -> Prop :=
| so_Ret (v : value) : steps_outside_inference (Ret v)
| so_Throw (e : exn) : steps_outside_inference (Throw e)
| so_Do (f : api) (args : list value) (k : value -> prog) :
    (forall v, steps_outside_inference (k v)) ->
    steps_outside_inference (Do f args k)
| so_With (body : prog) (k : value -> prog) :
    never_calls Optimizer_step body ->
    (forall v, steps_outside_inference (k v)) ->
    steps_outside_inference (With_inference_mode body k).

(** The worlds of a record follow one another: each call starts in the
    world the previous one left, from [w] to [w']. *)
Fixpoint chained {W} (w : W) (log : list (entry W)) (w' : W) : Prop :=
  match log with
  | [] => w' = w
  | e :: log' => e_pre e = w /\ chained (e_post e) log' w'
  end.

(** Every entry of a record is what the handler did of the call. *)
Definition faithful {W} (h : handler W) (log : list (entry W)) : Prop :=
  Forall (fun e => h (e_api e) (e_args e) (e_pre e) = (e_out e, e_post e)) log.

(** ** How a run ends when a call fails *)
Definition returned_ok {W} (e : entry W) : Prop := exists v, e_out e = Returned v.

(** [aborted o log]: some call of [log] raised; every call before it had
    returned; after it nothing was called but the exits of the inference-mode
    blocks being left; and the run ended by an exception, the failing call's
    own unless such an exit raised in turn. *)
Definition aborted {W} (o : outcome) (log : list (entry W)) : Prop :=
  exists l1 e l2 x x',
    log = l1 ++ e :: l2 /\
    Forall returned_ok l1 /\
    e_out e = Raised x /\
    Forall (fun e' => e_api e' = inference_mode_exit) l2 /\
    o = Raised x' /\
    (Forall returned_ok l2 -> x' = x).

(** ** Where the data comes from

    The calls that bring data into being: the loaders and the generators. *)
Definition creates_data (f : api) : bool :=
  match f with
  | make_circles | FashionMNIST | Torch_arange | Torch_randn => true
  | _ => false
  end.

(** The data-creating calls of a run, in order, with their arguments. *)
Definition data_calls {W} (log : list (entry W)) : list (api * list value) :=
  map (fun e => (e_api e, e_args e))
      (List.filter (fun e => creates_data (e_api e)) log).

(** The data-creating calls an object of the stand-in libraries derives
    from. *)
Fixpoint sources (v : value) : list (api * list value) :=
  match v with
  | VObj f args =>
      (if creates_data f then [(f, args)] else []) ++ flat_map sources args
  | VTuple vs => flat_map sources vs
  | _ => []
  end.

(** [from c v]: the object [v] derives from the data-creating call [c] and
    from no other. *)
Definition from (c : api * list value) (v : value) : Prop :=
  sources v <> [] /\ Forall (eq c) (sources v).

(** The call [make_circles(1000, noise=0.03, random_state=42)]. *)
Definition the_make_circles : api * list value :=
  (make_circles, [VInt 1000; kw "noise" (VFloat (3 # 100)); kw "random_state" (VInt 42)]).

(** The calls [FashionMNIST(root="data", train=..., download=True,
    transform=tr, ...)], [tr] being a [ToTensor()]. *)
Definition the_FashionMNIST_train (tr : value) : api * list value :=
  (FashionMNIST, [kw "root" (VStr "data"); kw "train" (VBool true);
                  kw "download" (VBool true); kw "transform" tr;
                  kw "target_transform" VNone]).

Definition the_FashionMNIST_test (tr : value) : api * list value :=
  (FashionMNIST, [kw "root" (VStr "data"); kw "train" (VBool false);
                  kw "download" (VBool true); kw "transform" tr]).

(** The calls [torch.arange(0, 1, 0.02)] and
    [torch.arange(1.02, 1.20, 0.02)]. *)
Definition the_arange : api * list value :=
  (Torch_arange, [VInt 0; VInt 1; VFloat (2 # 100)]).

Definition the_new_arange : api * list value :=
  (Torch_arange, [VFloat (102 # 100); VFloat (120 # 100); VFloat (2 # 100)]).

(** ** A stand-in for the libraries

    Every call succeeds and returns an object named after the call, or the
    tuple of its components where the program unpacks one; loaders yield
    [batches] batches; the world counts the optimizer steps taken
    (which stands for the parameters, changed by each step) and the calls
    made, and a call fails when [fail_at] says so. *)
Record world := World {
  steps : nat;
  calls : nat;
  fail_at : option nat
}.

Definition nominal (batches : nat) (f : api) (args : list value) : value :=
  match f with
  | DataLoader_iter =>
      VTuple (map (fun i => VTuple [VObj getitem (args ++ [VInt (Z.of_nat i); VInt 0]);
                                    VObj getitem (args ++ [VInt (Z.of_nat i); VInt 1])])
                  (seq 0 batches))
  | DataLoader_len => VInt (Z.of_nat batches)
  | Dataset_len | Tensor_len => VInt 32
  | Tensor_item => VInt 16
  | Tensor_size => VInt 50
  | make_circles =>
      VTuple [VObj getitem [VObj f args; VInt 0]; VObj getitem [VObj f args; VInt 1]]
  | train_test_split =>
      VTuple [VObj getitem [VObj f args; VInt 0]; VObj getitem [VObj f args; VInt 1];
              VObj getitem [VObj f args; VInt 2]; VObj getitem [VObj f args; VInt 3]]
  | Module_train | Module_eval | Optimizer_zero_grad | Optimizer_step
  | Tensor_backward | Torch_manual_seed | print
  | inference_mode_enter | inference_mode_exit => VNone
  | _ => VObj f args
  end.

Definition stand_in (batches : nat) : handler world := fun f args w =>
  let w' := {| steps := match f with Optimizer_step => S (steps w) | _ => steps w end;
               calls := S (calls w);
               fail_at := fail_at w |} in
  if bool_decide (fail_at w = Some (calls w))
  then (Raised (LibraryError (calls w)), w')
  else (Returned (nominal batches f args), w').

Definition world0 : world :=
  {| steps := 0; calls := 0; fail_at := None |}.

(** The value of a run that returned. *)
Definition returned (o : outcome) : value :=
  match o with
  | Returned v => v
  | Raised _ => VNone
  end.

(** Stand-ins for the globals the training cells read. *)
Definition a_model : value := VObj Module_init [].
Definition a_loss_function : value := VObj Loss_call [].
Definition an_optimizer : value := VObj Optimizer_step [].
Definition an_accuracy : value := VObj Accuracy_call [].
Definition a_device : value := VStr "cpu".
Definition train_x : value := VObj getitem [VStr "train"; VInt 0].
Definition train_y : value := VObj getitem [VStr "train"; VInt 1].
Definition test_x : value := VObj getitem [VStr "test"; VInt 0].
Definition test_y : value := VObj getitem [VStr "test"; VInt 1].
Definition train_loader : value := VObj DataLoader_iter [VStr "train"].
Definition test_loader : value := VObj DataLoader_iter [VStr "test"].

(** Libraries on a machine without CUDA: [torch.cuda.is_available()] is
    [False] and a move to ["cuda"] raises. *)
Definition cpu_only : handler unit := fun f args w =>
  match f, args with
  | Torch_cuda_is_available, _ => (Returned (VBool false), w)
  | (Tensor_to | Module_to), [_; VStr dev] =>
      if String.eqb dev "cuda" then (Raised RuntimeError, w)
      else (Returned (VObj f args), w)
  | _, _ => (Returned (VObj f args), w)
  end.

(** A world in which the call number [k] (from 0) fails. *)
Definition world_failing_at (k : nat) : world :=
  {| steps := 0; calls := 0; fail_at := Some k |}.

(** ** The tensor library on concrete tensors

    The calls [forward] and [accuracy_function] make, interpreted on
    one-dimensional float32 tensors; [m] is the module whose attributes are
    read. *)
Definition tensor_op (f : F32.t -> F32.t -> F32.t) (a b : tensor) : outcome :=
  match Workflow.broadcast2 f a b with
  | Some t => Returned (VTensor t)
  | None => Raised RuntimeError
  end.

Definition tensor_lib (m : Workflow.LinearRegressionModel) : handler unit :=
  fun f args w =>
    match f, args with
    | Torch_eq, [VTensor a; VTensor b] =>
        match Classification.torch_eq a b with
        | Some l => (Returned (VBools l), w)
        | None => (Raised RuntimeError, w)
        end
    | Tensor_sum, [VBools l] => (Returned (VInt (Classification.sum_item l)), w)
    | Tensor_item, [VInt n] => (Returned (VInt n), w)
    | Tensor_len, [VTensor t] => (Returned (VInt (Z.of_nat (length t))), w)
    | Module_getattr, [_; VStr name] =>
        if String.eqb name "_weight" then (Returned (VTensor (Workflow.weight m)), w)
        else if String.eqb name "_bias" then (Returned (VTensor (Workflow.bias m)), w)
        else (Raised (LibraryError 0), w)
    | Tensor_mul, [VTensor a; VTensor b] => (tensor_op F32.mul a b, w)
    | Tensor_add, [VTensor a; VTensor b] => (tensor_op F32.add a b, w)
    | _, _ => (Raised TypeError, w)
    end.

(** ** Further notions used to state what the code does

    [count_equal y a]: how many elements of [a] compare equal to [y];
    [is_nan x]: [x] is the float NaN. *)
Definition count_equal (y : F32.t) (a : tensor) : nat :=
  length (List.filter (fun x => F32.eqb x y) a).

Definition is_nan (x : F32.t) : bool :=
  match x with S754_nan => true | _ => false end.

(** ** Monitors of a run

    A monitor reads the record of a run call by call: in its state [s] it
    says whether a call of [f] on [args] at depth [d] may be made
    ([allows]), and what its state is once the call has ended with an
    outcome ([after]).  [accepted M s log]: every call of [log] was allowed
    when it was made.  [safe M d p s Q]: whatever the libraries answer, the
    program [p] only makes calls the monitor allows, and if it returns it
    leaves the monitor in a state satisfying [Q]. *)
Record monitor (St : Type) := Monitor {
  allows : St -> api -> list value -> nat -> Prop;
  after : St -> api -> list value -> nat -> outcome -> St
}.
Arguments Monitor {St}.
Arguments allows {St}.
Arguments after {St}.

Fixpoint accepted {St W} (M : monitor St) (s : St) (log : list (entry W)) : Prop :=
  match log with
  | [] => True
  | e :: log' =>
      allows M s (e_api e) (e_args e) (e_inside e) /\
      accepted M (after M s (e_api e) (e_args e) (e_inside e) (e_out e)) log'
  end.

Fixpoint state_after {St W} (M : monitor St) (s : St) (log : list (entry W)) : St :=
  match log with
  | [] => s
  | e :: log' => state_after M (after M s (e_api e) (e_args e) (e_inside e) (e_out e)) log'
  end.

Fixpoint safe {St} (M : monitor St) (d : nat) (p : prog) (s : St) (Q : St -> Prop) : Prop :=
  match p with
  | Ret _ => Q s
  | Throw _ => True
  | Do f args k =>
      allows M s f args d /\
      forall v, safe M d (k v) (after M s f args d (Returned v)) Q
  | With_inference_mode body k =>
      allows M s inference_mode_enter [] d /\
      (forall s2, allows M s2 inference_mode_exit [] d) /\
      forall v0,
        safe M (S d) body (after M s inference_mode_enter [] d (Returned v0))
          (fun s2 => forall vx v,
             safe M d (k v) (after M s2 inference_mode_exit [] d (Returned vx)) Q)
  end.

(** The mode of the model: which module was last switched by [train()] or
    [eval()], and to which mode.  A forward pass of a module is allowed
    outside inference mode when that module was last switched to training,
    and inside an inference-mode block when it was last switched to
    evaluation. *)
Definition mode_monitor : monitor (option (value * bool)) :=
  {| allows s f args d :=
       match f, args with
       | Module_call, m :: _ => s = Some (m, (d =? 0)%nat)
       | Module_call, [] => False
       | _, _ => True
       end;
     after s f args d o :=
       match f, args with
       | Module_train, [m] => Some (m, true)
       | Module_eval, [m] => Some (m, false)
       | _, _ => s
       end |}.

(** The gradients: stale (not yet zeroed since the last step), zeroed, or
    fresh (one backward pass since they were zeroed).  [zero_grad],
    [backward] and [step] are allowed outside inference mode only;
    [backward] needs zeroed gradients and [step] fresh ones. *)
Inductive gradients := Stale | Zeroed | Fresh.

Definition gradient_monitor : monitor gradients :=
  {| allows s f args d :=
       match f with
       | Optimizer_zero_grad => d = 0%nat
       | Tensor_backward => d = 0%nat /\ s = Zeroed
       | Optimizer_step => d = 0%nat /\ s = Fresh
       | _ => True
       end;
     after s f args d o :=
       match f with
       | Optimizer_zero_grad => Zeroed
       | Tensor_backward => Fresh
       | Optimizer_step => Stale
       | _ => s
       end |}.

(** Where values come from: the output of the last forward pass, the last
    [squeeze] (its argument and its result), and the loss computed outside
    inference mode since the last forward pass made there.  A loss is
    allowed on the output of the last forward pass, squeezed or not;
    [backward] is allowed, outside inference mode, on that loss. *)
Record flow := Flow {
  prediction : option value;
  squeezed : option (value * value);
  training_loss : option value
}.

Definition flow_monitor : monitor flow :=
  {| allows s f args d :=
       match f, args with
       | Loss_call, [_; p; _] =>
           prediction s = Some p \/
           exists x, prediction s = Some x /\ squeezed s = Some (x, p)
       | Tensor_backward, [l] => d = 0%nat /\ training_loss s = Some l
       | (Loss_call | Tensor_backward), _ => False
       | _, _ => True
       end;
     after s f args d o :=
       match f, args, o with
       | Module_call, _, Returned v =>
           {| prediction := Some v; squeezed := None;
              training_loss := if (d =? 0)%nat then None else training_loss s |}
       | Tensor_squeeze, [x], Returned v =>
           {| prediction := prediction s; squeezed := Some (x, v);
              training_loss := training_loss s |}
       | Loss_call, _, Returned l =>
           if (d =? 0)%nat
           then {| prediction := prediction s; squeezed := squeezed s;
                   training_loss := Some l |}
           else s
       | _, _, _ => s
       end |}.

(** What has been moved where: the results of [.to(device)], each with its
    device.  The data of a forward pass and the target of a loss are
    allowed when they are results of a move to [device]. *)
Definition device_monitor (device : value) : monitor (list (value * value)) :=
  {| allows s f args d :=
       match f, args with
       | Module_call, [_; x] => In (x, device) s
       | Loss_call, [_; _; y] => In (y, device) s
       | (Module_call | Loss_call), _ => False
       | _, _ => True
       end;
     after s f args d o :=
       match f, args, o with
       | Tensor_to, [_; dev], Returned v => (v, dev) :: s
       | _, _, _ => s
       end |}.

(** [moved_to device log x]: [x] is the result of a call [src.to(device)]
    recorded in [log]. *)
Definition moved_to {W} (device : value) (log : list (entry W)) (x : value) : Prop :=
  exists e src,
    In e log /\ e_api e = Tensor_to /\ e_args e = [src; device] /\ e_out e = Returned x.

(** The monitors' initial states: nothing is known yet. *)
Definition no_flow : flow :=
  {| prediction := None; squeezed := None; training_loss := None |}.

(** Stand-in libraries in which no call fails. *)
Definition unfailing (batches : nat) : handler unit := fun f args w =>
  (Returned (nominal batches f args), w).

(** [called log f args d v]: [log] records a call of [f] on [args], at depth
    [d], that returned [v].  [recorded_loss log d v]: [v] is what
    [.detach().numpy()] returned for a loss computed at depth [d]. *)
Definition called {W} (log : list (entry W)) (f : api) (args : list value)
    (d : nat) (v : value) : Prop :=
  exists e, In e log /\ e_api e = f /\ e_args e = args /\ e_inside e = d /\
            e_out e = Returned v.

Definition recorded_loss {W} (log : list (entry W)) (d : nat) (v : value) : Prop :=
  exists fn p t loss detached,
    called log Loss_call [fn; p; t] d loss /\
    called log Tensor_detach [loss] 0 detached /\
    called log Tensor_numpy [detached] 0 v.

(** The epoch a [print] of the classification loop reports. *)
Definition printed_epoch {W} (e : entry W) : option Z :=
  match e_api e, e_args e with
  | print, [_; VInt epoch; _; _] => Some epoch
  | _, _ => None
  end.

(** ** The shapes of tensors through the layers

    A tensor is followed by its shape alone, the tuple of its dimensions.
    [forward_dims layer s] is the shape a layer returns on an input of shape
    [s], by the rules the library documents: [nn.Linear(i, o)] maps
    [(..., i)] to [(..., o)] and rejects any other input; [nn.ReLU()] keeps the
    shape; [nn.Flatten()] maps [(n, d1, ..., dk)] to [(n, d1 * ... * dk)];
    [nn.Sequential] applies its members in order.  [None] is the rejection
    of the input. *)
Definition dims_value (s : list Z) : value := VTuple (map VInt s).

Fixpoint value_dims_list (vs : list value) : option (list Z) :=
  match vs with
  | [] => Some []
  | VInt n :: vs' =>
      match value_dims_list vs' with
      | Some s => Some (n :: s)
      | None => None
      end
  | _ :: _ => None
  end.

Definition value_dims (v : value) : option (list Z) :=
  match v with
  | VTuple vs => value_dims_list vs
  | _ => None
  end.

Definition product (s : list Z) : Z := fold_right Z.mul 1 s.

Fixpoint forward_dims (layer : value) (s : list Z) {struct layer} : option (list Z) :=
  match layer with
  | VObj nn_Linear [VTuple [VStr a; VInt i]; VTuple [VStr b; VInt o]] =>
      if String.eqb a "in_features" && String.eqb b "out_features" then
        match rev s with
        | d :: before => if d =? i then Some (rev (o :: before)) else None
        | [] => None
        end
      else None
  | VObj nn_ReLU [] => Some s
  | VObj nn_Flatten [] =>
      match s with
      | n :: d :: rest => Some [n; product (d :: rest)]
      | _ => None
      end
  | VObj nn_Sequential members =>
      (fix through (ms : list value) (s : list Z) : option (list Z) :=
         match ms with
         | [] => Some s
         | m :: ms' =>
             match forward_dims m s with
             | Some s' => through ms' s'
             | None => None
             end
         end) members s
  | _ => None
  end.

(** The attributes of a module, latest assignment first. *)
Fixpoint attribute (name : string) (attributes : list (string * value)) : option value :=
  match attributes with
  | [] => None
  | (n, v) :: rest => if String.eqb n name then Some v else attribute name rest
  end.

(** The library as a module sees it through its own attributes and the
    layers it holds: the world is the attribute dictionary of the module.
    Reading an attribute that was never set fails (Python's
    [AttributeError], here [LibraryError 0]); calling a layer on an input
    it rejects raises [RuntimeError]. *)
Definition layers : handler (list (string * value)) := fun f args w =>
  match f, args with
  | Module_init, _ => (Returned VNone, w)
  | (nn_Linear | nn_ReLU | nn_Flatten | nn_Sequential), _ => (Returned (VObj f args), w)
  | Module_setattr, [_; VStr name; v] => (Returned VNone, (name, v) :: w)
  | Module_getattr, [_; VStr name] =>
      match attribute name w with
      | Some v => (Returned v, w)
      | None => (Raised (LibraryError 0), w)
      end
  | Module_call, [layer; x] =>
      match value_dims x with
      | Some s =>
          match forward_dims layer s with
          | Some s' => (Returned (dims_value s'), w)
          | None => (Raised RuntimeError, w)
          end
      | None => (Raised TypeError, w)
      end
  | _, _ => (Raised TypeError, w)
  end.

(** [model = C(...)] followed by [model(x)]: the constructor, then
    [forward]. *)
Definition construct_and_call (init : prog) (forward : prog) : prog :=
  pbind init (fun _ => forward).

(** [squeeze()] drops every dimension of size 1. *)
Definition squeeze_dims (s : list Z) : list Z :=
  List.filter (fun d => negb (d =? 1)) s.

Fixpoint dims_eqb (s t : list Z) : bool :=
  match s, t with
  | [], [] => true
  | a :: s', b :: t' => (a =? b) && dims_eqb s' t'
  | _, _ => false
  end.

Definition on_dims (x : value) (f : list Z -> outcome) : outcome :=
  match value_dims x with
  | Some s => f s
  | None => Raised TypeError
  end.

(** The libraries as the classification training cells see them, on
    shapes.  [model(x)] runs the [forward] of the model's class on the
    attributes its constructor has set; [squeeze], [sigmoid], [round] and
    [.to] follow the shape rules of the library; the loss
    ([nn.BCEWithLogitsLoss]) demands a target of the input's shape
    (otherwise a [ValueError], here [LibraryError 1]) and returns a scalar;
    [backward()] demands a scalar. *)
Definition circle_shapes (init : prog) (forward : value -> prog) : handler unit :=
  fun f args w =>
    (match f, args with
     | Module_call, [_; x] => (run layers 0 (construct_and_call init (forward x)) []).1.1
     | Tensor_squeeze, [x] => on_dims x (fun s => Returned (dims_value (squeeze_dims s)))
     | (Torch_sigmoid | Torch_round), [x] => on_dims x (fun _ => Returned x)
     | Tensor_to, [x; _] => Returned x
     | Loss_call, [_; input; target] =>
         on_dims input (fun s =>
           on_dims target (fun t =>
             if dims_eqb s t then Returned (dims_value []) else Raised (LibraryError 1)))
     | Tensor_backward, [l] =>
         on_dims l (fun s =>
           match s with
           | [] => Returned VNone
           | _ => Raised RuntimeError
           end)
     | (Module_train | Module_eval | Optimizer_zero_grad | Optimizer_step
        | Torch_manual_seed | print | inference_mode_enter | inference_mode_exit), _ =>
         Returned VNone
     | _, _ => Raised TypeError
     end, w).

(** The two models of the classification notebook, as the training cells
    use them. *)
Definition linear_circle_model : handler unit :=
  circle_shapes (Functions.CircleModelLinearLayers_init a_model)
                (Functions.CircleModelLinearLayers_forward a_model).

Definition nonlinear_circle_model : handler unit :=
  circle_shapes (Functions.CircleModelNonLinear_init a_model)
                (Functions.CircleModelNonLinear_forward a_model).

(** [int(0.8 * n)] as the split cell computes it from the length [n], and
    the check that it is the integer part of four fifths of [n];
    [all_from ok count z] checks [ok] on [count] consecutive integers from
    [z]. *)
Definition cutoff_of_length (n : Z) : option Z :=
  PyFloat.to_int (PyFloat.mul PyFloat.lit_0_8 (PyFloat.of_int n)).

Definition cutoff_exact (n : Z) : bool :=
  match cutoff_of_length n with
  | Some c => c =? 4 * n / 5
  | None => false
  end.

Fixpoint all_from (ok : Z -> bool) (count : nat) (z : Z) : bool :=
  match count with
  | O => true
  | S count' => ok z && all_from ok count' (z + 1)
  end.

(** ** The numbers an epoch reports

    [number v]: the number a Python int or a scalar tensor stands for.
    [losses d log]: the numbers the loss has returned at depth [d], in
    order; [accuracies log]: those the accuracy metric has returned.  [total qs]: the sum as the cells accumulate it,
    from the int 0, one term after the other.  [epoch_report e]: the three
    values of the [print] that closes an epoch of the computer-vision
    loop. *)
Definition number (v : value) : option Q :=
  match v with
  | VInt z => Some (inject_Z z)
  | VFloat q => Some q
  | _ => None
  end.

Definition losses {W} (d : nat) (log : list (entry W)) : list Q :=
  omap (fun e =>
          match e_api e, e_out e with
          | Loss_call, Returned v => if (e_inside e =? d)%nat then number v else None
          | _, _ => None
          end) log.

Definition accuracies {W} (log : list (entry W)) : list Q :=
  omap (fun e =>
          match e_api e, e_out e with
          | Accuracy_call, Returned v => number v
          | _, _ => None
          end) log.

Definition total (qs : list Q) : Q := fold_left Qplus qs (inject_Z 0).

Definition epoch_report {W} (e : entry W) : option (value * value * value) :=
  match e_api e, e_args e with
  | print, [_; train_loss; test_loss; test_accuracy] =>
      Some (train_loss, test_loss, test_accuracy)
  | _, _ => None
  end.

(** What the accumulators of the computer-vision loop hold after the calls
    of [l]: the total of the losses so far (of the accuracies too, in the
    evaluation loop). *)
Definition train_inv {W} (s : value) (l : list (entry W)) : Prop :=
  number s = Some (total (losses 0 l)) /\
  omap epoch_report l = [] /\
  losses 1 l = [] /\ accuracies l = [].

Definition test_inv {W} (s : value * value) (l : list (entry W)) : Prop :=
  number s.1 = Some (total (losses 1 l)) /\
  number s.2 = Some (total (accuracies l)) /\
  omap epoch_report l = [] /\
  losses 0 l = [].

(** What the closing [print] of an epoch reports, against the calls of the
    epoch [l]: the total of the training losses over the length the
    training loader reported, and the totals of the test losses and of the
    accuracies over the lengths the test loader reported. *)
Definition epoch_means {W} (train_dataloader test_dataloader : value)
    (l : list (entry W)) : Prop :=
  exists nb nb1 nb2,
    called l DataLoader_len [train_dataloader] 0 (VInt nb) /\
    called l DataLoader_len [test_dataloader] 1 (VInt nb1) /\
    called l DataLoader_len [test_dataloader] 1 (VInt nb2) /\
    omap epoch_report l
    = [(VFloat (total (losses 0 l) / inject_Z nb),
        VFloat (total (losses 1 l) / inject_Z nb1),
        VFloat (total (accuracies l) / inject_Z nb2))].

(** Stand-in libraries that compute with numbers: every loss is one half
    and every accuracy three quarters, [+] and [/] on numbers are the
    rational operations, and everything else is as in the stand-in. *)
Definition arithmetic (batches : nat) : handler unit := fun f args w =>
  (match f, args with
   | Tensor_add, [a; b] =>
       match number a, number b with
       | Some qa, Some qb => Returned (VFloat (qa + qb))
       | _, _ => Raised TypeError
       end
   | Tensor_div, [VFloat q; VInt n] => Returned (VFloat (q / inject_Z n))
   | Loss_call, _ => Returned (VFloat (1 # 2))
   | Accuracy_call, _ => Returned (VFloat (3 # 4))
   | _, _ => Returned (nominal batches f args)
   end, w).

(* ================================================================= *)
(** * Part II: lemmas and theorems *)
(* ================================================================= *)

Example lit_0_8_is_8_over_10 :
  PyFloat.lit_0_8 = PyFloat.div (PyFloat.of_int 8) (PyFloat.of_int 10).
Proof. vm_compute. reflexivity. Qed.

Example lit_0_02_is_2_over_100 :
  PyFloat.lit_0_02 = PyFloat.div (PyFloat.of_int 2) (PyFloat.of_int 100).
Proof. vm_compute. reflexivity. Qed.

Example lit_0_7_is_7_over_10 :
  PyFloat.lit_0_7 = PyFloat.div (PyFloat.of_int 7) (PyFloat.of_int 10).
Proof. vm_compute. reflexivity. Qed.

Example lit_0_3_is_3_over_10 :
  PyFloat.lit_0_3 = PyFloat.div (PyFloat.of_int 3) (PyFloat.of_int 10).
Proof. vm_compute. reflexivity. Qed.

Example arange_size_notebook :
  Workflow.arange_size (PyFloat.of_int 0) (PyFloat.of_int 1) PyFloat.lit_0_02 = Some 50.
Proof. vm_compute. reflexivity. Qed.

Example predictor_length : length Workflow.predictor = 50%nat.
Proof. vm_compute. reflexivity. Qed.

Example target_length : length Workflow.target = 50%nat.
Proof. vm_compute. reflexivity. Qed.

Example train_cutoff_notebook : Workflow.train_cutoff Workflow.predictor = Some 40.
Proof. vm_compute. reflexivity. Qed.

(** Slicing at a non-negative bound inside the sequence. *)
Lemma norm_index_inside (len i : Z) :
  0 <= i <= len -> norm_index len i = i.
Proof.
  intros [H0 H1]. unfold norm_index.
  destruct (Z.ltb_spec i 0); lia.
Qed.

Lemma slice_to_from_app {A} (i : Z) (l : list A) :
  slice_to i l ++ slice_from i l = l.
Proof. unfold slice_to, slice_from. apply take_drop. Qed.

Lemma slice_to_length {A} (i : Z) (l : list A) :
  0 <= i <= Z.of_nat (length l) ->
  length (slice_to i l) = Z.to_nat i.
Proof.
  intros H. unfold slice_to. rewrite norm_index_inside by exact H.
  rewrite length_take. lia.
Qed.

Lemma slice_from_length {A} (i : Z) (l : list A) :
  0 <= i <= Z.of_nat (length l) ->
  length (slice_from i l) = (length l - Z.to_nat i)%nat.
Proof.
  intros H. unfold slice_from. rewrite norm_index_inside by exact H.
  apply length_drop.
Qed.

Lemma slice_to_lookup {A} (i : Z) (l : list A) (k : nat) :
  0 <= i <= Z.of_nat (length l) ->
  (k < Z.to_nat i)%nat ->
  slice_to i l !! k = l !! k.
Proof.
  intros H Hk. unfold slice_to. rewrite norm_index_inside by exact H.
  apply lookup_take_lt. exact Hk.
Qed.

Lemma slice_from_lookup {A} (i : Z) (l : list A) (k : nat) :
  0 <= i <= Z.of_nat (length l) ->
  slice_from i l !! k = l !! (Z.to_nat i + k)%nat.
Proof.
  intros H. unfold slice_from. rewrite norm_index_inside by exact H.
  apply lookup_drop.
Qed.

(** ** The 80/20 split of the workflow notebook *)

Lemma train_cutoff_50 (predictor : tensor) :
  length predictor = 50%nat -> Workflow.train_cutoff predictor = Some 40.
Proof.
  intros H. unfold Workflow.train_cutoff. rewrite H. vm_compute. reflexivity.
Qed.

(** C10.  With 50-element predictor and target sequences the cutoff
    [int(0.8 * 50)] is 40; the split cell returns a training slice of exactly
    40 elements and a testing slice of the remaining 10, for predictor and
    target alike; the training slice is the segment of positions 0..39 and
    the testing slice the segment of positions 40..49 of the original, so the
    two are disjoint segments; and training slice followed by testing slice is
    the original sequence, in order. *)
Theorem split_is_partition (predictor target : tensor) :
  length predictor = 50%nat ->
  length target = 50%nat ->
  Workflow.train_cutoff predictor = Some 40 /\
  exists r, Workflow.split predictor target = Some r /\
    length (Workflow.train_predictor r) = 40%nat /\
    length (Workflow.test_predictor r) = 10%nat /\
    length (Workflow.train_target r) = 40%nat /\
    length (Workflow.test_target r) = 10%nat /\
    Workflow.train_predictor r ++ Workflow.test_predictor r = predictor /\
    Workflow.train_target r ++ Workflow.test_target r = target /\
    (forall k : nat, (k < 40)%nat ->
       Workflow.train_predictor r !! k = predictor !! k /\
       Workflow.train_target r !! k = target !! k) /\
    (forall k : nat,
       Workflow.test_predictor r !! k = predictor !! (40 + k)%nat /\
       Workflow.test_target r !! k = target !! (40 + k)%nat).
Proof.
  intros Hp Ht.
  pose proof (train_cutoff_50 predictor Hp) as Hc.
  split; [exact Hc |].
  unfold Workflow.split. rewrite Hc. eexists. split; [reflexivity |].
  cbn [Workflow.train_predictor Workflow.test_predictor
       Workflow.train_target Workflow.test_target].
  assert (Bp : 0 <= 40 <= Z.of_nat (length predictor)) by (rewrite Hp; lia).
  assert (Bt : 0 <= 40 <= Z.of_nat (length target)) by (rewrite Ht; lia).
  rewrite !slice_to_length, !slice_from_length by assumption.
  rewrite Hp, Ht.
  repeat split; try reflexivity; try apply slice_to_from_app.
  - apply slice_to_lookup; [exact Bp | exact H].
  - apply slice_to_lookup; [exact Bt | exact H].
  - apply (slice_from_lookup 40 predictor k Bp).
  - apply (slice_from_lookup 40 target k Bt).
Qed.

Lemma split_is_partition_witness :
  Workflow.train_cutoff Workflow.predictor = Some 40 /\
  exists r, Workflow.split Workflow.predictor Workflow.target = Some r /\
    length (Workflow.train_predictor r) = 40%nat /\
    length (Workflow.test_predictor r) = 10%nat /\
    length (Workflow.train_target r) = 40%nat /\
    length (Workflow.test_target r) = 10%nat /\
    Workflow.train_predictor r ++ Workflow.test_predictor r = Workflow.predictor /\
    Workflow.train_target r ++ Workflow.test_target r = Workflow.target /\
    (forall k : nat, (k < 40)%nat ->
       Workflow.train_predictor r !! k = Workflow.predictor !! k /\
       Workflow.train_target r !! k = Workflow.target !! k) /\
    (forall k : nat,
       Workflow.test_predictor r !! k = Workflow.predictor !! (40 + k)%nat /\
       Workflow.test_target r !! k = Workflow.target !! (40 + k)%nat).
Proof.
  apply (split_is_partition Workflow.predictor Workflow.target);
    vm_compute; reflexivity.
Defined.

(** ** Persistence of the linear regression model *)

Lemma mkdir_models_dir (fs : gmap FS.path FS.node) :
  fs !! Workflow.model_path = None \/ fs !! Workflow.model_path = Some FS.Dir ->
  exists fs1, FS.mkdir true true Workflow.model_path fs = Ok fs1 /\
    fs1 !! Workflow.model_path = Some FS.Dir /\
    (forall p, p <> Workflow.model_path -> fs1 !! p = fs !! p).
Proof.
  unfold Workflow.model_path. intros [Hnone | Hdir].
  - exists (<[["models"%string] := FS.Dir]> fs).
    cbn [FS.mkdir FS.os_mkdir FS.present FS.is_dir negb].
    rewrite Hnone. rewrite bool_decide_eq_false_2 by (intros [? ?]; discriminate).
    cbn. split; [reflexivity |]. split.
    + apply lookup_insert_eq.
    + intros p Hp. apply lookup_insert_ne. congruence.
  - exists fs.
    cbn [FS.mkdir FS.os_mkdir FS.present FS.is_dir negb].
    rewrite bool_decide_eq_true_2 by (rewrite Hdir; eauto).
    rewrite Hdir. cbn. repeat split; reflexivity.
Qed.

Lemma state_dict_weight (m : Workflow.LinearRegressionModel) :
  Workflow.state_dict m !! "_weight"%string = Some [Workflow._weight m].
Proof. unfold Workflow.state_dict. apply lookup_insert_eq. Qed.

Lemma state_dict_bias (m : Workflow.LinearRegressionModel) :
  Workflow.state_dict m !! "_bias"%string = Some [Workflow._bias m].
Proof.
  unfold Workflow.state_dict.
  rewrite lookup_insert_ne by discriminate. apply lookup_insert_eq.
Qed.

Lemma state_dict_dom (m m' : Workflow.LinearRegressionModel) :
  dom (Workflow.state_dict m) = dom (Workflow.state_dict m').
Proof. unfold Workflow.state_dict. rewrite !dom_insert_L. reflexivity. Qed.

(** The prediction is a function of the two parameters alone: the training
    flag and everything outside the state dictionary play no part. *)
Lemma forward_params_only (m1 m2 : Workflow.LinearRegressionModel) (x : tensor) :
  Workflow._weight m1 = Workflow._weight m2 ->
  Workflow._bias m1 = Workflow._bias m2 ->
  Workflow.forward m1 x = Workflow.forward m2 x.
Proof.
  intros Hw Hb. unfold Workflow.forward, Workflow.weight, Workflow.bias.
  rewrite Hw, Hb. reflexivity.
Qed.

(** With its one-element parameters [forward] never fails: it is the affine
    map applied to each element. *)
Lemma forward_value (m : Workflow.LinearRegressionModel) (x : tensor) :
  Workflow.forward m x
  = Some (map (fun xi => F32.add (F32.mul (Workflow._weight m) xi) (Workflow._bias m)) x).
Proof.
  unfold Workflow.forward, Workflow.weight, Workflow.bias.
  cbn [Workflow.broadcast2 mbind option_bind].
  set (wx := map (F32.mul (Workflow._weight m)) x).
  assert (E : Workflow.broadcast2 F32.add wx [Workflow._bias m]
              = Some (map (fun y => F32.add y (Workflow._bias m)) wx)).
  { unfold Workflow.broadcast2. destruct wx as [| y [| y' wx']]; reflexivity. }
  rewrite E. subst wx. rewrite map_map. reflexivity.
Qed.

Lemma load_state_dict_of_state_dict (fresh m : Workflow.LinearRegressionModel) :
  Workflow.load_state_dict fresh (Workflow.state_dict m)
  = Ok {| Workflow._weight := Workflow._weight m;
          Workflow._bias := Workflow._bias m;
          Workflow.training := Workflow.training fresh |}.
Proof.
  unfold Workflow.load_state_dict.
  rewrite bool_decide_eq_true_2 by apply state_dict_dom.
  rewrite state_dict_weight, state_dict_bias. reflexivity.
Qed.

(** C1.  The saving cell writes one file, and what it holds is the model's
    state dictionary as [torch.save] pickles it; loading that file into a
    freshly constructed [LinearRegressionModel] (whatever its random initial
    parameters) succeeds and yields a model whose [forward] agrees with the
    saved model's on every input tensor, the prediction being
    [weight * x + bias] element by element. *)
Theorem save_load_roundtrip
    (sample_model : Workflow.LinearRegressionModel) (fs : gmap FS.path FS.node) :
  fs !! Workflow.model_path = None \/ fs !! Workflow.model_path = Some FS.Dir ->
  fs !! Workflow.model_file <> Some FS.Dir ->
  exists fs',
    Workflow.save_cell sample_model fs = Ok fs' /\
    fs' !! Workflow.model_file
      = Some (FS.File (FS.Pickled (Workflow.state_dict sample_model))) /\
    (forall p, p <> Workflow.model_file -> p <> Workflow.model_path ->
       fs' !! p = fs !! p) /\
    forall w0 b0 : F32.t, exists trained_model,
      Workflow.load_cell w0 b0 fs' = Ok trained_model /\
      forall x : tensor,
        Workflow.forward trained_model x = Workflow.forward sample_model x /\
        Workflow.forward sample_model x
        = Some (map (fun xi => F32.add (F32.mul (Workflow._weight sample_model) xi)
                                       (Workflow._bias sample_model)) x).
Proof.
  intros Hpath Hfile.
  destruct (mkdir_models_dir fs Hpath) as (fs1 & Hmk & Hdir & Hframe).
  assert (Hfile1 : FS.is_dir fs1 Workflow.model_file = false).
  { unfold Workflow.model_file, FS.is_dir.
    rewrite Hframe by (unfold Workflow.model_path; discriminate).
    fold Workflow.model_file.
    destruct (fs !! Workflow.model_file) as [[|c]|] eqn:E; congruence. }
  exists (<[Workflow.model_file := FS.File (FS.Pickled (Workflow.state_dict sample_model))]> fs1).
  split; [| split; [| split]].
  - unfold Workflow.save_cell. rewrite Hmk. cbn [mbind result_bind].
    unfold FS.torch_save.
    change (FS.is_dir fs1 ("linear_regressor.pth"%string :: Workflow.model_path))
      with (FS.is_dir fs1 Workflow.model_file).
    rewrite Hfile1.
    unfold Workflow.model_file at 1.
    assert (Hp : FS.present fs1 Workflow.model_path = true).
    { unfold Workflow.model_path, FS.present. apply bool_decide_eq_true_2.
      unfold Workflow.model_path in Hdir. rewrite Hdir. eauto. }
    assert (Hd : FS.is_dir fs1 Workflow.model_path = true).
    { unfold Workflow.model_path, FS.is_dir.
      unfold Workflow.model_path in Hdir. rewrite Hdir. reflexivity. }
    rewrite Hp, Hd. reflexivity.
  - apply lookup_insert_eq.
  - intros p Hne1 Hne2. rewrite lookup_insert_ne by congruence.
    apply Hframe. exact Hne2.
  - intros w0 b0. eexists. split.
    + unfold Workflow.load_cell, FS.torch_load. unfold Workflow.model_file at 1.
      fold Workflow.model_file. rewrite lookup_insert_eq.
      cbn [mbind result_bind].
      rewrite load_state_dict_of_state_dict. cbn [mbind result_bind].
      reflexivity.
    + intros x. split; [apply forward_params_only; reflexivity | apply forward_value].
Qed.

Lemma save_load_roundtrip_witness :
  exists fs',
    Workflow.save_cell (Workflow.new_model F32.one F32.zero) ∅ = Ok fs' /\
    fs' !! Workflow.model_file
      = Some (FS.File (FS.Pickled
                (Workflow.state_dict (Workflow.new_model F32.one F32.zero)))) /\
    (forall p, p <> Workflow.model_file -> p <> Workflow.model_path ->
       fs' !! p = (∅ : gmap FS.path FS.node) !! p) /\
    forall w0 b0 : F32.t, exists trained_model,
      Workflow.load_cell w0 b0 fs' = Ok trained_model /\
      forall x : tensor,
        Workflow.forward trained_model x
        = Workflow.forward (Workflow.new_model F32.one F32.zero) x /\
        Workflow.forward (Workflow.new_model F32.one F32.zero) x
        = Some (map (fun xi => F32.add (F32.mul F32.one xi) F32.zero) x).
Proof.
  apply (save_load_roundtrip (Workflow.new_model F32.one F32.zero) ∅).
  - left. reflexivity.
  - vm_compute. discriminate.
Defined.

(** ** [accuracy_function] *)

Lemma SFeqb_sym (x y : spec_float) : SFeqb x y = SFeqb y x.
Proof.
  unfold SFeqb, SFcompare.
  destruct x as [sx | sx | | sx mx ex], y as [sy | sy | | sy my ey];
    try destruct sx; try destruct sy; try reflexivity.
  all: rewrite (Z.compare_antisym ex ey); destruct (ex ?= ey);
    cbn [CompOpp]; try reflexivity.
  all: fold (Pos.compare mx my); fold (Pos.compare my mx);
    rewrite (Pos.compare_antisym mx my); destruct (Pos.compare mx my); reflexivity.
Qed.

Lemma torch_eq_same_length (a b : tensor) :
  length a = length b ->
  Classification.torch_eq a b = Some (zip_with F32.eqb a b).
Proof.
  intros H. unfold Classification.torch_eq.
  destruct a as [| x [| x' a]], b as [| y [| y' b]]; try discriminate H; try reflexivity.
  rewrite H, Nat.eqb_refl. reflexivity.
Qed.

Lemma filter_map_length {A B} (f : B -> bool) (g : A -> B) (l : list A) :
  length (List.filter f (map g l)) = length (List.filter (fun i => f (g i)) l).
Proof.
  induction l as [| i l IH]; [reflexivity |].
  cbn. destruct (f (g i)); cbn; rewrite IH; reflexivity.
Qed.

Lemma equal_positions_cons (x y : F32.t) (a b : tensor) :
  Classification.equal_positions (x :: a) (y :: b)
  = (Nat.b2n (F32.eqb x y) + Classification.equal_positions a b)%nat.
Proof.
  unfold Classification.equal_positions.
  cbn [length seq]. rewrite <- seq_shift. cbn [List.filter].
  change (Classification.agree_at (x :: a) (y :: b) 0) with (F32.eqb x y).
  destruct (F32.eqb x y); cbn [length Nat.b2n Nat.add];
    rewrite filter_map_length; reflexivity.
Qed.

(** The count the code obtains from [torch.eq(...).sum().item()] is the
    number of positions holding equal values. *)
Lemma sum_item_equal_positions (a b : tensor) :
  length a = length b ->
  Classification.sum_item (zip_with F32.eqb a b)
  = Z.of_nat (Classification.equal_positions a b).
Proof.
  revert b. induction a as [| x a IH]; intros [| y b] H; try discriminate H.
  - reflexivity.
  - injection H as H. rewrite equal_positions_cons.
    cbn [zip_with Classification.sum_item fold_right].
    change (fold_right (fun b0 acc => Z.b2z b0 + acc) 0 (zip_with F32.eqb a b))
      with (Classification.sum_item (zip_with F32.eqb a b)).
    rewrite (IH b H). destruct (F32.eqb x y); cbn [Z.b2z Nat.b2n]; lia.
Qed.

Lemma agree_at_sym (a b : tensor) (i : nat) :
  Classification.agree_at a b i = Classification.agree_at b a i.
Proof.
  unfold Classification.agree_at.
  destruct (a !! i), (b !! i); try reflexivity. apply SFeqb_sym.
Qed.

Lemma equal_positions_sym (a b : tensor) :
  length a = length b ->
  Classification.equal_positions a b = Classification.equal_positions b a.
Proof.
  intros H. unfold Classification.equal_positions. rewrite H.
  f_equal. apply List.filter_ext. intros i. apply agree_at_sym.
Qed.

Lemma filter_length_le {A} (f : A -> bool) (l : list A) :
  (length (List.filter f l) <= length l)%nat.
Proof.
  induction l as [| x l IH]; cbn; [lia |]. destruct (f x); cbn; lia.
Qed.

Lemma filter_length_full {A} (f : A -> bool) (l : list A) :
  length (List.filter f l) = length l <-> forall x, In x l -> f x = true.
Proof.
  induction l as [| x l IH]; cbn.
  - split; [intros _ y [] | reflexivity].
  - destruct (f x) eqn:E; cbn.
    + split.
      * intros H y [<- | Hy]; [exact E |]. apply IH; [lia | exact Hy].
      * intros H. f_equal. apply IH. intros y Hy. apply H. right. exact Hy.
    + pose proof (filter_length_le f l) as Hle. split; [lia |].
      intros Hall. specialize (Hall x (or_introl eq_refl)). congruence.
Qed.

Lemma equal_positions_le (a b : tensor) :
  (Classification.equal_positions a b <= length a)%nat.
Proof.
  unfold Classification.equal_positions.
  pose proof (filter_length_le (Classification.agree_at a b) (seq 0 (length a))) as H.
  rewrite length_seq in H. exact H.
Qed.

Lemma equal_positions_full (a b : tensor) :
  Classification.equal_positions a b = length a <->
  forall i : nat, (i < length a)%nat -> Classification.agree_at a b i = true.
Proof.
  unfold Classification.equal_positions.
  pose proof (filter_length_full (Classification.agree_at a b) (seq 0 (length a))) as F.
  rewrite length_seq in F. rewrite F. split.
  - intros H i Hi. apply H. apply in_seq. lia.
  - intros H i Hi. apply in_seq in Hi. apply H. lia.
Qed.

Lemma percent_bounds (c : Z) (p : positive) :
  0 <= c <= Zpos p ->
  (0 <= inject_Z c / inject_Z (Zpos p) * 100 <= 100)%Q /\
  ((inject_Z c / inject_Z (Zpos p) * 100 == 100)%Q <-> c = Zpos p).
Proof.
  intros Hc.
  unfold Qle, Qeq, Qdiv, Qmult, Qinv, inject_Z. cbn.
  rewrite ?Pos2Z.inj_mul. repeat split; try nia.
Qed.



Example accuracy_half :
  Classification.accuracy_function [F32.one; F32.zero] [F32.one; F32.one]
  = Ok (inject_Z 1 / inject_Z 2 * 100)%Q.
Proof. reflexivity. Qed.

(** Outside the claim's range: empty tensors divide by zero, and sizes that
    cannot be broadcast are refused by [torch.eq]. *)
Example accuracy_empty :
  Classification.accuracy_function [] [] = Raise ZeroDivisionError.
Proof. reflexivity. Qed.

Example accuracy_mismatch :
  Classification.accuracy_function [F32.one; F32.one] [F32.one; F32.one; F32.one]
  = Raise RuntimeError.
Proof. reflexivity. Qed.

(** ** From logits to classes *)

Section Sigmoid.
Local Open Scope R_scope.

Lemma div_lt_iff (a b d : R) : 0 < d -> (a / d < b <-> a < b * d).
Proof.
  intros Hd.
  assert (E : a = a / d * d) by (field; lra).
  split; intros H.
  - rewrite E. apply Rmult_lt_compat_r; assumption.
  - apply (Rmult_lt_reg_r d); [assumption |]. rewrite <- E. exact H.
Qed.

Lemma lt_div_iff (a b d : R) : 0 < d -> (b < a / d <-> b * d < a).
Proof.
  intros Hd.
  assert (E : a = a / d * d) by (field; lra).
  split; intros H.
  - rewrite E. apply Rmult_lt_compat_r; assumption.
  - apply (Rmult_lt_reg_r d); [assumption |]. rewrite <- E. exact H.
Qed.

Lemma sigmoid_range (x : R) : 0 < Classification.torch_sigmoid x < 1.
Proof.
  unfold Classification.torch_sigmoid.
  pose proof (exp_pos (- x)) as He.
  split.
  - apply Rdiv_lt_0_compat; lra.
  - apply (div_lt_iff 1 1 (1 + exp (- x))); lra.
Qed.

Lemma sigmoid_above_half (x : R) : 1 / 2 < Classification.torch_sigmoid x <-> 0 < x.
Proof.
  unfold Classification.torch_sigmoid.
  pose proof (exp_pos (- x)) as He.
  assert (Hd : 0 < 1 + exp (- x)) by lra.
  pose proof (lt_div_iff 1 (1 / 2) (1 + exp (- x)) Hd) as Hiff.
  split.
  - intros H. apply Hiff in H.
    assert (He1 : exp (- x) < exp 0) by (rewrite exp_0; lra).
    apply exp_lt_inv in He1. lra.
  - intros H.
    assert (He1 : exp (- x) < exp 0) by (apply exp_increasing; lra).
    rewrite exp_0 in He1. apply Hiff. lra.
Qed.

Lemma sigmoid_zero : Classification.torch_sigmoid 0 = 1 / 2.
Proof.
  unfold Classification.torch_sigmoid. rewrite Ropp_0, exp_0. lra.
Qed.

Lemma Int_part_unit (p : R) : 0 <= p < 1 -> Int_part p = 0%Z.
Proof.
  intros H. symmetry. apply Int_part_spec. cbn. lra.
Qed.

(** On probabilities strictly between 0 and 1, rounding halves to even
    yields 1 above one half and 0 at or below it. *)
Lemma round_unit (p : R) :
  0 <= p < 1 ->
  Classification.torch_round p = if Rlt_dec (1 / 2) p then 1 else 0.
Proof.
  intros H. unfold Classification.torch_round, frac_part.
  rewrite (Int_part_unit p H). cbn [Z.even Z.add].
  rewrite Rminus_0_r.
  destruct (Rlt_dec p (1 / 2)), (Rlt_dec (1 / 2) p); try reflexivity; lra.
Qed.

Lemma round_half : Classification.torch_round (1 / 2) = 0.
Proof.
  rewrite round_unit by lra. destruct (Rlt_dec (1 / 2) (1 / 2)); [lra | reflexivity].
Qed.


End Sigmoid.

(** ** Runs of programs *)

Section Runs.
Context {W : Type} (h : handler W) (d : nat).

Lemma run_Ret_inv (x v : value) (w w' : W) (log : list (entry W)) :
  run h d (Ret x) w = (Returned v, w', log) -> v = x /\ w' = w /\ log = [].
Proof. cbn. intros [= <- <- <-]. auto. Qed.

Lemma run_Do_inv (f : api) (a : list value) (k : value -> prog)
    (w w' : W) (v : value) (log : list (entry W)) :
  run h d (Do f a k) w = (Returned v, w', log) ->
  exists v1 w1 log1,
    h f a w = (Returned v1, w1) /\
    run h d (k v1) w1 = (Returned v, w', log1) /\
    log = Entry f a (Returned v1) w w1 d :: log1.
Proof.
  cbn. destruct (h f a w) as [[v1 | e] w1]; [| discriminate].
  destruct (run h d (k v1) w1) as [[o w2] l] eqn:E.
  intros [= -> -> <-]. eauto 10.
Qed.

Lemma run_With_inv (body : prog) (k : value -> prog)
    (w w' : W) (v : value) (log : list (entry W)) :
  run h d (With_inference_mode body k) w = (Returned v, w', log) ->
  exists v0 w1 vb w2 logb vx w3 log1,
    h inference_mode_enter [] w = (Returned v0, w1) /\
    run h (S d) body w1 = (Returned vb, w2, logb) /\
    h inference_mode_exit [] w2 = (Returned vx, w3) /\
    run h d (k vb) w3 = (Returned v, w', log1) /\
    log = Entry inference_mode_enter [] (Returned v0) w w1 d
            :: logb ++ Entry inference_mode_exit [] (Returned vx) w2 w3 d :: log1.
Proof.
  cbn. destruct (h inference_mode_enter [] w) as [[v0 | e] w1]; [| discriminate].
  destruct (run h (S d) body w1) as [[ob w2] logb] eqn:Eb.
  destruct (h inference_mode_exit [] w2) as [[vx | e] w3] eqn:Ex, ob as [vb | e'];
    try discriminate.
  destruct (run h d (k vb) w3) as [[o w4] l] eqn:Ek.
  intros [= -> -> <-]. exists v0, w1, vb, w2, logb, vx, w3, l. auto.
Qed.

(** A loop: if the whole run returns, every pass returned, and the record
    splits into one segment per pass, each satisfying what a single pass
    guarantees. *)
Lemma for_each_inv {A S} (body : A -> S -> (S -> prog) -> prog)
    (Q : A -> list (entry W) -> Prop) :
  (forall x s k w v w' log,
      run h d (body x s k) w = (Returned v, w', log) ->
      exists s1 w1 l1 l2,
        run h d (k s1) w1 = (Returned v, w', l2) /\ log = l1 ++ l2 /\ Q x l1) ->
  forall xs s k w v w' log,
    run h d (for_each xs body s k) w = (Returned v, w', log) ->
    exists s1 w1 ls l2,
      run h d (k s1) w1 = (Returned v, w', l2) /\
      log = concat ls ++ l2 /\ Forall2 Q xs ls.
Proof.
  intros Hbody xs. induction xs as [| x xs IH]; intros s k w v w' log H.
  - exists s, w, [], log. cbn in *. auto.
  - cbn [for_each] in H.
    apply Hbody in H as (s1 & w1 & l1 & l2 & H & -> & HQ).
    apply IH in H as (s2 & w2 & ls & l3 & H & -> & HF).
    exists s2, w2, (l1 :: ls), l3. cbn [concat]. rewrite app_assoc. auto.
Qed.

End Runs.

Lemma schema_trace_app {W} (l1 l2 : list (entry W)) :
  schema_trace (l1 ++ l2) = schema_trace l1 ++ schema_trace l2.
Proof. apply omap_app. Qed.

Lemma schema_trace_concat {W} (ls : list (list (entry W))) :
  schema_trace (concat ls) = concat (map schema_trace ls).
Proof.
  induction ls as [| l ls IH]; [reflexivity |].
  cbn [concat map]. rewrite schema_trace_app, IH. reflexivity.
Qed.

(** ** The training loops against the schema *)

Lemma split_at {A} (n : nat) (l l2 : list A) :
  drop n l = l2 -> l = take n l ++ l2.
Proof. intros <-. symmetry. apply take_drop. Qed.

(** One step of a run that returns: a call, which then returned, or the end
    of the program. *)
Ltac step_run H :=
  first
    [ apply run_Do_inv in H as (? & ? & ? & ? & H & ->)
    | apply run_Ret_inv in H as (-> & -> & ->) ].

Ltac step_with H Hb :=
  apply run_With_inv in H as (? & ? & ? & ? & ? & ? & ? & ? & ? & Hb & ? & H & ->).

(** What is left after a pass of [n] calls: the rest of the run, and the
    record of the pass. *)
Ltac close_pass n H :=
  eexists _, _, _, _; split; [exact H |];
  split; [apply (split_at n); reflexivity | reflexivity].

Section Schema.
Context {W : Type} (h : handler W) (d : nat).

Lemma workflow_epoch_run (m lf opt trx try_ tex tey : value)
    (epoch : Z) (losses : list value * list value)
    (k : list value * list value -> prog)
    (w w' : W) (v : value) (log : list (entry W)) :
  run h d (Workflow.training_epoch m lf opt trx try_ tex tey epoch losses k) w
    = (Returned v, w', log) ->
  exists s1 w1 l1 l2,
    run h d (k s1) w1 = (Returned v, w', l2) /\
    log = l1 ++ l2 /\
    schema_trace l1 = epoch_schema [(trx, try_)] [(tex, tey)].
Proof.
  intros H. unfold Workflow.training_epoch in H.
  do 7 step_run H. step_with H Hb. do 3 step_run Hb.
  do 4 step_run H.
  close_pass 15%nat H.
Qed.

End Schema.

Lemma run_Throw_inv {W} (h : handler W) (d : nat) (e : exn) (w w' : W) (v : value)
    (log : list (entry W)) :
  run h d (Throw e) w = (Returned v, w', log) -> False.
Proof. cbn. discriminate. Qed.

Lemma Forall2_const_map {A B C} (f : B -> C) (c : C) (xs : list A) (ls : list B) :
  Forall2 (fun _ l => f l = c) xs ls -> map f ls = replicate (length xs) c.
Proof.
  induction 1 as [| x l xs ls Hl _ IH]; [reflexivity |].
  cbn. rewrite Hl, IH. reflexivity.
Qed.

Lemma Forall2_exists_map {A B C D} (f : B -> C) (g : D -> C) (xs : list A) (ls : list B) :
  Forall2 (fun _ l => exists y, f l = g y) xs ls ->
  exists ys, length ys = length xs /\ map f ls = map g ys.
Proof.
  induction 1 as [| x l xs ls [y Hl] _ (ys & Hlen & IH)].
  - exists []. auto.
  - exists (y :: ys). cbn. rewrite Hl, IH, Hlen. auto.
Qed.

Lemma range_length (n : nat) : length (range n) = n.
Proof. unfold range. rewrite length_map, length_seq. reflexivity. Qed.

Section LoopSchema.
Context {W : Type} (h : handler W) (d : nat).

(** The workflow loop: [epoch_count] epochs of one training step and one
    evaluation each. *)
Lemma workflow_loop_schema (m lf opt trx try_ tex tey : value) (n : nat)
    (w w' : W) (v : value) (log : list (entry W)) :
  run h d (Workflow.training_loop m lf opt trx try_ tex tey n) w = (Returned v, w', log) ->
  schema_trace log = concat (replicate n (epoch_schema [(trx, try_)] [(tex, tey)])).
Proof.
  intros H. unfold Workflow.training_loop in H.
  step_run H.
  apply (for_each_inv h _ _ (fun _ l => schema_trace l = epoch_schema [(trx, try_)] [(tex, tey)]))
    in H as (s1 & w1 & ls & l2 & H & -> & HF).
  2:{ intros * Hrun. eapply workflow_epoch_run. exact Hrun. }
  step_run H.
  change (schema_trace (?e :: ?l)) with (schema_trace l).
  rewrite app_nil_r, schema_trace_concat.
  rewrite (Forall2_const_map _ _ _ _ HF), range_length. reflexivity.
Qed.

Lemma classification_epoch_run (m lf opt trx try_ tex tey : value)
    (period epoch : Z) (s : value) (k : value -> prog)
    (w w' : W) (v : value) (log : list (entry W)) :
  run h d (Classification.training_epoch m lf opt trx try_ tex tey period epoch s k) w
    = (Returned v, w', log) ->
  exists s1 w1 l1 l2,
    run h d (k s1) w1 = (Returned v, w', l2) /\
    log = l1 ++ l2 /\
    schema_trace l1 = epoch_schema [(trx, try_)] [(tex, tey)].
Proof.
  intros H. unfold Classification.training_epoch in H.
  do 10 step_run H. step_with H Hb. do 6 step_run Hb.
  cbn beta iota in H. destruct (epoch mod period =? 0).
  - step_run H. close_pass 18%nat H.
  - close_pass 17%nat H.
Qed.

(** The classification loops: the same epochs, on the tensors the cell has
    moved to the device. *)
Lemma classification_loop_schema (m lf opt device trx try_ tex tey : value)
    (period : Z) (n : nat) (w w' : W) (v : value) (log : list (entry W)) :
  run h d (Classification.training_loop m lf opt device trx try_ tex tey period n) w
    = (Returned v, w', log) ->
  exists trx' try' tex' tey',
    schema_trace log = concat (replicate n (epoch_schema [(trx', try')] [(tex', tey')])).
Proof.
  intros H. unfold Classification.training_loop in H.
  do 5 step_run H.
  match type of H with
  | run h d (for_each _ (Classification.training_epoch _ _ _ ?a ?b ?c ?d _) _ _) _ = _ =>
      exists a, b, c, d;
      apply (for_each_inv h _ _ (fun _ l => schema_trace l = epoch_schema [(a, b)] [(c, d)]))
        in H as (s1 & w1 & ls & l2 & H & -> & HF)
  end.
  2:{ intros * Hrun. eapply classification_epoch_run. exact Hrun. }
  step_run H.
  do 5 change (schema_trace (?e :: ?l)) with (schema_trace l).
  rewrite app_nil_r, schema_trace_concat.
  rewrite (Forall2_const_map _ _ _ _ HF), range_length. reflexivity.
Qed.

End LoopSchema.

Lemma segment_nil {W} (rest : list (entry W)) : segment rest rest [].
Proof. exists []. auto. Qed.

Lemma segment_cons {W} (e : entry W) (rest log : list (entry W)) (t : list schema_event) :
  segment rest log t ->
  segment rest (e :: log) (option_list (schema_of e) ++ t).
Proof.
  intros (l1 & -> & <-). exists (e :: l1). split; [reflexivity |].
  unfold schema_trace. cbn. destruct (schema_of e); reflexivity.
Qed.

Lemma segment_app {W} (l rest log : list (entry W)) (t : list schema_event) :
  segment rest log t ->
  segment rest (l ++ log) (schema_trace l ++ t).
Proof.
  intros (l1 & -> & <-). exists (l ++ l1). split; [apply app_assoc |].
  apply schema_trace_app.
Qed.

Ltac segments :=
  repeat first [ apply segment_nil | apply segment_cons | apply segment_app ].

Lemma Forall2_steps {A W} (sch : value * value -> list schema_event)
    (xs : list A) (ls : list (list (entry W))) :
  Forall2 (fun _ l => exists b, schema_trace l = sch b) xs ls ->
  exists bs, length bs = length xs /\
    schema_trace (concat ls) = concat (map sch bs).
Proof.
  intros HF. apply Forall2_exists_map in HF as (bs & Hlen & Hmap).
  exists bs. split; [exact Hlen |].
  rewrite schema_trace_concat, Hmap. reflexivity.
Qed.

Section VisionSchema.
Context {W : Type} (h : handler W) (d : nat).

Lemma idiv_run (a n : value) (k : value -> prog)
    (w w' : W) (v : value) (log : list (entry W)) :
  run h d (Vision.idiv a n k) w = (Returned v, w', log) ->
  exists s1 w1 l1 l2,
    run h d (k s1) w1 = (Returned v, w', l2) /\ log = l1 ++ l2 /\ schema_trace l1 = [].
Proof.
  intros H. unfold Vision.idiv in H.
  destruct a; try (step_run H; close_pass 1%nat H).
  destruct n; try (apply run_Throw_inv in H; contradiction).
  destruct (n =? 0); [apply run_Throw_inv in H; contradiction |].
  eexists _, w, [], log. split; [exact H |]. auto.
Qed.

Lemma batches_of_run (dl : value) (k : list value -> prog)
    (w w' : W) (v : value) (log : list (entry W)) :
  run h d (Vision.batches_of dl k) w = (Returned v, w', log) ->
  exists s1 w1 l1 l2,
    run h d (k s1) w1 = (Returned v, w', l2) /\ log = l1 ++ l2 /\ schema_trace l1 = [] /\
    h DataLoader_iter [dl] w = (Returned (VTuple s1), w1).
Proof.
  intros H. unfold Vision.batches_of in H.
  apply run_Do_inv in H as (x & w1 & l2 & Hh & H & ->).
  destruct x; try (apply run_Throw_inv in H; contradiction).
  eexists _, _, _, _. split; [exact H |].
  split; [apply (split_at 1%nat); reflexivity |]. split; [reflexivity | exact Hh].
Qed.

(** A pass of the inner training loop is one training step, on the batch as
    moved to the device. *)
Lemma train_batch_run (m lf opt dev dl : value) (b : Z * value) (s : value)
    (k : value -> prog) (w w' : W) (v : value) (log : list (entry W)) :
  run h d (Vision.train_batch m lf opt dev dl b s k) w = (Returned v, w', log) ->
  exists s1 w1 l1 l2,
    run h d (k s1) w1 = (Returned v, w', l2) /\ log = l1 ++ l2 /\
    exists xy, schema_trace l1 = step_schema xy.
Proof.
  intros H. unfold Vision.train_batch in H.
  destruct b as [batch [| | | | | [| x [| y [| ? ?]]] | | |]]; cbn [fst snd] in H;
    try (apply run_Throw_inv in H; contradiction).
  do 9 step_run H.
  destruct (batch mod 400 =? 0).
  - do 3 step_run H.
    match type of H with
    | run h d (match ?n with _ => _ end) _ = _ =>
        destruct n; try (apply run_Throw_inv in H; contradiction)
    end.
    step_run H.
    eexists _, _, _, _. split; [exact H |].
    split; [apply (split_at 13%nat); reflexivity |].
    eexists (_, _). reflexivity.
  - eexists _, _, _, _. split; [exact H |].
    split; [apply (split_at 9%nat); reflexivity |].
    eexists (_, _). reflexivity.
Qed.

(** A pass of the evaluation loop is one evaluation. *)
Lemma test_batch_run (m lf acc dev : value) (b : value) (s : value * value)
    (k : value * value -> prog) (w w' : W) (v : value) (log : list (entry W)) :
  run h d (Vision.test_batch m lf acc dev b s k) w = (Returned v, w', log) ->
  exists s1 w1 l1 l2,
    run h d (k s1) w1 = (Returned v, w', l2) /\ log = l1 ++ l2 /\
    exists xy, schema_trace l1 = eval_schema xy.
Proof.
  intros H. unfold Vision.test_batch in H.
  destruct b as [| | | | | [| x [| y [| ? ?]]] | | |];
    try (apply run_Throw_inv in H; contradiction).
  do 8 step_run H.
  eexists _, _, _, _. split; [exact H |].
  split; [apply (split_at 8%nat); reflexivity |].
  eexists (_, _). reflexivity.
Qed.

End VisionSchema.

Lemma schema_trace_cons {W} (e : entry W) (l : list (entry W)) :
  schema_trace (e :: l) = option_list (schema_of e) ++ schema_trace l.
Proof. unfold schema_trace. cbn. destruct (schema_of e); reflexivity. Qed.

Lemma enumerate_length {A} (xs : list A) : length (Vision.enumerate xs) = length xs.
Proof.
  unfold Vision.enumerate. rewrite length_zip_with, length_map, length_seq. lia.
Qed.

Section VisionLoopSchema.
Context {W : Type} (h : handler W) (d : nat).

(** [Y] is whatever is known of the number of batches a loader yields. *)
Context (Y : nat -> Prop).
Context (HY : forall a w bs w',
            h DataLoader_iter a w = (Returned (VTuple bs), w') -> Y (length bs)).

Lemma pass_intro {S} (k : S -> prog) (s1 : S) (w1 w' : W) (v : value)
    (l2 log : list (entry W)) (P : list schema_event -> Prop) (t : list schema_event) :
  run h d (k s1) w1 = (Returned v, w', l2) ->
  segment l2 log t ->
  P t ->
  exists s1 w1 l1 l2,
    run h d (k s1) w1 = (Returned v, w', l2) /\ log = l1 ++ l2 /\ P (schema_trace l1).
Proof.
  intros H (l1 & -> & <-) HP. exists s1, w1, l1, l2. auto.
Qed.

(** An epoch of the computer-vision loop: one training step per training
    batch, then inference mode around one evaluation per test batch. *)
Lemma vision_epoch_run (m lf opt acc dev tdl vdl : value) (epoch : Z) (s : unit)
    (k : unit -> prog) (w w' : W) (v : value) (log : list (entry W)) :
  run h d (Vision.training_epoch m lf opt acc dev tdl vdl epoch s k) w
    = (Returned v, w', log) ->
  exists s1 w1 l1 l2,
    run h d (k s1) w1 = (Returned v, w', l2) /\ log = l1 ++ l2 /\
    exists train test,
      schema_trace l1 = epoch_schema train test /\
      Y (length train) /\ Y (length test).
Proof.
  intros H. unfold Vision.training_epoch in H.
  step_run H.
  apply batches_of_run in H as (bs & w1 & lb & l2 & H & -> & Hlb & Hbs).
  apply (for_each_inv h _ _ (fun _ l => exists xy, schema_trace l = step_schema xy))
    in H as (tl & w2 & ls & l3 & H & -> & HF);
    [| intros *; apply train_batch_run].
  step_run H.
  apply idiv_run in H as (tl' & w3 & ld & l4 & H & -> & Hld).
  step_run H. step_with H Hb.
  apply batches_of_run in Hb as (bs' & w4 & lb' & l5 & Hb & -> & Hlb' & Hbs').
  apply (for_each_inv h _ _ (fun _ l => exists xy, schema_trace l = eval_schema xy))
    in Hb as (s' & w5 & ls' & l6 & Hb & -> & HF');
    [| intros *; apply test_batch_run].
  step_run Hb.
  apply idiv_run in Hb as (a1 & w6 & ld1 & l7 & Hb & -> & Hld1).
  step_run Hb.
  apply idiv_run in Hb as (a2 & w7 & ld2 & l8 & Hb & -> & Hld2).
  step_run Hb.
  cbn beta iota in H. step_run H.
  apply Forall2_steps in HF as (train & Ltrain & Htrain).
  apply Forall2_steps in HF' as (test & Ltest & Htest).
  rewrite enumerate_length in Ltrain.
  apply HY in Hbs, Hbs'. rewrite <- Ltrain in Hbs. rewrite <- Ltest in Hbs'.
  eapply (pass_intro k _ _ _ _ _ _
            (fun t => exists train test,
               t = epoch_schema train test /\ Y (length train) /\ Y (length test)));
    [exact H | segments |].
  exists train, test. split; [| split; assumption].
  repeat (rewrite schema_trace_app || rewrite schema_trace_cons).
  rewrite Hlb, Htrain, Hld, Hlb', Htest, Hld1, Hld2.
  cbn. rewrite !app_nil_r. unfold epoch_schema. reflexivity.
Qed.

(** The computer-vision loop: [epoch_count] such epochs. *)
Lemma vision_loop_schema (m lf opt acc dev tdl vdl : value) (n : nat)
    (w w' : W) (v : value) (log : list (entry W)) :
  run h d (Vision.training_loop m lf opt acc dev tdl vdl n) w = (Returned v, w', log) ->
  exists epochs : list (list (value * value) * list (value * value)),
    length epochs = n /\
    schema_trace log = concat (map (fun e => epoch_schema e.1 e.2) epochs) /\
    Forall (fun e => Y (length e.1) /\ Y (length e.2)) epochs.
Proof.
  intros H. unfold Vision.training_loop in H.
  step_run H.
  apply (for_each_inv h _ _
           (fun _ l => exists train test,
              schema_trace l = epoch_schema train test /\
              Y (length train) /\ Y (length test)))
    in H as (s1 & w1 & ls & l2 & H & -> & HF);
    [| intros *; apply vision_epoch_run].
  step_run H.
  change (schema_trace (?e :: ?l)) with (schema_trace l).
  rewrite app_nil_r, schema_trace_concat.
  rewrite <- (range_length n).
  induction HF as [| i l xs ls (train & test & E & Y1 & Y2) _ IH].
  - exists []. cbn. auto.
  - destruct IH as (epochs & Hlen & Hmap & Hall).
    exists ((train, test) :: epochs). cbn [length map concat fst snd].
    rewrite Hlen, E, Hmap. auto.
Qed.

End VisionLoopSchema.

(** ** The shape of the loops *)

Lemma shape_epochs (n : nat) (b b' : value * value) :
  map kind_of (concat (replicate n (epoch_schema [b] [b'])))
  = concat (replicate n unit_shape).
Proof.
  induction n as [| n IH]; [reflexivity |].
  cbn [replicate concat]. rewrite map_app, IH. reflexivity.
Qed.

Lemma shape_single_epochs (epochs : list (list (value * value) * list (value * value))) :
  Forall (fun e => length e.1 = 1%nat /\ length e.2 = 1%nat) epochs ->
  map kind_of (concat (map (fun e => epoch_schema e.1 e.2) epochs))
  = concat (replicate (length epochs) unit_shape).
Proof.
  induction 1 as [| [train test] epochs [H1 H2] _ IH]; [reflexivity |].
  cbn [map concat length replicate fst snd] in *. rewrite map_app, IH.
  destruct train as [| b [| ? ?]], test as [| b' [| ? ?]]; try discriminate.
  reflexivity.
Qed.


Lemma stand_in_yield (b : nat) (a : list value) (w w' : world) (bs : list value) :
  stand_in b DataLoader_iter a w = (Returned (VTuple bs), w') -> length bs = b.
Proof.
  unfold stand_in. destruct (bool_decide _); [discriminate |].
  cbn. intros [= <- _]. rewrite length_map, length_seq. reflexivity.
Qed.


(** With no call failing, a program that raises nothing itself returns. *)
Lemma stand_in_returns (b : nat) (p : prog) :
  throw_free p ->
  forall d w, fail_at w = None ->
  exists v w' log, run (stand_in b) d p w = (Returned v, w', log) /\ fail_at w' = None.
Proof.
  induction 1 as [v | f args k _ IH | body k _ IHb _ IHk]; intros d w Hw.
  - exists v, w, []. auto.
  - cbn [run]. unfold stand_in at 1. rewrite Hw.
    rewrite bool_decide_eq_false_2 by discriminate.
    edestruct (IH (nominal b f args) d) as (v & w' & log & R & Hw'); [| rewrite R; eauto].
    reflexivity.
  - cbn [run]. unfold stand_in at 1. rewrite Hw.
    rewrite bool_decide_eq_false_2 by discriminate.
    edestruct (IHb (S d)) as (vb & w2 & logb & Rb & Hw2); [| rewrite Rb]; [reflexivity |].
    unfold stand_in at 1. rewrite Hw2.
    rewrite bool_decide_eq_false_2 by discriminate.
    edestruct (IHk vb d) as (v & w' & log & R & Hw'); [| rewrite R; eauto].
    reflexivity.
Qed.

Lemma for_each_throw_free {A S} (body : A -> S -> (S -> prog) -> prog) :
  (forall x s k, (forall s', throw_free (k s')) -> throw_free (body x s k)) ->
  forall xs s k, (forall s', throw_free (k s')) -> throw_free (for_each xs body s k).
Proof.
  intros Hbody xs. induction xs as [| x xs IH]; intros s k Hk; cbn; auto.
Qed.

Lemma workflow_loop_throw_free (m lf opt trx try_ tex tey : value) (n : nat) :
  throw_free (Workflow.training_loop m lf opt trx try_ tex tey n).
Proof.
  unfold Workflow.training_loop. constructor. intros _.
  apply for_each_throw_free; [| intros; constructor].
  intros x s k Hk. unfold Workflow.training_epoch.
  repeat (constructor; intros); apply Hk.
Qed.


(** ** Parameters change at [optimizer.step] only *)

Lemma chained_app {W} (w w1 w' : W) (l1 l2 : list (entry W)) :
  chained w l1 w1 -> chained w1 l2 w' -> chained w (l1 ++ l2) w'.
Proof.
  revert w. induction l1 as [| e l1 IH]; cbn; intros w H1 H2.
  - subst. exact H2.
  - destruct H1 as [Hp H1]. split; [exact Hp | eauto].
Qed.

Section Frame.
Context {W : Type} (h : handler W).

(** The program has no hand on the world: it changes inside calls only. *)
Lemma run_chained (p : prog) :
  forall d w o w' log, run h d p w = (o, w', log) -> chained w log w'.
Proof.
  induction p as [v | e | f args k IH | body IHb k IHk]; intros d w o w' log; cbn [run].
  - intros [= <- <- <-]. reflexivity.
  - intros [= <- <- <-]. reflexivity.
  - destruct (h f args w) as [[v | e] w1].
    + destruct (run h d (k v) w1) as [[o1 w2] l] eqn:R. intros [= <- <- <-].
      cbn. split; [reflexivity |]. eapply IH. exact R.
    + intros [= <- <- <-]. cbn. auto.
  - destruct (h inference_mode_enter [] w) as [[v0 | e] w1].
    2:{ intros [= <- <- <-]. cbn. auto. }
    destruct (run h (S d) body w1) as [[ob w2] logb] eqn:Rb.
    apply IHb in Rb.
    destruct (h inference_mode_exit [] w2) as [[vx | e] w3], ob as [vb | e'].
    + destruct (run h d (k vb) w3) as [[o1 w4] l] eqn:Rk. intros [= <- <- <-].
      cbn. split; [reflexivity |].
      eapply chained_app; [exact Rb |]. cbn. split; [reflexivity |].
      eapply IHk. exact Rk.
    + intros [= <- <- <-]. cbn. split; [reflexivity |].
      eapply chained_app; [exact Rb |]. cbn. auto.
    + intros [= <- <- <-]. cbn. split; [reflexivity |].
      eapply chained_app; [exact Rb |]. cbn. auto.
    + intros [= <- <- <-]. cbn. split; [reflexivity |].
      eapply chained_app; [exact Rb |]. cbn. auto.
Qed.

Lemma run_faithful (p : prog) :
  forall d w o w' log, run h d p w = (o, w', log) -> faithful h log.
Proof.
  unfold faithful.
  induction p as [v | e | f args k IH | body IHb k IHk]; intros d w o w' log; cbn [run].
  - intros [= <- <- <-]. constructor.
  - intros [= <- <- <-]. constructor.
  - destruct (h f args w) as [[v | e] w1] eqn:E.
    + destruct (run h d (k v) w1) as [[o1 w2] l] eqn:R. intros [= <- <- <-].
      constructor; [exact E | eapply IH; exact R].
    + intros [= <- <- <-]. constructor; [exact E | constructor].
  - destruct (h inference_mode_enter [] w) as [[v0 | e] w1] eqn:E.
    2:{ intros [= <- <- <-]. constructor; [exact E | constructor]. }
    destruct (run h (S d) body w1) as [[ob w2] logb] eqn:Rb.
    apply IHb in Rb.
    destruct (h inference_mode_exit [] w2) as [[vx | e] w3] eqn:Ex, ob as [vb | e'].
    + destruct (run h d (k vb) w3) as [[o1 w4] l] eqn:Rk. intros [= <- <- <-].
      constructor; [exact E |]. apply Forall_app. split; [exact Rb |].
      constructor; [exact Ex | eapply IHk; exact Rk].
    + intros [= <- <- <-]. constructor; [exact E |]. apply Forall_app.
      split; [exact Rb |]. constructor; [exact Ex | constructor].
    + intros [= <- <- <-]. constructor; [exact E |]. apply Forall_app.
      split; [exact Rb |]. constructor; [exact Ex | constructor].
    + intros [= <- <- <-]. constructor; [exact E |]. apply Forall_app.
      split; [exact Rb |]. constructor; [exact Ex | constructor].
Qed.

Lemma run_never_calls (f : api) (p : prog) :
  never_calls f p ->
  forall d w o w' log, run h d p w = (o, w', log) ->
  Forall (fun e => e_api e <> f) log.
Proof.
  induction 1 as [v | e | g args k Hg _ IH | body k He Hx _ IHb _ IHk];
    intros d w o w' log; cbn [run].
  - intros [= <- <- <-]. constructor.
  - intros [= <- <- <-]. constructor.
  - destruct (h g args w) as [[v | e] w1].
    + destruct (run h d (k v) w1) as [[o1 w2] l] eqn:R. intros [= <- <- <-].
      constructor; [exact Hg | eapply IH; exact R].
    + intros [= <- <- <-]. constructor; [exact Hg | constructor].
  - destruct (h inference_mode_enter [] w) as [[v0 | e] w1].
    2:{ intros [= <- <- <-]. constructor; [exact He | constructor]. }
    destruct (run h (S d) body w1) as [[ob w2] logb] eqn:Rb.
    apply IHb in Rb.
    destruct (h inference_mode_exit [] w2) as [[vx | e] w3], ob as [vb | e'].
    + destruct (run h d (k vb) w3) as [[o1 w4] l] eqn:Rk. intros [= <- <- <-].
      constructor; [exact He |]. apply Forall_app. split; [exact Rb |].
      constructor; [exact Hx | eapply IHk; exact Rk].
    + intros [= <- <- <-]. constructor; [exact He |]. apply Forall_app.
      split; [exact Rb |]. constructor; [exact Hx | constructor].
    + intros [= <- <- <-]. constructor; [exact He |]. apply Forall_app.
      split; [exact Rb |]. constructor; [exact Hx | constructor].
    + intros [= <- <- <-]. constructor; [exact He |]. apply Forall_app.
      split; [exact Rb |]. constructor; [exact Hx | constructor].
Qed.

(** Calls made at depth [d] are recorded at depth [d]; only the calls of an
    inference-mode block are recorded deeper. *)
Lemma run_steps_outside (p : prog) :
  steps_outside_inference p ->
  forall d w o w' log, run h d p w = (o, w', log) ->
  Forall (fun e => (d < e_inside e)%nat -> e_api e <> Optimizer_step) log.
Proof.
  induction 1 as [v | e | f args k _ IH | body k Hb _ IHk];
    intros d w o w' log; cbn [run].
  - intros [= <- <- <-]. constructor.
  - intros [= <- <- <-]. constructor.
  - destruct (h f args w) as [[v | e] w1].
    + destruct (run h d (k v) w1) as [[o1 w2] l] eqn:R. intros [= <- <- <-].
      constructor; [cbn; lia | eapply IH; exact R].
    + intros [= <- <- <-]. constructor; [cbn; lia | constructor].
  - assert (Hbody : forall w1 ob w2 logb,
              run h (S d) body w1 = (ob, w2, logb) ->
              Forall (fun e => (d < e_inside e)%nat -> e_api e <> Optimizer_step) logb).
    { intros w1 ob w2 logb Rb. apply (run_never_calls _ _ Hb) in Rb.
      eapply Forall_impl; [exact Rb |]. cbn. auto. }
    destruct (h inference_mode_enter [] w) as [[v0 | e] w1].
    2:{ intros [= <- <- <-]. constructor; [cbn; lia | constructor]. }
    destruct (run h (S d) body w1) as [[ob w2] logb] eqn:Rb.
    apply Hbody in Rb.
    destruct (h inference_mode_exit [] w2) as [[vx | e] w3], ob as [vb | e'].
    + destruct (run h d (k vb) w3) as [[o1 w4] l] eqn:Rk. intros [= <- <- <-].
      constructor; [cbn; lia |]. apply Forall_app. split; [exact Rb |].
      constructor; [cbn; lia | eapply IHk; exact Rk].
    + intros [= <- <- <-]. constructor; [cbn; lia |]. apply Forall_app.
      split; [exact Rb |]. constructor; [cbn; lia | constructor].
    + intros [= <- <- <-]. constructor; [cbn; lia |]. apply Forall_app.
      split; [exact Rb |]. constructor; [cbn; lia | constructor].
    + intros [= <- <- <-]. constructor; [cbn; lia |]. apply Forall_app.
      split; [exact Rb |]. constructor; [cbn; lia | constructor].
Qed.

End Frame.

Lemma for_each_steps_outside {A S} (body : A -> S -> (S -> prog) -> prog) :
  (forall x s k, (forall s', steps_outside_inference (k s')) ->
                 steps_outside_inference (body x s k)) ->
  forall xs s k, (forall s', steps_outside_inference (k s')) ->
                 steps_outside_inference (for_each xs body s k).
Proof.
  intros Hbody xs. induction xs as [| x xs IH]; intros s k Hk; cbn; auto.
Qed.

Lemma for_each_never_calls {A S} (f : api) (body : A -> S -> (S -> prog) -> prog) :
  (forall x s k, (forall s', never_calls f (k s')) -> never_calls f (body x s k)) ->
  forall xs s k, (forall s', never_calls f (k s')) -> never_calls f (for_each xs body s k).
Proof.
  intros Hbody xs. induction xs as [| x xs IH]; intros s k Hk; cbn; auto.
Qed.

(** Walks a program, one call or branch at a time. *)
Ltac walk :=
  repeat first
    [ progress intros
    | match goal with
      | H : forall _, steps_outside_inference _ |- steps_outside_inference _ => apply H
      | H : forall _, never_calls _ _ |- never_calls _ _ => apply H
      end
    | apply so_Ret | apply so_Throw | apply nc_Ret | apply nc_Throw
    | apply so_Do | apply so_With
    | apply nc_Do; [discriminate |]
    | apply nc_With; [discriminate | discriminate | |]
    | apply for_each_steps_outside
    | apply for_each_never_calls
    | match goal with
      | |- context [match ?x with _ => _ end] => destruct x
      | |- context [if ?c then _ else _] => destruct c
      end ].

Lemma workflow_loop_steps_outside (m lf opt trx try_ tex tey : value) (n : nat) :
  steps_outside_inference (Workflow.training_loop m lf opt trx try_ tex tey n).
Proof.
  unfold Workflow.training_loop, Workflow.training_epoch. walk.
Qed.

Lemma classification_loop_steps_outside
    (m lf opt device trx try_ tex tey : value) (period : Z) (n : nat) :
  steps_outside_inference
    (Classification.training_loop m lf opt device trx try_ tex tey period n).
Proof.
  unfold Classification.training_loop, Classification.training_epoch. walk.
Qed.

Lemma vision_loop_steps_outside (m lf opt acc dev tdl vdl : value) (n : nat) :
  steps_outside_inference (Vision.training_loop m lf opt acc dev tdl vdl n).
Proof.
  unfold Vision.training_loop, Vision.training_epoch, Vision.batches_of,
    Vision.train_batch, Vision.test_batch, Vision.idiv.
  walk.
Qed.


Lemma stand_in_frame (b : nat) (f : api) (a : list value) (w : world) :
  f <> Optimizer_step -> steps (stand_in b f a w).2 = steps w.
Proof.
  intros Hf. unfold stand_in. destruct (bool_decide _); cbn;
    destruct f; congruence.
Qed.


(** ** Failures are not handled *)

Section Abort.
Context {W : Type} (h : handler W).

Lemma aborted_cons (e0 : entry W) (o : outcome) (log : list (entry W)) :
  returned_ok e0 -> aborted o log -> aborted o (e0 :: log).
Proof.
  intros H0 (l1 & e & l2 & x & x' & -> & H1 & He & H2 & Ho & Hx).
  exists (e0 :: l1), e, l2, x, x'. repeat split; auto.
Qed.

Lemma aborted_app (l0 : list (entry W)) (o : outcome) (log : list (entry W)) :
  Forall returned_ok l0 -> aborted o log -> aborted o (l0 ++ log).
Proof.
  intros H0 (l1 & e & l2 & x & x' & -> & H1 & He & H2 & Ho & Hx).
  exists (l0 ++ l1), e, l2, x, x'. rewrite app_assoc.
  repeat split; auto. apply Forall_app. auto.
Qed.

(** Nothing in a program catches: either every call returned, or the run
    was aborted by the first call that raised. *)
Lemma run_no_recovery (p : prog) :
  forall d w o w' log, run h d p w = (o, w', log) ->
  Forall returned_ok log \/ aborted o log.
Proof.
  induction p as [v | e | f args k IH | body IHb k IHk]; intros d w o w' log; cbn [run].
  - intros [= <- <- <-]. left. constructor.
  - intros [= <- <- <-]. left. constructor.
  - destruct (h f args w) as [[v | e] w1].
    + destruct (run h d (k v) w1) as [[o1 w2] l] eqn:R. intros [= <- <- <-].
      assert (H0 : returned_ok (Entry f args (Returned v) w w1 d)) by (eexists; reflexivity).
      destruct (IH _ _ _ _ _ _ R) as [Hall | Hab].
      * left. constructor; assumption.
      * right. apply aborted_cons; assumption.
    + intros [= <- <- <-]. right.
      exists [], (Entry f args (Raised e) w w1 d), [], e, e.
      repeat split; auto.
  - destruct (h inference_mode_enter [] w) as [[v0 | e] w1].
    2:{ intros [= <- <- <-]. right.
        exists [], (Entry inference_mode_enter [] (Raised e) w w1 d), [], e, e.
        repeat split; auto. }
    assert (H0 : returned_ok (Entry inference_mode_enter [] (Returned v0) w w1 d))
      by (eexists; reflexivity).
    destruct (run h (S d) body w1) as [[ob w2] logb] eqn:Rb.
    apply IHb in Rb.
    destruct (h inference_mode_exit [] w2) as [[vx | e] w3], ob as [vb | e'].
    + (* the block and its exit returned *)
      destruct (run h d (k vb) w3) as [[o1 w4] l] eqn:Rk. intros [= <- <- <-].
      assert (Hx : returned_ok (Entry inference_mode_exit [] (Returned vx) w2 w3 d))
        by (eexists; reflexivity).
      destruct Rb as [Hb | (l1 & e & l2 & x & x' & _ & _ & _ & _ & Ho & _)];
        [| discriminate Ho].
      destruct (IHk _ _ _ _ _ _ Rk) as [Hall | Hab].
      * left. constructor; [exact H0 |]. apply Forall_app. split; [exact Hb |].
        constructor; assumption.
      * right. apply aborted_cons; [exact H0 |]. apply aborted_app; [exact Hb |].
        apply aborted_cons; assumption.
    + (* the block raised, the exit returned *)
      intros [= <- <- <-].
      destruct Rb as [Hb | (l1 & e & l2 & x & x' & -> & H1 & He & H2 & Ho & Hx)].
      * left. constructor; [exact H0 |]. apply Forall_app. split; [exact Hb |].
        constructor; [eexists; reflexivity | constructor].
      * right. injection Ho as <-.
        exists (Entry inference_mode_enter [] (Returned v0) w w1 d :: l1), e,
               (l2 ++ [Entry inference_mode_exit [] (Returned vx) w2 w3 d]), x, e'.
        split; [cbn; rewrite <- app_assoc; reflexivity |].
        split; [constructor; assumption |]. split; [exact He |].
        split; [apply Forall_app; split; [exact H2 | constructor; [reflexivity | constructor]] |].
        split; [reflexivity |].
        intros Hl2. apply Forall_app in Hl2 as [Hl2 _]. auto.
    + (* the exit raised after the block returned *)
      intros [= <- <- <-].
      destruct Rb as [Hb | (l1 & e0 & l2 & x & x' & _ & _ & _ & _ & Ho & _)];
        [| discriminate Ho].
      right.
      exists (Entry inference_mode_enter [] (Returned v0) w w1 d :: logb),
             (Entry inference_mode_exit [] (Raised e) w2 w3 d), [], e, e.
      split; [reflexivity |]. split; [constructor; assumption |].
      repeat split; auto.
    + (* the block raised, and so did the exit *)
      intros [= <- <- <-].
      destruct Rb as [Hb | (l1 & e0 & l2 & x & x' & -> & H1 & He & H2 & Ho & Hx)].
      * right.
        exists (Entry inference_mode_enter [] (Returned v0) w w1 d :: logb),
               (Entry inference_mode_exit [] (Raised e) w2 w3 d), [], e, e.
        split; [reflexivity |]. split; [constructor; assumption |].
        repeat split; auto.
      * right.
        exists (Entry inference_mode_enter [] (Returned v0) w w1 d :: l1), e0,
               (l2 ++ [Entry inference_mode_exit [] (Raised e) w2 w3 d]), x, e.
        split; [cbn; rewrite <- app_assoc; reflexivity |].
        split; [constructor; assumption |]. split; [exact He |].
        split; [apply Forall_app; split; [exact H2 | constructor; [reflexivity | constructor]] |].
        split; [reflexivity |].
        intros Hl2. apply Forall_app in Hl2 as [_ Hl2].
        inversion Hl2 as [| ? ? [v Hv] _]. discriminate Hv.
Qed.

End Abort.

(** [exist_ok=True] is what lets the directory be there already. *)
Example mkdir_exist_ok_false :
  FS.mkdir true false Workflow.model_path (<[Workflow.model_path := FS.Dir]> ∅)
  = Raise FileExistsError.
Proof. vm_compute. reflexivity. Qed.

(** It does not help when the name is taken by a file. *)
Example mkdir_over_file :
  FS.mkdir true true Workflow.model_path
    (<[Workflow.model_path := FS.File FS.Other]> ∅)
  = Raise FileExistsError.
Proof. vm_compute. reflexivity. Qed.

Lemma save_cell_propagates (sample_model : Workflow.LinearRegressionModel)
    (fs : gmap FS.path FS.node) (e : exn) :
  (FS.mkdir true true Workflow.model_path fs = Raise e ->
   Workflow.save_cell sample_model fs = Raise e) /\
  (forall fs1,
     FS.mkdir true true Workflow.model_path fs = Ok fs1 ->
     FS.torch_save (Workflow.state_dict sample_model) Workflow.model_file fs1 = Raise e ->
     Workflow.save_cell sample_model fs = Raise e).
Proof.
  unfold Workflow.save_cell. split.
  - intros ->. reflexivity.
  - intros fs1 -> H. exact H.
Qed.

Lemma to_device_returns {W} (h : handler W) (cuda : W -> bool) (x : value) (w : W) :
  (forall w, exists w1,
      h Torch_cuda_is_available [] w = (Returned (VBool (cuda w)), w1) /\
      cuda w1 = cuda w) ->
  (forall x w, exists v w1, h Tensor_to [x; VStr "cpu"] w = (Returned v, w1)) ->
  (forall x w, cuda w = true ->
               exists v w1, h Tensor_to [x; VStr "cuda"] w = (Returned v, w1)) ->
  exists v w1 log1, run h 0 (to_device x) w = (Returned v, w1, log1).
Proof.
  intros Havail Hcpu Hcuda. unfold to_device, select_device. cbn [pbind run].
  destruct (Havail w) as (w1 & E & Hc). rewrite E. cbn [truthy].
  destruct (cuda w) eqn:C.
  - destruct (Hcuda x w1) as (v & w2 & E'); [congruence |]. rewrite E'. eauto.
  - destruct (Hcpu x w1) as (v & w2 & E'). rewrite E'. eauto.
Qed.




(** A failure in the middle of the computer-vision cell: the call numbered 32, a forward pass inside the
    inference-mode block, fails; the block is left and the cell ends by that
    failure. *)
Example vision_cell_aborted :
  let r := run (stand_in 2) 0
             (Vision.training_cell a_model a_loss_function an_optimizer
                an_accuracy a_device train_loader test_loader)
             (world_failing_at 32) in
  r.1.1 = Raised (LibraryError 32) /\
  map e_api (drop 32 r.2) = [Module_call; inference_mode_exit].
Proof. vm_compute. auto. Qed.

(** ** What the functions of the notebooks compute themselves *)

Lemma LinearRegressionModel_init_relays (self : value) :
  relays (Functions.LinearRegressionModel_init self).
Proof.
  intros W h d w w' v log H. unfold Functions.LinearRegressionModel_init in H.
  do 8 step_run H. left. reflexivity.
Qed.

Lemma LinearRegressionModel_weight_relays (self : value) :
  relays (Functions.LinearRegressionModel_weight self).
Proof.
  intros W h d w w' v log H. unfold Functions.LinearRegressionModel_weight in H.
  do 2 step_run H. right. eexists. split; reflexivity.
Qed.

Lemma LinearRegressionModel_bias_relays (self : value) :
  relays (Functions.LinearRegressionModel_bias self).
Proof.
  intros W h d w w' v log H. unfold Functions.LinearRegressionModel_bias in H.
  do 2 step_run H. right. eexists. split; reflexivity.
Qed.

Lemma LinearRegressionModel_forward_relays (self predictor : value) :
  relays (Functions.LinearRegressionModel_forward self predictor).
Proof.
  intros W h d w w' v log H.
  unfold Functions.LinearRegressionModel_forward,
    Functions.LinearRegressionModel_weight, Functions.LinearRegressionModel_bias in H.
  cbn [pbind] in H.
  do 5 step_run H. right. eexists. split; reflexivity.
Qed.

Lemma CircleModelLinearLayers_init_relays (self : value) :
  relays (Functions.CircleModelLinearLayers_init self).
Proof.
  intros W h d w w' v log H. unfold Functions.CircleModelLinearLayers_init in H.
  do 6 step_run H. left. reflexivity.
Qed.

Lemma CircleModelLinearLayers_forward_relays (self points : value) :
  relays (Functions.CircleModelLinearLayers_forward self points).
Proof.
  intros W h d w w' v log H. unfold Functions.CircleModelLinearLayers_forward in H.
  do 5 step_run H. right. eexists. split; reflexivity.
Qed.

Lemma CircleModelNonLinear_init_relays (self : value) :
  relays (Functions.CircleModelNonLinear_init self).
Proof.
  intros W h d w w' v log H. unfold Functions.CircleModelNonLinear_init in H.
  do 8 step_run H. left. reflexivity.
Qed.

Lemma CircleModelNonLinear_forward_relays (self points : value) :
  relays (Functions.CircleModelNonLinear_forward self points).
Proof.
  intros W h d w w' v log H. unfold Functions.CircleModelNonLinear_forward in H.
  do 7 step_run H. right. eexists. split; reflexivity.
Qed.

Lemma FashionMNISTLinear_init_relays (self i hu o : value) :
  relays (Functions.FashionMNISTLinear_init self i hu o).
Proof.
  intros W h d w w' v log H. unfold Functions.FashionMNISTLinear_init in H.
  do 7 step_run H. left. reflexivity.
Qed.

Lemma FashionMNISTLinear_forward_relays (self x : value) :
  relays (Functions.FashionMNISTLinear_forward self x).
Proof.
  intros W h d w w' v log H. unfold Functions.FashionMNISTLinear_forward in H.
  do 3 step_run H. right. eexists. split; reflexivity.
Qed.

Lemma reset_seed_relays : relays Functions.reset_seed.
Proof.
  intros W h d w w' v log H. unfold Functions.reset_seed in H.
  do 2 step_run H. left. reflexivity.
Qed.

Lemma accuracy_function_computes (a b : value) :
  computes_percentage (Functions.accuracy_function a b).
Proof.
  intros W h d w w' v log H. unfold Functions.accuracy_function in H.
  do 4 step_run H. unfold Functions.py_percentage in H.
  match type of H with
  | run h d (match ?x with _ => _ end) _ = _ =>
      destruct x as [| | cz | | | | | |]; try (apply run_Throw_inv in H; contradiction)
  end.
  match type of H with
  | run h d (match ?x with _ => _ end) _ = _ =>
      destruct x as [| | nz | | | | | |]; try (apply run_Throw_inv in H; contradiction)
  end.
  destruct (Z.eqb_spec nz 0) as [| Hn]; [apply run_Throw_inv in H; contradiction |].
  step_run H.
  eexists cz, nz, _, _.
  split; [right; right; left; reflexivity |]. split; [reflexivity |].
  split; [reflexivity |].
  split; [right; right; right; left; reflexivity |]. split; [reflexivity |].
  split; [reflexivity |]. split; [exact Hn | reflexivity].
Qed.



Example accuracy_function_run :
  (run (stand_in 1) 0 (Functions.accuracy_function test_y test_x) world0).1.1
  = Returned (VFloat (inject_Z 16 / inject_Z 32 * 100)).
Proof. vm_compute. reflexivity. Qed.

(** The two embeddings of [accuracy_function] and of [forward] agree: run
    against the tensor library, the program of calls computes what the
    function on tensors computes. *)
Lemma accuracy_function_agrees (m : Workflow.LinearRegressionModel) (a b : tensor) :
  (run (tensor_lib m) 0 (Functions.accuracy_function (VTensor a) (VTensor b)) tt).1.1
  = match Classification.accuracy_function a b with
    | Ok q => Returned (VFloat q)
    | Raise e => Raised e
    end.
Proof.
  unfold Functions.accuracy_function, Classification.accuracy_function.
  cbn [run tensor_lib].
  destruct (Classification.torch_eq a b) as [l |]; [| reflexivity].
  cbn [run tensor_lib Functions.py_percentage].
  unfold Classification.true_div.
  destruct (Z.of_nat (length b) =? 0); reflexivity.
Qed.

Lemma forward_agrees (m : Workflow.LinearRegressionModel) (self : value) (x : tensor) :
  (run (tensor_lib m) 0 (Functions.LinearRegressionModel_forward self (VTensor x)) tt).1.1
  = match Workflow.forward m x with
    | Some t => Returned (VTensor t)
    | None => Raised RuntimeError
    end.
Proof.
  unfold Functions.LinearRegressionModel_forward, Workflow.forward,
    Functions.LinearRegressionModel_weight, Functions.LinearRegressionModel_bias.
  cbn [pbind run tensor_lib String.eqb Ascii.eqb Bool.eqb].
  unfold tensor_op.
  destruct (Workflow.broadcast2 F32.mul (Workflow.weight m) x) as [wx |]; [| reflexivity].
  cbn [run tensor_lib mbind option_bind String.eqb Ascii.eqb Bool.eqb].
  unfold tensor_op.
  destruct (Workflow.broadcast2 F32.add wx (Workflow.bias m)); reflexivity.
Qed.

(** ** Where the data comes from *)

Section DataCells.
Context {W : Type} (h : handler W) (d : nat).

(** The classification notebook creates data by one call,
    [make_circles(1000, noise=0.03, random_state=42)], and what that call
    returns is what it turns into tensors. *)
Lemma classification_data_calls (w w' : W) (v : value) (log : list (entry W)) :
  run h d Classification.data_cells w = (Returned v, w', log) ->
  data_calls log = [the_make_circles] /\
  exists points classification e,
    head log = Some e /\
    e_api e = make_circles /\
    e_out e = Returned (VTuple [points; classification]) /\
    In (Torch_from_numpy, [points]) (map (fun e => (e_api e, e_args e)) log) /\
    In (Torch_from_numpy, [classification]) (map (fun e => (e_api e, e_args e)) log).
Proof.
  intros H. unfold Classification.data_cells in H.
  step_run H.
  match type of H with
  | run h d (match ?x with _ => _ end) _ = _ =>
      destruct x as [| | | | | [| points [| classification [| ? ?]]] | | |];
        try (apply run_Throw_inv in H; contradiction)
  end.
  do 15 step_run H.
  match type of H with
  | run h d (match ?x with _ => _ end) _ = _ =>
      destruct x as [| | | | | [| a [| b [| c [| e [| ? ?]]]]] | | |];
        try (apply run_Throw_inv in H; contradiction)
  end.
  step_run H.
  split; [reflexivity |].
  exists points, classification. eexists. split; [reflexivity |].
  split; [reflexivity |]. split; [reflexivity |].
  cbn. split; [do 6 right; left; reflexivity | do 8 right; left; reflexivity].
Qed.

(** The computer-vision notebook creates data by two calls of the
    [FashionMNIST] loader, [train=True] then [train=False]. *)
Lemma vision_data_calls (w w' : W) (v : value) (log : list (entry W)) :
  run h d Vision.data_cells w = (Returned v, w', log) ->
  exists tr tr' : value,
    data_calls log = [the_FashionMNIST_train tr; the_FashionMNIST_test tr'].
Proof.
  intros H. unfold Vision.data_cells in H.
  do 7 step_run H. eexists _, _. reflexivity.
Qed.

(** The workflow notebook creates data by [torch.arange(0, 1, 0.02)]. *)
Lemma workflow_data_calls (w w' : W) (v : value) (log : list (entry W)) :
  run h d Workflow.data_cells w = (Returned v, w', log) ->
  data_calls log = [the_arange].
Proof.
  intros H. unfold Workflow.data_cells in H.
  do 6 step_run H.
  match type of H with
  | run h d (match ?x with _ => _ end) _ = _ =>
      destruct x as [| | n | | | | | |];
        try (apply run_Throw_inv in H; contradiction)
  end.
  destruct (PyFloat.to_int _); [| apply run_Throw_inv in H; contradiction].
  do 5 step_run H. reflexivity.
Qed.

(** Its prediction cell creates the new predictor by
    [torch.arange(1.02, 1.20, 0.02)]. *)
Lemma workflow_prediction_data_calls (sample_model : value)
    (w w' : W) (v : value) (log : list (entry W)) :
  run h d (Workflow.prediction_cell sample_model) w = (Returned v, w', log) ->
  data_calls log = [the_new_arange].
Proof.
  intros H. unfold Workflow.prediction_cell in H.
  do 2 step_run H. step_with H Hb. do 2 step_run Hb.
  do 2 step_run H. reflexivity.
Qed.

End DataCells.

(** With the libraries left uninterpreted, the variables that hold the
    datasets name their origin. *)
Lemma classification_data_from_make_circles :
  exists train_input test_input train_output test_output,
    (run (stand_in 1) 0 Classification.data_cells world0).1.1
    = Returned (VTuple [train_input; test_input; train_output; test_output]) /\
    from the_make_circles train_input /\ from the_make_circles test_input /\
    from the_make_circles train_output /\ from the_make_circles test_output.
Proof.
  eexists _, _, _, _. split; [vm_compute; reflexivity |].
  repeat split; try discriminate; repeat constructor.
Qed.

Lemma vision_data_from_FashionMNIST :
  exists train_dataloader test_dataloader,
    (run (stand_in 1) 0 Vision.data_cells world0).1.1
    = Returned (VTuple [train_dataloader; test_dataloader]) /\
    from (the_FashionMNIST_train (VObj ToTensor [])) train_dataloader /\
    from (the_FashionMNIST_test (VObj ToTensor [])) test_dataloader.
Proof.
  eexists _, _. split; [vm_compute; reflexivity |].
  repeat split; try discriminate; repeat constructor.
Qed.

Lemma workflow_data_from_arange :
  exists train_predictor train_target test_predictor test_target,
    (run (stand_in 1) 0 Workflow.data_cells world0).1.1
    = Returned (VTuple [train_predictor; train_target; test_predictor; test_target]) /\
    from the_arange train_predictor /\ from the_arange train_target /\
    from the_arange test_predictor /\ from the_arange test_target.
Proof.
  eexists _, _, _, _. split; [vm_compute; reflexivity |].
  repeat split; try discriminate; repeat constructor.
Qed.



(* ================================================================= *)
(** * Part III: further properties of the code *)
(* ================================================================= *)

(** ** [accuracy_function] outside equal-length, non-empty tensors *)

Lemma accuracy_function_value (a b : tensor) :
  length a = length b -> b <> [] ->
  Classification.accuracy_function a b
  = Ok (inject_Z (Z.of_nat (Classification.equal_positions a b))
        / inject_Z (Z.of_nat (length b)) * 100)%Q.
Proof.
  intros Hlen Hne. unfold Classification.accuracy_function.
  rewrite (torch_eq_same_length a b Hlen), (sum_item_equal_positions a b Hlen).
  unfold Classification.true_div.
  destruct (Z.eqb_spec (Z.of_nat (length b)) 0) as [E | E].
  - destruct b; [congruence | cbn in E; lia].
  - reflexivity.
Qed.

(** X1.  How [accuracy_function] ends, for any two one-dimensional tensors.
    It raises [RuntimeError] (from [torch.eq]) exactly when the lengths
    differ and neither is 1; it raises [ZeroDivisionError] exactly when the
    second tensor is empty and the first has at most one element; in every
    other case it returns a number. *)
Theorem accuracy_function_outcomes (a b : tensor) :
  (Classification.accuracy_function a b = Raise RuntimeError <->
     length a <> length b /\ length a <> 1%nat /\ length b <> 1%nat) /\
  (Classification.accuracy_function a b = Raise ZeroDivisionError <->
     b = [] /\ (length a <= 1)%nat) /\
  ((exists q, Classification.accuracy_function a b = Ok q) <->
     b <> [] /\ (length a = length b \/ length a = 1%nat \/ length b = 1%nat)).
Proof.
  unfold Classification.accuracy_function, Classification.torch_eq,
    Classification.true_div.
  destruct a as [| x [| x' a]], b as [| y [| y' b]]; cbn [length].
  9: destruct (Nat.eqb_spec (S (S (length a))) (S (S (length b)))) as [E | E].
  all: simpl.
  all: split; [| split]; split.
  all: first
    [ discriminate
    | reflexivity
    | solve [intros [q [=]]]
    | solve [intros (H1 & H2 & H3); cbn in *; first [congruence | lia]]
    | solve [intros [H1 H2]; cbn in *; first [congruence | lia]]
    | solve [intros [_ [H1 | [H1 | H1]]]; cbn in H1; lia]
    | solve [intros _; eauto]
    | solve [intros _; repeat split; cbn; first [lia | discriminate]]
    | solve [intros _; split; [discriminate | cbn; lia]] ].
Qed.

Lemma sum_item_map {A} (f : A -> bool) (a : list A) :
  Classification.sum_item (map f a) = Z.of_nat (length (List.filter f a)).
Proof.
  induction a as [| x a IH]; [reflexivity |].
  cbn [map List.filter Classification.sum_item fold_right].
  change (fold_right (fun b0 acc => Z.b2z b0 + acc) 0 (map f a))
    with (Classification.sum_item (map f a)).
  rewrite IH. destruct (f x); cbn [Z.b2z length]; lia.
Qed.

Lemma torch_eq_one_right (a : tensor) (y : F32.t) :
  Classification.torch_eq a [y] = Some (map (fun x => F32.eqb x y) a).
Proof. destruct a as [| x [| x' a]]; reflexivity. Qed.

(** X2.  Against a one-element second tensor [torch.eq] broadcasts and the
    divisor is 1: the result is 100 times the number of elements of the
    first tensor equal to that element, so it exceeds 100 as soon as two
    of them are. *)
Theorem accuracy_function_broadcast (a : tensor) (y : F32.t) :
  exists q : Q,
    Classification.accuracy_function a [y] = Ok q /\
    (q == 100 * inject_Z (Z.of_nat (count_equal y a)))%Q /\
    ((2 <= count_equal y a)%nat -> (100 < q)%Q).
Proof.
  unfold Classification.accuracy_function. rewrite torch_eq_one_right, sum_item_map.
  fold (count_equal y a). cbn [length Classification.true_div Z.of_nat Pos.of_succ_nat
                              Z.eqb mbind result_bind].
  eexists. split; [reflexivity |].
  set (c := Z.of_nat (count_equal y a)).
  assert (E : (inject_Z c / inject_Z 1 * 100 == 100 * inject_Z c)%Q).
  { unfold Qeq, Qdiv, Qmult, Qinv, inject_Z. cbn. lia. }
  split; [exact E |].
  intros H. rewrite E. unfold Qlt, Qmult, inject_Z. cbn. lia.
Qed.

Example accuracy_of_two_against_one :
  Classification.accuracy_function [F32.one; F32.one] [F32.one] = Ok (inject_Z 2 / inject_Z 1 * 100)%Q /\
  Classification.accuracy_function [F32.one] [F32.one; F32.one] = Ok (inject_Z 2 / inject_Z 2 * 100)%Q.
Proof. split; reflexivity. Qed.

Lemma SFeqb_self (x : spec_float) : SFeqb x x = negb (is_nan x).
Proof.
  unfold SFeqb, SFcompare.
  destruct x as [s | s | | s m e]; try destruct s; try reflexivity.
  all: rewrite Z.compare_refl; cbn [is_nan negb].
  all: fold (Pos.compare m m); rewrite Pos.compare_refl; reflexivity.
Qed.

(** X3.  The accuracy of a non-empty tensor against itself is 100 exactly
    when it holds no NaN: [torch.eq] is IEEE equality, under which NaN
    differs from itself. *)
Theorem accuracy_function_self (a : tensor) :
  a <> [] ->
  exists q : Q,
    Classification.accuracy_function a a = Ok q /\
    ((q == 100)%Q <-> Forall (fun x => is_nan x = false) a).
Proof.
  intros Hne. rewrite (accuracy_function_value a a eq_refl Hne).
  eexists. split; [reflexivity |].
  destruct (Z.of_nat (length a)) as [| p | p] eqn:Ep;
    [destruct a; [congruence | cbn in Ep; lia] | | lia].
  pose proof (equal_positions_le a a) as Hle.
  destruct (percent_bounds (Z.of_nat (Classification.equal_positions a a)) p)
    as [_ Hfull]; [lia |].
  rewrite Hfull, <- Ep, Nat2Z.inj_iff, equal_positions_full, Forall_lookup.
  split.
  - intros H i x Hi.
    specialize (H i (lookup_lt_Some _ _ _ Hi)).
    unfold Classification.agree_at, tensor, F32.t in *. rewrite Hi in H.
    unfold F32.eqb in H. rewrite SFeqb_self in H.
    destruct (is_nan x); [discriminate | reflexivity].
  - intros H i Hi. unfold Classification.agree_at, tensor, F32.t in *.
    destruct (lookup_lt_is_Some_2 a i Hi) as [x Hx]. rewrite Hx.
    unfold F32.eqb. rewrite SFeqb_self, (H i x Hx). reflexivity.
Qed.

Lemma accuracy_function_self_witness :
  exists q : Q,
    Classification.accuracy_function [F32.one; S754_nan] [F32.one; S754_nan] = Ok q /\
    ((q == 100)%Q <-> Forall (fun x => is_nan x = false) [F32.one; S754_nan]).
Proof. apply (accuracy_function_self [F32.one; S754_nan]). discriminate. Defined.

Example accuracy_with_nan :
  Classification.accuracy_function [F32.one; S754_nan] [F32.one; S754_nan]
  = Ok (inject_Z 1 / inject_Z 2 * 100)%Q.
Proof. reflexivity. Qed.

Example accuracy_signed_zeros :
  Classification.accuracy_function [S754_zero false] [S754_zero true]
  = Ok (inject_Z 1 / inject_Z 1 * 100)%Q.
Proof. reflexivity. Qed.

(** ** The data of the workflow notebook and its model *)

Lemma slice_to_map {A B} (f : A -> B) (i : Z) (l : list A) :
  slice_to i (map f l) = map f (slice_to i l).
Proof. unfold slice_to. rewrite length_map, <- fmap_take. reflexivity. Qed.

Lemma slice_from_map {A B} (f : A -> B) (i : Z) (l : list A) :
  slice_from i (map f l) = map f (slice_from i l).
Proof. unfold slice_from. rewrite length_map, <- fmap_drop. reflexivity. Qed.




(** ** Saving and loading, on any file system *)

Lemma save_cell_eq (m : Workflow.LinearRegressionModel) (fs : gmap FS.path FS.node) :
  Workflow.save_cell m fs
  = match fs !! Workflow.model_path with
    | Some (FS.File _) => Raise FileExistsError
    | _ =>
        match fs !! Workflow.model_file with
        | Some FS.Dir => Raise IsADirectoryError
        | _ => Ok (<[Workflow.model_file := FS.File (FS.Pickled (Workflow.state_dict m))]>
                     (<[Workflow.model_path := FS.Dir]> fs))
        end
    end.
Proof.
  unfold Workflow.save_cell.
  destruct (fs !! Workflow.model_path) as [[| c] |] eqn:Ep.
  - destruct (mkdir_models_dir fs (or_intror Ep)) as (fs1 & Hmk & Hdir & Hframe).
    assert (fs1 = fs) as ->.
    { apply map_eq. intros p. destruct (decide (p = Workflow.model_path)) as [-> | Hne].
      - congruence.
      - apply Hframe. exact Hne. }
    rewrite Hmk. cbn [mbind result_bind]. rewrite (insert_id fs _ _ Ep).
    unfold FS.torch_save, Workflow.model_file at 1.
    fold Workflow.model_file.
    unfold FS.present, FS.is_dir, Workflow.model_path in *. rewrite Ep.
    rewrite bool_decide_eq_true_2 by eauto. cbn [negb].
    unfold Workflow.model_file at 1.
    fold Workflow.model_path. fold Workflow.model_file.
    destruct (fs !! Workflow.model_file) as [[| c] |]; reflexivity.
  - unfold Workflow.model_path in *. cbn [FS.mkdir FS.os_mkdir FS.present FS.is_dir negb].
    rewrite Ep. rewrite bool_decide_eq_true_2 by eauto. cbn. reflexivity.
  - destruct (mkdir_models_dir fs (or_introl Ep)) as (fs1 & Hmk & Hdir & Hframe).
    assert (fs1 = <[Workflow.model_path := FS.Dir]> fs) as ->.
    { apply map_eq. intros p. destruct (decide (p = Workflow.model_path)) as [-> | Hne].
      - rewrite lookup_insert_eq. exact Hdir.
      - rewrite lookup_insert_ne by congruence. apply Hframe. exact Hne. }
    rewrite Hmk. cbn [mbind result_bind].
    unfold FS.torch_save, Workflow.model_file at 1.
    fold Workflow.model_file.
    assert (Hf : <[Workflow.model_path := FS.Dir]> fs !! Workflow.model_file
                 = fs !! Workflow.model_file).
    { apply lookup_insert_ne. discriminate. }
    unfold FS.present, FS.is_dir. unfold Workflow.model_path at 1 3.
    fold Workflow.model_path. rewrite lookup_insert_eq.
    rewrite bool_decide_eq_true_2 by eauto. cbn [negb].
    unfold Workflow.model_file at 1. fold Workflow.model_path. fold Workflow.model_file.
    rewrite Hf.
    destruct (fs !! Workflow.model_file) as [[| c] |]; reflexivity.
Qed.


(** X7.  Saving again.  After a successful run of the saving cell, running
    it again with the same model changes nothing; running it with another
    model succeeds, leaves what saving that model in the first place would
    have left, and the loading cell then yields that other model's
    parameters, in evaluation state. *)
Theorem save_cell_last_write_wins
    (m1 m2 : Workflow.LinearRegressionModel) (fs fs1 : gmap FS.path FS.node) :
  Workflow.save_cell m1 fs = Ok fs1 ->
  Workflow.save_cell m1 fs1 = Ok fs1 /\
  Workflow.save_cell m2 fs1 = Workflow.save_cell m2 fs /\
  exists fs2,
    Workflow.save_cell m2 fs1 = Ok fs2 /\
    forall w0 b0,
      Workflow.load_cell w0 b0 fs2
      = Ok {| Workflow._weight := Workflow._weight m2;
              Workflow._bias := Workflow._bias m2;
              Workflow.training := false |}.
Proof.
  intros H1. rewrite save_cell_eq in H1.
  assert (Hne : Workflow.model_file <> Workflow.model_path) by discriminate.
  assert (Hp : fs1 !! Workflow.model_path = Some FS.Dir /\
               (exists c, fs1 !! Workflow.model_file = Some (FS.File c)) /\
               forall m, <[Workflow.model_file := FS.File (FS.Pickled (Workflow.state_dict m))]>
                           (<[Workflow.model_path := FS.Dir]> fs1)
                         = <[Workflow.model_file := FS.File (FS.Pickled (Workflow.state_dict m))]>
                           (<[Workflow.model_path := FS.Dir]> fs) /\
                         Workflow.save_cell m fs
                         = Ok (<[Workflow.model_file := FS.File (FS.Pickled (Workflow.state_dict m))]>
                                 (<[Workflow.model_path := FS.Dir]> fs))).
  { destruct (fs !! Workflow.model_path) as [[| c] |] eqn:Ep; try discriminate H1.
    all: destruct (fs !! Workflow.model_file) as [[| c'] |] eqn:Ef; try discriminate H1.
    all: injection H1 as <-.
    all: split; [rewrite lookup_insert_ne by exact Hne; apply lookup_insert_eq |].
    all: split; [rewrite lookup_insert_eq; eauto |].
    all: intros m; split; [| rewrite save_cell_eq, Ep, Ef; reflexivity].
    all: apply map_eq; intros k.
    all: destruct (decide (k = Workflow.model_file)) as [-> | Hk];
      [rewrite !lookup_insert_eq; reflexivity |].
    all: rewrite !(lookup_insert_ne _ Workflow.model_file) by congruence.
    all: destruct (decide (k = Workflow.model_path)) as [-> | Hk'];
      [rewrite !lookup_insert_eq; reflexivity |].
    all: repeat rewrite lookup_insert_ne by congruence.
    all: reflexivity. }
  destruct Hp as (Hd & [c Hc] & Hm).
  assert (S : forall m, Workflow.save_cell m fs1 = Workflow.save_cell m fs).
  { intros m. destruct (Hm m) as [E1 E2]. rewrite E2, <- E1.
    rewrite save_cell_eq, Hd, Hc. reflexivity. }
  split.
  - rewrite S. rewrite save_cell_eq.
    destruct (fs !! Workflow.model_path) as [[| c0] |] eqn:Ep; try discriminate H1.
    all: destruct (fs !! Workflow.model_file) as [[| c'] |] eqn:Ef; try discriminate H1.
    all: exact H1.
  - split; [apply S |].
    rewrite S. destruct (Hm m2) as [_ E2]. rewrite E2. eexists. split; [reflexivity |].
    intros w0 b0. unfold Workflow.load_cell, FS.torch_load.
    unfold Workflow.model_file at 1. fold Workflow.model_file.
    rewrite lookup_insert_eq. cbn [mbind result_bind].
    rewrite load_state_dict_of_state_dict. reflexivity.
Qed.

Lemma load_state_dict_inv (fresh m : Workflow.LinearRegressionModel)
    (st : gmap string tensor) :
  Workflow.load_state_dict fresh st = Ok m ->
  st = Workflow.state_dict m /\ Workflow.training m = Workflow.training fresh.
Proof.
  unfold Workflow.load_state_dict.
  destruct (bool_decide (dom st = dom (Workflow.state_dict fresh))) eqn:Hd;
    [| discriminate].
  apply bool_decide_eq_true_1 in Hd.
  destruct (st !! "_weight"%string) as [[| w [| ? ?]] |] eqn:Ew; try discriminate.
  destruct (st !! "_bias"%string) as [[| b [| ? ?]] |] eqn:Eb; try discriminate.
  intros [= <-]. split; [| reflexivity].
  apply map_eq. intros k. unfold Workflow.state_dict.
  cbn [Workflow._weight Workflow._bias Workflow.weight Workflow.bias].
  destruct (decide (k = "_weight"%string)) as [-> | Hw];
    [rewrite lookup_insert_eq; exact Ew |].
  rewrite lookup_insert_ne by congruence.
  destruct (decide (k = "_bias"%string)) as [-> | Hb];
    [rewrite lookup_insert_eq; exact Eb |].
  rewrite lookup_insert_ne by congruence. rewrite lookup_empty.
  apply not_elem_of_dom. rewrite Hd. apply not_elem_of_dom.
  unfold Workflow.state_dict. rewrite !lookup_insert_ne by congruence.
  apply lookup_empty.
Qed.

Lemma load_state_dict_raises (fresh : Workflow.LinearRegressionModel)
    (st : gmap string tensor) (e : exn) :
  Workflow.load_state_dict fresh st = Raise e -> e = RuntimeError.
Proof.
  unfold Workflow.load_state_dict.
  destruct (bool_decide _); [| congruence].
  destruct (st !! "_weight"%string) as [[| w [| ? ?]] |]; try congruence.
  destruct (st !! "_bias"%string) as [[| b [| ? ?]] |]; congruence.
Qed.


Lemma save_cell_last_write_wins_witness :
  let m1 := Workflow.new_model F32.one F32.zero in
  let m2 := Workflow.new_model F32.zero F32.one in
  let fs1 := <[Workflow.model_file := FS.File (FS.Pickled (Workflow.state_dict m1))]>
               (<[Workflow.model_path := FS.Dir]> ∅) in
  Workflow.save_cell m1 fs1 = Ok fs1 /\
  Workflow.save_cell m2 fs1 = Workflow.save_cell m2 ∅ /\
  exists fs2,
    Workflow.save_cell m2 fs1 = Ok fs2 /\
    forall w0 b0,
      Workflow.load_cell w0 b0 fs2
      = Ok {| Workflow._weight := Workflow._weight m2;
              Workflow._bias := Workflow._bias m2;
              Workflow.training := false |}.
Proof.
  cbv zeta.
  apply (save_cell_last_write_wins (Workflow.new_model F32.one F32.zero)
           (Workflow.new_model F32.zero F32.one) ∅).
  reflexivity.
Defined.

(** ** The training loops against monitors of their calls *)

Lemma accepted_app {St W} (M : monitor St) (s : St) (l1 l2 : list (entry W)) :
  accepted M s (l1 ++ l2) <-> accepted M s l1 /\ accepted M (state_after M s l1) l2.
Proof.
  revert s. induction l1 as [| e l1 IH]; intros s; cbn; [tauto |].
  rewrite IH. tauto.
Qed.

Lemma state_after_app {St W} (M : monitor St) (s : St) (l1 l2 : list (entry W)) :
  state_after M s (l1 ++ l2) = state_after M (state_after M s l1) l2.
Proof. revert s. induction l1 as [| e l1 IH]; intros s; cbn; auto. Qed.

(** A safe program is accepted in every run, whether it returns or not. *)
Lemma run_safe {St W} (M : monitor St) (h : handler W) (p : prog) :
  forall d s Q w o w' log,
    run h d p w = (o, w', log) ->
    safe M d p s Q ->
    accepted M s log /\ (forall v, o = Returned v -> Q (state_after M s log)).
Proof.
  induction p as [x | e | f args k IH | body IHb k IHk];
    intros d s Q w o w' log; cbn [run safe].
  - intros [= ? ? ?] HQ; subst. cbn. auto.
  - intros [= ? ? ?] _; subst. cbn. split; [exact I | discriminate].
  - destruct (h f args w) as [[v | e] w1].
    + destruct (run h d (k v) w1) as [[o1 w2] l] eqn:R. intros [= ? ? ?] [Ha Hk]; subst.
      destruct (IH v _ _ _ _ _ _ _ R (Hk v)) as [Hacc HQ].
      cbn. auto.
    + intros [= ? ? ?] [Ha _]; subst. cbn. split; [auto | discriminate].
  - intros R (Ha & Hx & Hb). revert R.
    destruct (h inference_mode_enter [] w) as [[v0 | e] w1].
    2:{ intros [= ? ? ?]; subst. cbn. split; [auto | discriminate]. }
    destruct (run h (S d) body w1) as [[ob w2] logb] eqn:Rb.
    destruct (IHb _ _ _ _ _ _ _ Rb (Hb v0)) as [Hlb HQb].
    destruct (h inference_mode_exit [] w2) as [[vx | e] w3], ob as [vb | e'].
    + destruct (run h d (k vb) w3) as [[o1 w4] l] eqn:Rk. intros [= ? ? ?]; subst.
      destruct (IHk vb _ _ _ _ _ _ _ Rk (HQb vb eq_refl vx vb)) as [Hacc HQ].
      cbn [accepted state_after e_api e_args e_inside e_out].
      rewrite accepted_app, state_after_app.
      cbn [accepted state_after e_api e_args e_inside e_out]. auto 10.
    + intros [= ? ? ?]; subst. cbn [accepted e_api e_args e_inside e_out].
      rewrite accepted_app. cbn. split; [auto 10 | discriminate].
    + intros [= ? ? ?]; subst. cbn [accepted e_api e_args e_inside e_out].
      rewrite accepted_app. cbn. split; [auto 10 | discriminate].
    + intros [= ? ? ?]; subst. cbn [accepted e_api e_args e_inside e_out].
      rewrite accepted_app. cbn. split; [auto 10 | discriminate].
Qed.

Lemma safe_for_each {St A S} (M : monitor St) (d : nat) (Inv : St -> Prop)
    (Q : St -> Prop) (body : A -> S -> (S -> prog) -> prog) :
  (forall x st k s, Inv s ->
      (forall st' s', Inv s' -> safe M d (k st') s' Q) ->
      safe M d (body x st k) s Q) ->
  forall xs st k s, Inv s ->
    (forall st' s', Inv s' -> safe M d (k st') s' Q) ->
    safe M d (for_each xs body st k) s Q.
Proof.
  intros Hbody xs. induction xs as [| x xs IH]; intros st k s Hs Hk; cbn [for_each].
  - apply Hk. exact Hs.
  - apply Hbody; [exact Hs |]. intros st' s' Hs'. apply IH; assumption.
Qed.

(** [a /= n] makes at most the one call [Tensor_div]. *)
Lemma safe_idiv {St} (M : monitor St) (d : nat) (a n : value) (k : value -> prog)
    (s : St) (Q : St -> Prop) :
  allows M s Tensor_div [a; n] d ->
  (forall v, safe M d (k v) (after M s Tensor_div [a; n] d (Returned v)) Q) ->
  (forall v, safe M d (k v) s Q) ->
  safe M d (Vision.idiv a n k) s Q.
Proof.
  intros Ha Hdiv Hk. unfold Vision.idiv.
  destruct a; cbn [safe]; auto.
  destruct n; cbn [safe]; auto.
  destruct (_ =? 0); cbn [safe]; auto.
Qed.

(** Walks a program against a monitor, one call or branch at a time; the
    loops are left to [safe_for_each]. *)
Ltac safe_walk :=
  repeat first
    [ match goal with
      | |- safe _ _ (for_each _ _ _ _) _ _ => fail 2
      | |- safe _ _ (Vision.idiv _ _ _) _ _ => apply safe_idiv
      | |- safe _ _ (match ?x with _ => _ end) _ _ => destruct x
      | |- safe _ _ (if ?c then _ else _) _ _ => destruct c
      | H : forall _ _, _ -> safe ?M ?d (?k _) _ _ |- safe ?M ?d (?k _) _ _ => apply H
      | |- safe _ _ _ _ _ => progress cbn [safe]
      | |- forall _, _ => intros ?
      | |- _ /\ _ => split
      | |- True => exact I
      | |- _ = _ => first [reflexivity | assumption | progress cbn; assumption]
      | |- allows _ _ _ _ _ => progress cbn
      end ].

Lemma workflow_loop_mode (m lf opt trx try_ tex tey : value) (n : nat)
    (s : option (value * bool)) :
  safe mode_monitor 0 (Workflow.training_loop m lf opt trx try_ tex tey n) s (fun _ => True).
Proof.
  unfold Workflow.training_loop. safe_walk.
  apply (safe_for_each mode_monitor 0 (fun _ => True)); [| exact I | intros; exact I].
  intros epoch st k s0 _ Hk. unfold Workflow.training_epoch.
  safe_walk.
Qed.

Lemma classification_loop_mode (m lf opt device trx try_ tex tey : value)
    (period : Z) (n : nat) (s : option (value * bool)) :
  safe mode_monitor 0
    (Classification.training_loop m lf opt device trx try_ tex tey period n) s
    (fun _ => True).
Proof.
  unfold Classification.training_loop. safe_walk.
  apply (safe_for_each mode_monitor 0 (fun _ => True)); [| exact I | intros; exact I].
  intros epoch st k s0 _ Hk. unfold Classification.training_epoch.
  safe_walk.
Qed.

Lemma vision_loop_mode (m lf opt acc dev tdl vdl : value) (n : nat)
    (s : option (value * bool)) :
  safe mode_monitor 0 (Vision.training_loop m lf opt acc dev tdl vdl n) s (fun _ => True).
Proof.
  unfold Vision.training_loop. safe_walk.
  apply (safe_for_each mode_monitor 0 (fun _ => True)); [| exact I | intros; exact I].
  intros epoch st k s0 _ Hk. unfold Vision.training_epoch, Vision.batches_of.
  safe_walk.
  apply (safe_for_each mode_monitor 0 (fun _ => True)); [| exact I |].
  - intros b st1 k1 s1 _ Hk1. unfold Vision.train_batch.
    safe_walk.
  - intros train_loss s1 _.
    safe_walk.
    all: apply (safe_for_each mode_monitor 1 (fun s => s = Some (m, false)));
      [| reflexivity |].
    all: unfold Vision.test_batch; safe_walk.
Qed.

Lemma prediction_cell_mode (m : value) (s : option (value * bool)) :
  safe mode_monitor 0 (Workflow.prediction_cell m) s (fun _ => True).
Proof. unfold Workflow.prediction_cell. safe_walk. Qed.

Ltac safe_loop M d Inv := apply (safe_for_each M d Inv).

Lemma workflow_loop_gradients (m lf opt trx try_ tex tey : value) (n : nat) (s : gradients) :
  safe gradient_monitor 0 (Workflow.training_loop m lf opt trx try_ tex tey n) s
    (fun _ => True).
Proof.
  unfold Workflow.training_loop. safe_walk.
  safe_loop gradient_monitor 0%nat (fun _ : gradients => True); [| exact I | intros; exact I].
  intros epoch st k s0 _ Hk. unfold Workflow.training_epoch. safe_walk.
Qed.

Lemma classification_loop_gradients (m lf opt device trx try_ tex tey : value)
    (period : Z) (n : nat) (s : gradients) :
  safe gradient_monitor 0
    (Classification.training_loop m lf opt device trx try_ tex tey period n) s
    (fun _ => True).
Proof.
  unfold Classification.training_loop. safe_walk.
  safe_loop gradient_monitor 0%nat (fun _ : gradients => True); [| exact I | intros; exact I].
  intros epoch st k s0 _ Hk. unfold Classification.training_epoch. safe_walk.
Qed.

Lemma vision_loop_gradients (m lf opt acc dev tdl vdl : value) (n : nat) (s : gradients) :
  safe gradient_monitor 0 (Vision.training_loop m lf opt acc dev tdl vdl n) s
    (fun _ => True).
Proof.
  unfold Vision.training_loop. safe_walk.
  safe_loop gradient_monitor 0%nat (fun _ : gradients => True); [| exact I | intros; exact I].
  intros epoch st k s0 _ Hk. unfold Vision.training_epoch, Vision.batches_of.
  safe_walk.
  safe_loop gradient_monitor 0%nat (fun _ : gradients => True); [| exact I |].
  - intros b st1 k1 s1 _ Hk1. unfold Vision.train_batch. safe_walk.
  - intros train_loss s1 _. safe_walk.
    all: safe_loop gradient_monitor 1%nat (fun _ : gradients => True); [| exact I |].
    all: unfold Vision.test_batch; safe_walk.
Qed.

Ltac flow_walk :=
  safe_walk;
  repeat match goal with
         | |- _ \/ _ => first [left; reflexivity | right; eexists; split; reflexivity]
         end.

Lemma workflow_loop_flow (m lf opt trx try_ tex tey : value) (n : nat) (s : flow) :
  safe flow_monitor 0 (Workflow.training_loop m lf opt trx try_ tex tey n) s
    (fun _ => True).
Proof.
  unfold Workflow.training_loop. flow_walk.
  safe_loop flow_monitor 0%nat (fun _ : flow => True); [| exact I | intros; exact I].
  intros epoch st k s0 _ Hk. unfold Workflow.training_epoch. flow_walk.
Qed.

Lemma classification_loop_flow (m lf opt device trx try_ tex tey : value)
    (period : Z) (n : nat) (s : flow) :
  safe flow_monitor 0
    (Classification.training_loop m lf opt device trx try_ tex tey period n) s
    (fun _ => True).
Proof.
  unfold Classification.training_loop. flow_walk.
  safe_loop flow_monitor 0%nat (fun _ : flow => True); [| exact I | intros; exact I].
  intros epoch st k s0 _ Hk. unfold Classification.training_epoch. flow_walk.
Qed.

Lemma vision_loop_flow (m lf opt acc dev tdl vdl : value) (n : nat) (s : flow) :
  safe flow_monitor 0 (Vision.training_loop m lf opt acc dev tdl vdl n) s
    (fun _ => True).
Proof.
  unfold Vision.training_loop. flow_walk.
  safe_loop flow_monitor 0%nat (fun _ : flow => True); [| exact I | intros; exact I].
  intros epoch st k s0 _ Hk. unfold Vision.training_epoch, Vision.batches_of.
  flow_walk.
  safe_loop flow_monitor 0%nat (fun _ : flow => True); [| exact I |].
  - intros b st1 k1 s1 _ Hk1. unfold Vision.train_batch. flow_walk.
  - intros train_loss s1 _. flow_walk.
    all: safe_loop flow_monitor 1%nat (fun _ : flow => True); [| exact I |].
    all: unfold Vision.test_batch; flow_walk.
Qed.

Ltac device_walk :=
  safe_walk;
  repeat match goal with
         | |- In _ _ => solve [cbn; auto 10]
         | |- _ \/ _ => solve [cbn; auto 10]
         end.

Lemma classification_loop_device (m lf opt device trx try_ tex tey : value)
    (period : Z) (n : nat) (s : list (value * value)) :
  safe (device_monitor device) 0
    (Classification.training_loop m lf opt device trx try_ tex tey period n) s
    (fun _ => True).
Proof.
  unfold Classification.training_loop. device_walk.
  match goal with
  | |- safe _ _ (for_each _ (Classification.training_epoch _ _ _ ?a ?b ?c ?e _) _ _) _ _ =>
      safe_loop (device_monitor device) 0%nat
        (fun s : list (value * value) =>
           In (a, device) s /\ In (b, device) s /\ In (c, device) s /\ In (e, device) s)
  end; [| cbn; tauto | intros; exact I].
  intros epoch st k s0 (H1 & H2 & H3 & H4) Hk. unfold Classification.training_epoch.
  device_walk.
  all: cbn; auto.
Qed.

Lemma vision_loop_device (m lf opt acc dev tdl vdl : value) (n : nat)
    (s : list (value * value)) :
  safe (device_monitor dev) 0 (Vision.training_loop m lf opt acc dev tdl vdl n) s
    (fun _ => True).
Proof.
  unfold Vision.training_loop. device_walk.
  safe_loop (device_monitor dev) 0%nat (fun _ : list (value * value) => True);
    [| exact I | intros; exact I].
  intros epoch st k s0 _ Hk. unfold Vision.training_epoch, Vision.batches_of.
  device_walk.
  safe_loop (device_monitor dev) 0%nat (fun _ : list (value * value) => True); [| exact I |].
  - intros b st1 k1 s1 _ Hk1. unfold Vision.train_batch. device_walk.
  - intros train_loss s1 _. device_walk.
    all: safe_loop (device_monitor dev) 1%nat (fun _ : list (value * value) => True);
      [| exact I |].
    all: unfold Vision.test_batch; device_walk.
Qed.

Lemma accepted_at {St W} (M : monitor St) (s : St) (l1 : list (entry W))
    (e : entry W) (l2 : list (entry W)) :
  accepted M s (l1 ++ e :: l2) ->
  allows M (state_after M s l1) (e_api e) (e_args e) (e_inside e).
Proof. rewrite accepted_app. cbn. tauto. Qed.

(** X9.  In every run of each training loop and of the prediction cell,
    whether it ends normally or by an exception, every forward pass is made
    in the mode that fits it: of the calls [train()] and [eval()] made
    before a forward pass, the last one is a call on the module being
    called, and it is [train()] when the pass is outside inference mode and
    [eval()] when it is inside an inference-mode block. *)
Theorem forward_passes_in_the_right_mode {W} (h : handler W) (p : prog)
    (m lf opt trx try_ tex tey device acc tdl vdl : value) (period : Z) (n : nat)
    (w w' : W) (o : outcome) (log : list (entry W)) :
  p = Workflow.training_loop m lf opt trx try_ tex tey n \/
  p = Classification.training_loop m lf opt device trx try_ tex tey period n \/
  p = Vision.training_loop m lf opt acc device tdl vdl n \/
  p = Workflow.prediction_cell m ->
  run h 0 p w = (o, w', log) ->
  accepted mode_monitor None log /\
  forall l1 e l2, log = l1 ++ e :: l2 -> e_api e = Module_call ->
    exists mdl args,
      e_args e = mdl :: args /\
      state_after mode_monitor None l1 = Some (mdl, (e_inside e =? 0)%nat).
Proof.
  intros Hp R.
  assert (Hs : safe mode_monitor 0 p None (fun _ => True)).
  { destruct Hp as [-> | [-> | [-> | ->]]].
    - apply workflow_loop_mode.
    - apply classification_loop_mode.
    - apply vision_loop_mode.
    - apply prediction_cell_mode. }
  destruct (run_safe mode_monitor h p _ _ _ _ _ _ _ R Hs) as [Hacc _].
  split; [exact Hacc |].
  intros l1 e l2 -> He. apply accepted_at in Hacc. cbn [allows mode_monitor] in Hacc.
  rewrite He in Hacc. destruct (e_args e) as [| mdl args]; [contradiction |].
  exists mdl, args. auto.
Qed.

(** X10.  In every run of each training loop, whether it ends normally or
    by an exception, [zero_grad()], [backward()] and [step()] are called
    outside inference mode only; every [backward()] finds the gradients
    zeroed since the last step, with no other backward pass in between; and
    every [step()] finds the gradients of exactly one backward pass. *)
Theorem gradients_zeroed_computed_applied {W} (h : handler W) (p : prog)
    (m lf opt trx try_ tex tey device acc tdl vdl : value) (period : Z) (n : nat)
    (w w' : W) (o : outcome) (log : list (entry W)) :
  p = Workflow.training_loop m lf opt trx try_ tex tey n \/
  p = Classification.training_loop m lf opt device trx try_ tex tey period n \/
  p = Vision.training_loop m lf opt acc device tdl vdl n ->
  run h 0 p w = (o, w', log) ->
  accepted gradient_monitor Stale log /\
  forall l1 e l2, log = l1 ++ e :: l2 ->
    (e_api e = Optimizer_zero_grad -> e_inside e = 0%nat) /\
    (e_api e = Tensor_backward ->
       e_inside e = 0%nat /\ state_after gradient_monitor Stale l1 = Zeroed) /\
    (e_api e = Optimizer_step ->
       e_inside e = 0%nat /\ state_after gradient_monitor Stale l1 = Fresh).
Proof.
  intros Hp R.
  assert (Hs : safe gradient_monitor 0 p Stale (fun _ => True)).
  { destruct Hp as [-> | [-> | ->]].
    - apply workflow_loop_gradients.
    - apply classification_loop_gradients.
    - apply vision_loop_gradients. }
  destruct (run_safe gradient_monitor h p _ _ _ _ _ _ _ R Hs) as [Hacc _].
  split; [exact Hacc |].
  intros l1 e l2 ->. apply accepted_at in Hacc. cbn [allows gradient_monitor] in Hacc.
  split; [| split]; intros He; rewrite He in Hacc; tauto.
Qed.

(** X11.  In every run of each training loop, whether it ends normally or
    by an exception: every loss is computed on the output of the forward
    pass made just before it (as it is, or squeezed), and every
    [backward()] is called, outside inference mode, on the loss computed
    there since the last forward pass outside inference mode; so never on
    the test loss, and, in the computer-vision loop, on the loss of the
    batch, not on the running sum. *)
Theorem losses_follow_the_forward_pass {W} (h : handler W) (p : prog)
    (m lf opt trx try_ tex tey device acc tdl vdl : value) (period : Z) (n : nat)
    (w w' : W) (o : outcome) (log : list (entry W)) :
  p = Workflow.training_loop m lf opt trx try_ tex tey n \/
  p = Classification.training_loop m lf opt device trx try_ tex tey period n \/
  p = Vision.training_loop m lf opt acc device tdl vdl n ->
  run h 0 p w = (o, w', log) ->
  accepted flow_monitor no_flow log /\
  forall l1 e l2, log = l1 ++ e :: l2 ->
    let s := state_after flow_monitor no_flow l1 in
    (e_api e = Loss_call ->
       exists fn p0 target,
         e_args e = [fn; p0; target] /\
         (prediction s = Some p0 \/
          exists x, prediction s = Some x /\ squeezed s = Some (x, p0))) /\
    (e_api e = Tensor_backward ->
       exists l, e_args e = [l] /\ e_inside e = 0%nat /\ training_loss s = Some l).
Proof.
  intros Hp R.
  assert (Hs : safe flow_monitor 0 p no_flow (fun _ => True)).
  { destruct Hp as [-> | [-> | ->]].
    - apply workflow_loop_flow.
    - apply classification_loop_flow.
    - apply vision_loop_flow. }
  destruct (run_safe flow_monitor h p _ _ _ _ _ _ _ R Hs) as [Hacc _].
  split; [exact Hacc |].
  intros l1 e l2 -> s. apply accepted_at in Hacc. fold s in Hacc.
  cbn [allows flow_monitor] in Hacc.
  split; intros He; rewrite He in Hacc.
  - destruct (e_args e) as [| fn [| p0 [| target [| ? ?]]]]; try contradiction.
    exists fn, p0, target. auto.
  - destruct (e_args e) as [| l [| ? ?]]; try contradiction.
    exists l. tauto.
Qed.

Lemma device_state_spec {W} (device x : value) (l : list (entry W)) :
  forall s, In (x, device) (state_after (device_monitor device) s l) ->
            In (x, device) s \/ moved_to device l x.
Proof.
  induction l as [| e l IH]; intros s H; cbn [state_after] in H; [left; exact H |].
  apply IH in H as [H | (e' & src & Hin & Hrest)].
  - cbn [after device_monitor] in H.
    destruct (e_api e) eqn:Ef; try (left; exact H).
    destruct (e_args e) as [| src [| dev [| ? ?]]] eqn:Ea; try (left; exact H).
    destruct (e_out e) as [v |] eqn:Eo; try (left; exact H).
    destruct H as [[= <- <-] | H]; [| left; exact H].
    right. exists e, src. cbn. auto.
  - right. exists e', src. cbn. tauto.
Qed.

(** X12.  In every run of the classification and the computer-vision
    training loops, whether it ends normally or by an exception, the data
    handed to a forward pass and the target handed to a loss are results of
    an earlier [.to(device)], with the device the notebook has chosen. *)
Theorem data_is_on_the_device {W} (h : handler W) (p : prog)
    (m lf opt trx try_ tex tey device acc tdl vdl : value) (period : Z) (n : nat)
    (w w' : W) (o : outcome) (log : list (entry W)) :
  p = Classification.training_loop m lf opt device trx try_ tex tey period n \/
  p = Vision.training_loop m lf opt acc device tdl vdl n ->
  run h 0 p w = (o, w', log) ->
  accepted (device_monitor device) [] log /\
  forall l1 e l2, log = l1 ++ e :: l2 ->
    (e_api e = Module_call ->
       exists mdl x, e_args e = [mdl; x] /\ moved_to device l1 x) /\
    (e_api e = Loss_call ->
       exists fn p0 y, e_args e = [fn; p0; y] /\ moved_to device l1 y).
Proof.
  intros Hp R.
  assert (Hs : safe (device_monitor device) 0 p [] (fun _ => True)).
  { destruct Hp as [-> | ->].
    - apply classification_loop_device.
    - apply vision_loop_device. }
  destruct (run_safe (device_monitor device) h p _ _ _ _ _ _ _ R Hs) as [Hacc _].
  split; [exact Hacc |].
  intros l1 e l2 ->. apply accepted_at in Hacc.
  cbn [allows device_monitor] in Hacc.
  split; intros He; rewrite He in Hacc.
  - destruct (e_args e) as [| mdl [| x [| ? ?]]]; try contradiction.
    exists mdl, x. split; [reflexivity |].
    apply device_state_spec in Hacc as [[] | Hm]. exact Hm.
  - destruct (e_args e) as [| fn [| p0 [| y [| ? ?]]]]; try contradiction.
    exists fn, p0, y. split; [reflexivity |].
    apply device_state_spec in Hacc as [[] | Hm]. exact Hm.
Qed.

Lemma forward_passes_in_the_right_mode_witness :
  let r := run (stand_in 2) 0
             (Vision.training_cell a_model a_loss_function an_optimizer
                an_accuracy a_device train_loader test_loader)
             (world_failing_at 32) in
  accepted mode_monitor None r.2 /\
  forall l1 e l2, r.2 = l1 ++ e :: l2 -> e_api e = Module_call ->
    exists mdl args,
      e_args e = mdl :: args /\
      state_after mode_monitor None l1 = Some (mdl, (e_inside e =? 0)%nat).
Proof.
  cbv zeta.
  set (r := run (stand_in 2) 0
              (Vision.training_cell a_model a_loss_function an_optimizer
                 an_accuracy a_device train_loader test_loader)
              (world_failing_at 32)).
  apply (forward_passes_in_the_right_mode (stand_in 2)
           (Vision.training_cell a_model a_loss_function an_optimizer
              an_accuracy a_device train_loader test_loader)
           a_model a_loss_function an_optimizer train_x train_y test_x test_y
           a_device an_accuracy train_loader test_loader 10 3
           (world_failing_at 32) r.1.2 r.1.1).
  - right; right; left; reflexivity.
  - vm_compute. reflexivity.
Defined.

Lemma gradients_zeroed_computed_applied_witness :
  let r := run (stand_in 1) 0
             (Workflow.training_cell a_model a_loss_function an_optimizer
                train_x train_y test_x test_y) world0 in
  accepted gradient_monitor Stale r.2 /\
  forall l1 e l2, r.2 = l1 ++ e :: l2 ->
    (e_api e = Optimizer_zero_grad -> e_inside e = 0%nat) /\
    (e_api e = Tensor_backward ->
       e_inside e = 0%nat /\ state_after gradient_monitor Stale l1 = Zeroed) /\
    (e_api e = Optimizer_step ->
       e_inside e = 0%nat /\ state_after gradient_monitor Stale l1 = Fresh).
Proof.
  cbv zeta.
  set (r := run (stand_in 1) 0
              (Workflow.training_cell a_model a_loss_function an_optimizer
                 train_x train_y test_x test_y) world0).
  apply (gradients_zeroed_computed_applied (stand_in 1)
           (Workflow.training_cell a_model a_loss_function an_optimizer
              train_x train_y test_x test_y)
           a_model a_loss_function an_optimizer train_x train_y test_x test_y
           a_device an_accuracy train_loader test_loader 10 100
           world0 r.1.2 r.1.1).
  - left; reflexivity.
  - vm_compute. reflexivity.
Defined.

Lemma losses_follow_the_forward_pass_witness :
  let r := run (stand_in 1) 0
             (Classification.training_loop a_model a_loss_function an_optimizer
                a_device train_x train_y test_x test_y 10 100) world0 in
  accepted flow_monitor no_flow r.2 /\
  forall l1 e l2, r.2 = l1 ++ e :: l2 ->
    let s := state_after flow_monitor no_flow l1 in
    (e_api e = Loss_call ->
       exists fn p0 target,
         e_args e = [fn; p0; target] /\
         (prediction s = Some p0 \/
          exists x, prediction s = Some x /\ squeezed s = Some (x, p0))) /\
    (e_api e = Tensor_backward ->
       exists l, e_args e = [l] /\ e_inside e = 0%nat /\ training_loss s = Some l).
Proof.
  cbv zeta.
  set (r := run (stand_in 1) 0
              (Classification.training_loop a_model a_loss_function an_optimizer
                 a_device train_x train_y test_x test_y 10 100) world0).
  apply (losses_follow_the_forward_pass (stand_in 1)
           (Classification.training_loop a_model a_loss_function an_optimizer
              a_device train_x train_y test_x test_y 10 100)
           a_model a_loss_function an_optimizer train_x train_y test_x test_y
           a_device an_accuracy train_loader test_loader 10 100
           world0 r.1.2 r.1.1).
  - right; left; reflexivity.
  - vm_compute. reflexivity.
Defined.

Lemma data_is_on_the_device_witness :
  let r := run (stand_in 2) 0
             (Vision.training_cell a_model a_loss_function an_optimizer
                an_accuracy a_device train_loader test_loader) world0 in
  accepted (device_monitor a_device) [] r.2 /\
  forall l1 e l2, r.2 = l1 ++ e :: l2 ->
    (e_api e = Module_call ->
       exists mdl x, e_args e = [mdl; x] /\ moved_to a_device l1 x) /\
    (e_api e = Loss_call ->
       exists fn p0 y, e_args e = [fn; p0; y] /\ moved_to a_device l1 y).
Proof.
  cbv zeta.
  set (r := run (stand_in 2) 0
              (Vision.training_cell a_model a_loss_function an_optimizer
                 an_accuracy a_device train_loader test_loader) world0).
  apply (data_is_on_the_device (stand_in 2)
           (Vision.training_cell a_model a_loss_function an_optimizer
              an_accuracy a_device train_loader test_loader)
           a_model a_loss_function an_optimizer train_x train_y test_x test_y
           a_device an_accuracy train_loader test_loader 10 3
           world0 r.1.2 r.1.1).
  - right; reflexivity.
  - vm_compute. reflexivity.
Defined.

(** ** What the loops leave behind *)

Lemma called_app_l {W} (l1 l2 : list (entry W)) f args d v :
  called l1 f args d v -> called (l1 ++ l2) f args d v.
Proof. intros (e & Hin & H). exists e. split; [apply in_or_app; auto | exact H]. Qed.

Lemma called_app_r {W} (l1 l2 : list (entry W)) f args d v :
  called l2 f args d v -> called (l1 ++ l2) f args d v.
Proof. intros (e & Hin & H). exists e. split; [apply in_or_app; auto | exact H]. Qed.

Lemma recorded_loss_app_l {W} (l1 l2 : list (entry W)) d v :
  recorded_loss l1 d v -> recorded_loss (l1 ++ l2) d v.
Proof.
  intros (fn & p & t & loss & dl & H1 & H2 & H3).
  exists fn, p, t, loss, dl. auto using called_app_l.
Qed.

Lemma recorded_loss_app_r {W} (l1 l2 : list (entry W)) d v :
  recorded_loss l2 d v -> recorded_loss (l1 ++ l2) d v.
Proof.
  intros (fn & p & t & loss & dl & H1 & H2 & H3).
  exists fn, p, t, loss, dl. auto using called_app_r.
Qed.

Section Losses.
Context {W : Type} (h : handler W).

Lemma workflow_epoch_losses (m lf opt trx try_ tex tey : value)
    (epoch : Z) (losses : list value * list value)
    (k : list value * list value -> prog)
    (w w' : W) (v : value) (log : list (entry W)) :
  run h 0 (Workflow.training_epoch m lf opt trx try_ tex tey epoch losses k) w
    = (Returned v, w', log) ->
  exists lo tlo w1 l1 l2,
    run h 0 (k (losses.1 ++ [lo], losses.2 ++ [tlo])) w1 = (Returned v, w', l2) /\
    log = l1 ++ l2 /\
    recorded_loss l1 0 lo /\ recorded_loss l1 1 tlo.
Proof.
  intros H. unfold Workflow.training_epoch in H.
  do 7 step_run H. step_with H Hb. do 3 step_run Hb.
  do 4 step_run H.
  eexists _, _, _, _, _. split; [exact H |].
  split; [apply (split_at 15); reflexivity |].
  cbn [take app].
  split.
  - eexists _, _, _, _, _. split; [| split].
    + eexists. split; [do 2 right; left; reflexivity |]. cbn. repeat split; reflexivity.
    + eexists. split; [do 11 right; left; reflexivity |]. cbn. repeat split; reflexivity.
    + eexists. split; [do 12 right; left; reflexivity |]. cbn. repeat split; reflexivity.
  - eexists _, _, _, _, _. split; [| split].
    + eexists. split; [do 9 right; left; reflexivity |]. cbn. repeat split; reflexivity.
    + eexists. split; [do 13 right; left; reflexivity |]. cbn. repeat split; reflexivity.
    + eexists. split; [do 14 right; left; reflexivity |]. cbn. repeat split; reflexivity.
Qed.

Lemma workflow_epochs_losses (m lf opt trx try_ tex tey : value)
    (k : list value * list value -> prog) (xs : list Z) :
  forall (losses : list value * list value) (w w' : W) (v : value) (log : list (entry W)),
    run h 0 (for_each xs (Workflow.training_epoch m lf opt trx try_ tex tey) losses k) w
      = (Returned v, w', log) ->
    exists new1 new2 w1 l1 l2,
      run h 0 (k (losses.1 ++ new1, losses.2 ++ new2)) w1 = (Returned v, w', l2) /\
      log = l1 ++ l2 /\
      length new1 = length xs /\ length new2 = length xs /\
      Forall (recorded_loss l1 0) new1 /\ Forall (recorded_loss l1 1) new2.
Proof.
  induction xs as [| x xs IH]; intros losses w w' v log H; cbn [for_each] in H.
  - exists [], [], w, [], log. rewrite !app_nil_r. destruct losses. cbn.
    repeat split; auto.
  - apply workflow_epoch_losses in H as (lo & tlo & w1 & l1 & l2 & H & -> & R1 & R2).
    apply IH in H as (new1 & new2 & w2 & l3 & l4 & H & -> & L1 & L2 & F1 & F2).
    cbn [fst snd] in H. rewrite <- !app_assoc in H.
    exists (lo :: new1), (tlo :: new2), w2, (l1 ++ l3), l4.
    split; [exact H |]. split; [apply app_assoc |].
    cbn [length]. split; [lia |]. split; [lia |].
    split; constructor.
    + apply recorded_loss_app_l. exact R1.
    + eapply Forall_impl; [exact F1 |]. intros a. apply recorded_loss_app_r.
    + apply recorded_loss_app_l. exact R2.
    + eapply Forall_impl; [exact F2 |]. intros a. apply recorded_loss_app_r.
Qed.

End Losses.

(** X13.  When the training cell of the workflow notebook runs to its end,
    [train_losses] and [test_losses] hold one entry per epoch each; every
    entry of [train_losses] is what [.detach().numpy()] returned for a loss
    computed outside inference mode, and every entry of [test_losses] what
    it returned for a loss computed inside an inference-mode block. *)
Theorem training_cell_records_the_losses {W} (h : handler W)
    (m lf opt trx try_ tex tey : value) (n : nat)
    (w w' : W) (v : value) (log : list (entry W)) :
  run h 0 (Workflow.training_loop m lf opt trx try_ tex tey n) w = (Returned v, w', log) ->
  exists train_losses test_losses,
    v = VTuple [VTuple train_losses; VTuple test_losses] /\
    length train_losses = n /\ length test_losses = n /\
    Forall (recorded_loss log 0) train_losses /\
    Forall (recorded_loss log 1) test_losses.
Proof.
  intros H. unfold Workflow.training_loop in H. step_run H.
  apply workflow_epochs_losses in H as (new1 & new2 & w2 & l3 & l4 & H & -> & L1 & L2 & F1 & F2).
  step_run H. cbn [fst snd app] in *. rewrite app_nil_r.
  exists new1, new2. rewrite range_length in L1, L2.
  split; [reflexivity |]. split; [exact L1 |]. split; [exact L2 |].
  split; (eapply Forall_impl; [eassumption |]);
    intros a Ha; apply (recorded_loss_app_r [_]); exact Ha.
Qed.

Lemma training_cell_records_the_losses_witness :
  let r := run (stand_in 1) 0
             (Workflow.training_loop a_model a_loss_function an_optimizer
                train_x train_y test_x test_y 3) world0 in
  exists train_losses test_losses,
    returned r.1.1 = VTuple [VTuple train_losses; VTuple test_losses] /\
    length train_losses = 3%nat /\ length test_losses = 3%nat /\
    Forall (recorded_loss r.2 0) train_losses /\
    Forall (recorded_loss r.2 1) test_losses.
Proof.
  cbv zeta.
  set (r := run (stand_in 1) 0
              (Workflow.training_loop a_model a_loss_function an_optimizer
                 train_x train_y test_x test_y 3) world0).
  apply (training_cell_records_the_losses (stand_in 1)
           a_model a_loss_function an_optimizer train_x train_y test_x test_y 3
           world0 r.1.2).
  vm_compute. reflexivity.
Defined.

Lemma printed_epochs_concat {W} (period : Z) (xs : list Z) (ls : list (list (entry W))) :
  Forall2 (fun epoch l =>
             omap printed_epoch l = (if epoch mod period =? 0 then [epoch] else []) /\
             length (List.filter (fun e => bool_decide (e_api e = print)) l)
               = length (if epoch mod period =? 0 then [epoch] else []))
          xs ls ->
  omap printed_epoch (concat ls) = List.filter (fun i => i mod period =? 0) xs /\
  length (List.filter (fun e => bool_decide (e_api e = print)) (concat ls))
    = length (List.filter (fun i => i mod period =? 0) xs).
Proof.
  induction 1 as [| ep l eps ls [Hep Hn] _ [IH1 IH2]]; [split; reflexivity |].
  cbn [concat List.filter].
  rewrite omap_app, Hep, IH1, List.filter_app, length_app, Hn, IH2.
  destruct (ep mod period =? 0); split; reflexivity.
Qed.

(** X14.  When a training cell of the classification notebook runs to its
    end, the epochs it has printed are exactly the multiples of the period
    below [epoch_count], in increasing order, one line each; there is no
    other [print]. *)
Theorem classification_loop_prints_every_period {W} (h : handler W)
    (m lf opt device trx try_ tex tey : value) (period : Z) (n : nat)
    (w w' : W) (v : value) (log : list (entry W)) :
  period <> 0 ->
  run h 0 (Classification.training_loop m lf opt device trx try_ tex tey period n) w
    = (Returned v, w', log) ->
  omap printed_epoch log = List.filter (fun i => i mod period =? 0) (range n) /\
  length (List.filter (fun e => bool_decide (e_api e = print)) log)
    = length (List.filter (fun i => i mod period =? 0) (range n)).
Proof.
  intros _ H. unfold Classification.training_loop in H.
  do 5 step_run H.
  apply (for_each_inv h 0 _
           (fun epoch l =>
              omap printed_epoch l = (if epoch mod period =? 0 then [epoch] else []) /\
              length (List.filter (fun e => bool_decide (e_api e = print)) l)
                = length (if epoch mod period =? 0 then [epoch] else []))) in H.
  - destruct H as (s1 & w1 & ls & l2 & H & -> & HF). step_run H.
    rewrite app_nil_r. apply printed_epochs_concat in HF. exact HF.
  - clear. intros epoch s k w0 v0 w0' log0 H.
    unfold Classification.training_epoch in H.
    do 10 step_run H. step_with H Hb. do 6 step_run Hb.
    destruct (epoch mod period =? 0) eqn:E.
    + do 1 step_run H. eexists _, _, _, _. split; [exact H |].
      split; [apply (split_at 18); reflexivity |]. split; reflexivity.
    + eexists _, _, _, _. split; [exact H |].
      split; [apply (split_at 17); reflexivity |]. split; reflexivity.
Qed.

Lemma classification_loop_prints_every_period_witness :
  let r := run (stand_in 1) 0
             (Classification.training_loop a_model a_loss_function an_optimizer
                a_device train_x train_y test_x test_y 10 100) world0 in
  omap printed_epoch r.2 = List.filter (fun i => i mod 10 =? 0) (range 100) /\
  length (List.filter (fun e => bool_decide (e_api e = print)) r.2)
    = length (List.filter (fun i => i mod 10 =? 0) (range 100)).
Proof.
  cbv zeta.
  set (r := run (stand_in 1) 0
              (Classification.training_loop a_model a_loss_function an_optimizer
                 a_device train_x train_y test_x test_y 10 100) world0).
  apply (classification_loop_prints_every_period (stand_in 1)
           a_model a_loss_function an_optimizer a_device train_x train_y test_x test_y
           10 100 world0 r.1.2 (returned r.1.1)).
  - discriminate.
  - vm_compute. reflexivity.
Defined.

Example classification_cell_prints_ten_lines :
  List.filter (fun i => i mod 10 =? 0) (range 100) = [0; 10; 20; 30; 40; 50; 60; 70; 80; 90].
Proof. vm_compute. reflexivity. Qed.

(** X15.  A training loader that yields no batch and has length 0 ends the
    computer-vision training cell in its first epoch: [train_loss] is still
    the int 0 when it is divided by [len(train_dataloader)], so the cell
    raises [ZeroDivisionError], having called nothing but the seed, the
    epoch's [print], and the loader's iterator and length. *)
Theorem empty_training_loader_divides_by_zero {W} (h : handler W)
    (m lf opt acc dev tdl vdl : value) (n : nat) (w : W) :
  (forall a w0, exists v w1, h Torch_manual_seed a w0 = (Returned v, w1)) ->
  (forall a w0, exists v w1, h print a w0 = (Returned v, w1)) ->
  (forall w0, exists w1, h DataLoader_iter [tdl] w0 = (Returned (VTuple []), w1)) ->
  (forall w0, exists w1, h DataLoader_len [tdl] w0 = (Returned (VInt 0), w1)) ->
  exists w' log,
    run h 0 (Vision.training_loop m lf opt acc dev tdl vdl (S n)) w
      = (Raised ZeroDivisionError, w', log) /\
    map e_api log = [Torch_manual_seed; print; DataLoader_iter; DataLoader_len].
Proof.
  intros Hseed Hprint Hiter Hlen.
  unfold Vision.training_loop, range. cbn [seq map for_each].
  unfold Vision.training_epoch at 1. unfold Vision.batches_of at 1.
  cbn [run].
  destruct (Hseed [VInt 42] w) as (v1 & w1 & ->).
  cbn [run].
  match goal with |- context [h print ?a w1] => destruct (Hprint a w1) as (v2 & w2 & ->) end.
  destruct (Hiter w2) as (w3 & ->).
  cbn [Vision.enumerate length seq map zip zip_with for_each run].
  destruct (Hlen w3) as (w4 & ->).
  cbn [Vision.idiv Z.eqb run].
  eexists _, _. split; reflexivity.
Qed.

Lemma empty_training_loader_divides_by_zero_witness :
  exists w' log,
    run (unfailing 0) 0
      (Vision.training_loop a_model a_loss_function an_optimizer an_accuracy a_device
         train_loader test_loader 3) tt
      = (Raised ZeroDivisionError, w', log) /\
    map e_api log = [Torch_manual_seed; print; DataLoader_iter; DataLoader_len].
Proof.
  apply (empty_training_loader_divides_by_zero (unfailing 0)).
  - intros a w0. eexists _, _. reflexivity.
  - intros a w0. eexists _, _. reflexivity.
  - intros w0. eexists. reflexivity.
  - intros w0. eexists. reflexivity.
Defined.

(** ** The layers of the models fit together *)

(** X16.  Constructed and then called on a batch of [n] points with [d]
    features, either circle model returns [n] rows of one logit when
    [d = 2], and raises [RuntimeError] otherwise: [forward] reads only
    attributes the constructor has set, and each layer accepts what the
    previous one returns. *)
Theorem circle_models_map_points_to_logits (self : value) (n d : Z) :
  (run layers 0
     (construct_and_call (Functions.CircleModelLinearLayers_init self)
        (Functions.CircleModelLinearLayers_forward self (dims_value [n; d]))) []).1.1
  = (if d =? 2 then Returned (dims_value [n; 1]) else Raised RuntimeError) /\
  (run layers 0
     (construct_and_call (Functions.CircleModelNonLinear_init self)
        (Functions.CircleModelNonLinear_forward self (dims_value [n; d]))) []).1.1
  = (if d =? 2 then Returned (dims_value [n; 1]) else Raised RuntimeError).
Proof.
  split; destruct (d =? 2) eqn:E; cbn; rewrite E; reflexivity.
Qed.


Example forward_before_the_constructor :
  (run layers 0 (Functions.CircleModelNonLinear_forward a_model (dims_value [800; 2])) []).1.1
  = Raised (LibraryError 0).
Proof. reflexivity. Qed.

(** ** The shapes through a training cell of the classification notebook *)

Section CircleShapes.
Variables (h : handler unit) (m lf opt device : value) (period : Z) (N M : Z).
Hypothesis h_is : h = linear_circle_model \/ h = nonlinear_circle_model.
Hypothesis HN : (N =? 1) = false.
Hypothesis HM : (M =? 1) = false.

Lemma circle_epoch_shapes (epoch : Z) (s : value) (k : value -> prog) :
  exists l1,
    run h 0 (Classification.training_epoch m lf opt
               (dims_value [N; 2]) (dims_value [N]) (dims_value [M; 2]) (dims_value [M])
               period epoch s k) tt
    = ((run h 0 (k (dims_value [M])) tt).1.1, tt,
       l1 ++ (run h 0 (k (dims_value [M])) tt).2).
Proof.
  unfold Classification.training_epoch.
  destruct h_is as [-> | ->].
  all: cbn; rewrite ?HN, ?HM; cbn; rewrite ?Z.eqb_refl; cbn.
  all: destruct (epoch mod period =? 0); cbn.
  all: destruct (run _ 0 (k _) tt) as [[o []] l]; cbn.
  all: eexists; f_equal;
    first [apply (split_at 18); reflexivity | apply (split_at 17); reflexivity].
Qed.

Lemma circle_epochs_shapes (xs : list Z) :
  forall (s : value) (k : value -> prog),
  exists l1 tc,
    run h 0 (for_each xs
               (Classification.training_epoch m lf opt
                  (dims_value [N; 2]) (dims_value [N]) (dims_value [M; 2]) (dims_value [M])
                  period) s k) tt
    = ((run h 0 (k tc) tt).1.1, tt, l1 ++ (run h 0 (k tc) tt).2).
Proof.
  induction xs as [| x xs IH]; intros s k; cbn [for_each].
  - exists [], s. destruct (run h 0 (k s) tt) as [[o []] l]. reflexivity.
  - destruct (circle_epoch_shapes x s
                (fun s' => for_each xs
                   (Classification.training_epoch m lf opt
                      (dims_value [N; 2]) (dims_value [N]) (dims_value [M; 2])
                      (dims_value [M]) period) s' k)) as [l1 E].
    destruct (IH (dims_value [M]) k) as (l2 & tc & E2).
    rewrite E, E2. cbn [fst snd]. exists (l1 ++ l2), tc. rewrite app_assoc. reflexivity.
Qed.

End CircleShapes.

(** X18.  The shapes through a training cell of the classification
    notebook, for either model, on [N] training and [M] test points.  When
    neither [N] nor [M] is 1 the cell runs to its end for any number of
    epochs: every call receives the shape it demands.  With a single
    training point, [squeeze()] also removes the batch dimension, the loss
    is refused a target of another shape, and the cell ends by that error
    at its first loss, before any step.  With a single test point (and
    [N] not 1) it ends the same way at the first test loss, inside the
    inference-mode block, after one step. *)
Theorem classification_loop_shapes (h : handler unit) (m lf opt device : value)
    (period N M : Z) (n : nat) :
  h = linear_circle_model \/ h = nonlinear_circle_model ->
  (N <> 1 -> M <> 1 ->
   exists v log,
     run h 0 (Classification.training_loop m lf opt device
                (dims_value [N; 2]) (dims_value [N]) (dims_value [M; 2]) (dims_value [M])
                period n) tt
     = (Returned v, tt, log)) /\
  (exists log,
     run h 0 (Classification.training_loop m lf opt device
                (dims_value [1; 2]) (dims_value [1]) (dims_value [M; 2]) (dims_value [M])
                period (S n)) tt
     = (Raised (LibraryError 1), tt, log) /\
     omap (fun e => match e_api e with
                    | Loss_call | Optimizer_step => Some (e_api e, e_inside e)
                    | _ => None
                    end) log
     = [(Loss_call, 0%nat)]) /\
  (N <> 1 ->
   exists log,
     run h 0 (Classification.training_loop m lf opt device
                (dims_value [N; 2]) (dims_value [N]) (dims_value [1; 2]) (dims_value [1])
                period (S n)) tt
     = (Raised (LibraryError 1), tt, log) /\
     omap (fun e => match e_api e with
                    | Loss_call | Optimizer_step => Some (e_api e, e_inside e)
                    | _ => None
                    end) log
     = [(Loss_call, 0%nat); (Optimizer_step, 0%nat); (Loss_call, 1%nat)]).
Proof.
  intros Hh. split; [| split].
  - intros HN HM. apply Z.eqb_neq in HN, HM.
    unfold Classification.training_loop.
    assert (E : forall a, h Torch_manual_seed a tt = (Returned VNone, tt)).
    { intros a. destruct Hh as [-> | ->]; reflexivity. }
    assert (T : forall x, h Tensor_to [x; device] tt = (Returned x, tt)).
    { intros x. destruct Hh as [-> | ->]; reflexivity. }
    destruct (circle_epochs_shapes h m lf opt period N M Hh HN HM (range n) VNone
                (fun tc => Ret tc)) as (l1 & tc & F).
    cbn [run]. rewrite E. cbn [run]. rewrite T. cbn [run]. rewrite T.
    cbn [run]. rewrite T. cbn [run]. rewrite T. rewrite F.
    cbn. eexists _, _. reflexivity.
  - destruct Hh as [-> | ->]; eexists; split; reflexivity.
  - intros HN. apply Z.eqb_neq in HN.
    destruct Hh as [-> | ->].
    all: cbn; rewrite ?HN; cbn; rewrite ?Z.eqb_refl; cbn.
    all: eexists; split; reflexivity.
Qed.


Lemma classification_loop_shapes_witness :
  (800 <> 1 -> 200 <> 1 ->
   exists v log,
     run nonlinear_circle_model 0
       (Classification.training_loop a_model a_loss_function an_optimizer a_device
          (dims_value [800; 2]) (dims_value [800]) (dims_value [200; 2]) (dims_value [200])
          10 100) tt
     = (Returned v, tt, log)) /\
  (exists log,
     run nonlinear_circle_model 0
       (Classification.training_loop a_model a_loss_function an_optimizer a_device
          (dims_value [1; 2]) (dims_value [1]) (dims_value [200; 2]) (dims_value [200])
          10 (S 100)) tt
     = (Raised (LibraryError 1), tt, log) /\
     omap (fun e => match e_api e with
                    | Loss_call | Optimizer_step => Some (e_api e, e_inside e)
                    | _ => None
                    end) log
     = [(Loss_call, 0%nat)]) /\
  (800 <> 1 ->
   exists log,
     run nonlinear_circle_model 0
       (Classification.training_loop a_model a_loss_function an_optimizer a_device
          (dims_value [800; 2]) (dims_value [800]) (dims_value [1; 2]) (dims_value [1])
          10 (S 100)) tt
     = (Raised (LibraryError 1), tt, log) /\
     omap (fun e => match e_api e with
                    | Loss_call | Optimizer_step => Some (e_api e, e_inside e)
                    | _ => None
                    end) log
     = [(Loss_call, 0%nat); (Optimizer_step, 0%nat); (Loss_call, 1%nat)]).
Proof.
  apply (classification_loop_shapes nonlinear_circle_model a_model a_loss_function
           an_optimizer a_device 10 800 200 100).
  right. reflexivity.
Defined.

(** ** The split at any length *)

Lemma all_from_spec (ok : Z -> bool) (count : nat) (z : Z) :
  all_from ok count z = true ->
  forall k, z <= k < z + Z.of_nat count -> ok k = true.
Proof.
  revert z. induction count as [| count IH]; intros z H k Hk; [lia |].
  cbn [all_from] in H. apply andb_true_iff in H as [H0 H].
  destruct (Z.eq_dec k z) as [-> | Hne]; [exact H0 |].
  apply (IH (z + 1) H). lia.
Qed.

Lemma cutoff_exact_upto : all_from cutoff_exact (Z.to_nat 10001) 0 = true.
Proof. vm_compute. reflexivity. Qed.

Lemma train_cutoff_upto (predictor : tensor) :
  Z.of_nat (length predictor) <= 10000 ->
  Workflow.train_cutoff predictor = Some (4 * Z.of_nat (length predictor) / 5).
Proof.
  intros H.
  pose proof (all_from_spec _ _ _ cutoff_exact_upto (Z.of_nat (length predictor))) as E.
  unfold cutoff_exact in E. fold (cutoff_of_length (Z.of_nat (length predictor))) in E.
  unfold Workflow.train_cutoff.
  change (PyFloat.to_int _) with (cutoff_of_length (Z.of_nat (length predictor))).
  destruct (cutoff_of_length (Z.of_nat (length predictor))) as [c |].
  - f_equal. apply Z.eqb_eq. apply E. lia.
  - discriminate E. lia.
Qed.

(** X5.  The split cell on data of any length up to 10000: the cutoff
    [int(0.8 * n)], computed in double precision, is the integer part of
    [4n/5]; the training slice has that many elements and the testing slice
    the rest (both empty for empty data); training slice followed by
    testing slice is the original, for predictor and target; and a target
    as long as the predictor is cut at the same place. *)
Theorem split_any_length (predictor target : tensor) :
  Z.of_nat (length predictor) <= 10000 ->
  exists r, Workflow.split predictor target = Some r /\
    Z.of_nat (length (Workflow.train_predictor r)) = 4 * Z.of_nat (length predictor) / 5 /\
    (length (Workflow.train_predictor r) + length (Workflow.test_predictor r)
       = length predictor)%nat /\
    Workflow.train_predictor r ++ Workflow.test_predictor r = predictor /\
    Workflow.train_target r ++ Workflow.test_target r = target /\
    (length target = length predictor ->
       length (Workflow.train_target r) = length (Workflow.train_predictor r) /\
       length (Workflow.test_target r) = length (Workflow.test_predictor r)).
Proof.
  intros H. unfold Workflow.split. rewrite (train_cutoff_upto predictor H).
  eexists. split; [reflexivity |].
  cbn [Workflow.train_predictor Workflow.test_predictor
       Workflow.train_target Workflow.test_target].
  set (n := Z.of_nat (length predictor)).
  assert (B : 0 <= 4 * n / 5 <= n).
  { subst n. split; [apply Z.div_pos; lia |].
    apply Z.div_le_upper_bound; lia. }
  rewrite slice_to_length, slice_from_length by exact B.
  split; [lia |]. split; [lia |].
  split; [apply slice_to_from_app |]. split; [apply slice_to_from_app |].
  intros Ht.
  rewrite slice_to_length, slice_from_length by (rewrite Ht; exact B).
  rewrite Ht. split; reflexivity.
Qed.

Lemma split_any_length_witness :
  exists r, Workflow.split Workflow.predictor Workflow.target = Some r /\
    Z.of_nat (length (Workflow.train_predictor r))
      = 4 * Z.of_nat (length Workflow.predictor) / 5 /\
    (length (Workflow.train_predictor r) + length (Workflow.test_predictor r)
       = length Workflow.predictor)%nat /\
    Workflow.train_predictor r ++ Workflow.test_predictor r = Workflow.predictor /\
    Workflow.train_target r ++ Workflow.test_target r = Workflow.target /\
    (length Workflow.target = length Workflow.predictor ->
       length (Workflow.train_target r) = length (Workflow.train_predictor r) /\
       length (Workflow.test_target r) = length (Workflow.test_predictor r)).
Proof.
  apply (split_any_length Workflow.predictor Workflow.target).
  vm_compute. discriminate.
Defined.

Example cutoff_of_odd_lengths :
  map cutoff_of_length [0; 1; 2; 3; 4; 5; 6; 1000; 60000]
  = [Some 0; Some 0; Some 1; Some 2; Some 3; Some 4; Some 4; Some 800; Some 48000].
Proof. vm_compute. reflexivity. Qed.

(** ** The averages the computer-vision loop reports *)

Lemma total_snoc (qs : list Q) (q : Q) : total (qs ++ [q]) = (total qs + q)%Q.
Proof. unfold total. rewrite fold_left_app. reflexivity. Qed.

Lemma losses_app {W} (d : nat) (l1 l2 : list (entry W)) :
  losses d (l1 ++ l2) = losses d l1 ++ losses d l2.
Proof. apply omap_app. Qed.

Lemma accuracies_app {W} (l1 l2 : list (entry W)) :
  accuracies (l1 ++ l2) = accuracies l1 ++ accuracies l2.
Proof. apply omap_app. Qed.

(** Finds an entry in a record given as conses and appends. *)
Ltac find_in :=
  solve [ left; reflexivity
        | right; find_in
        | apply in_or_app; right; find_in
        | apply in_or_app; left; find_in ].

Section Accumulate.
Context {W : Type} (h : handler W).

Lemma for_each_acc {A S} (d : nat) (body : A -> S -> (S -> prog) -> prog)
    (R : S -> list (entry W) -> Prop) :
  (forall x s k w v w' log pre,
      R s pre ->
      run h d (body x s k) w = (Returned v, w', log) ->
      exists s1 w1 l1 l2,
        run h d (k s1) w1 = (Returned v, w', l2) /\ log = l1 ++ l2 /\ R s1 (pre ++ l1)) ->
  forall xs s k w v w' log pre,
    R s pre ->
    run h d (for_each xs body s k) w = (Returned v, w', log) ->
    exists s1 w1 l1 l2,
      run h d (k s1) w1 = (Returned v, w', l2) /\ log = l1 ++ l2 /\ R s1 (pre ++ l1).
Proof.
  intros Hbody xs. induction xs as [| x xs IH]; intros s k w v w' log pre HR H.
  - exists s, w, [], log. rewrite app_nil_r. cbn in *. auto.
  - cbn [for_each] in H.
    eapply Hbody in H as (s1 & w1 & l1 & l2 & H & -> & HR1); [| exact HR].
    eapply IH in H as (s2 & w2 & l3 & l4 & H & -> & HR2); [| exact HR1].
    exists s2, w2, (l1 ++ l3), l4. rewrite <- !app_assoc in *. auto.
Qed.

Hypothesis Hadd : forall a b qa qb w,
  number a = Some qa -> number b = Some qb ->
  exists w1, h Tensor_add [a; b] w = (Returned (VFloat (qa + qb)), w1).
Hypothesis Hdiv : forall q n w,
  n <> 0 ->
  exists w1, h Tensor_div [VFloat q; VInt n] w = (Returned (VFloat (q / inject_Z n)), w1).
Hypothesis Hloss : forall a w v w1,
  h Loss_call a w = (Returned v, w1) -> exists q, v = VFloat q.
Hypothesis Hacc : forall a w v w1,
  h Accuracy_call a w = (Returned v, w1) -> exists q, v = VFloat q.
Hypothesis Hlen : forall a w v w1,
  h DataLoader_len a w = (Returned v, w1) -> exists n, v = VInt n /\ n <> 0.

Lemma train_batch_acc (m lf opt dev dl : value) (b : Z * value) (s : value)
    (k : value -> prog) (w w' : W) (v : value) (log pre : list (entry W)) :
  train_inv s pre ->
  run h 0 (Vision.train_batch m lf opt dev dl b s k) w = (Returned v, w', log) ->
  exists s1 w1 l1 l2,
    run h 0 (k s1) w1 = (Returned v, w', l2) /\ log = l1 ++ l2 /\
    train_inv s1 (pre ++ l1).
Proof.
  intros (Hs & Hr & H1 & H2) H. unfold Vision.train_batch in H.
  destruct b as [batch [| | | | | [| x [| y [| ? ?]]] | | |]]; cbn [fst snd] in H;
    try (apply run_Throw_inv in H; contradiction).
  do 5 step_run H.
  match goal with Hl : h Loss_call _ _ = _ |- _ => destruct (Hloss _ _ _ _ Hl) as [q ->] end.
  step_run H.
  match goal with
  | Ha : h Tensor_add [s; VFloat q] ?w0 = (Returned ?r, _) |- _ =>
      destruct (Hadd s (VFloat q) _ q w0 Hs eq_refl) as [w1' Ha'];
      rewrite Ha' in Ha; injection Ha as <- <-
  end.
  do 3 step_run H.
  destruct (batch mod 400 =? 0).
  - do 3 step_run H.
    match type of H with
    | run h 0 (match ?n with _ => _ end) _ = _ =>
        destruct n; try (apply run_Throw_inv in H; contradiction)
    end.
    step_run H.
    eexists _, _, _, _. split; [exact H |].
    split; [apply (split_at 13%nat); reflexivity |].
    unfold train_inv. rewrite !losses_app, accuracies_app, omap_app, Hr, H1, H2.
    cbn -[total]. rewrite total_snoc. auto.
  - eexists _, _, _, _. split; [exact H |].
    split; [apply (split_at 9%nat); reflexivity |].
    unfold train_inv. rewrite !losses_app, accuracies_app, omap_app, Hr, H1, H2.
    cbn -[total]. rewrite total_snoc. auto.
Qed.

Lemma test_batch_acc (m lf acc dev : value) (b : value) (s : value * value)
    (k : value * value -> prog) (w w' : W) (v : value) (log pre : list (entry W)) :
  test_inv s pre ->
  run h 1 (Vision.test_batch m lf acc dev b s k) w = (Returned v, w', log) ->
  exists s1 w1 l1 l2,
    run h 1 (k s1) w1 = (Returned v, w', l2) /\ log = l1 ++ l2 /\
    test_inv s1 (pre ++ l1).
Proof.
  intros (Hs1 & Hs2 & Hr & H0) H. unfold Vision.test_batch in H.
  destruct b as [| | | | | [| x [| y [| ? ?]]] | | |];
    try (apply run_Throw_inv in H; contradiction).
  do 4 step_run H.
  match goal with Hl : h Loss_call _ _ = _ |- _ => destruct (Hloss _ _ _ _ Hl) as [q ->] end.
  step_run H.
  match goal with
  | Ha : h Tensor_add [s.1; VFloat q] ?w0 = (Returned ?r, _) |- _ =>
      destruct (Hadd s.1 (VFloat q) _ q w0 Hs1 eq_refl) as [w1' Ha'];
      rewrite Ha' in Ha; injection Ha as <- <-
  end.
  do 2 step_run H.
  match goal with Hl : h Accuracy_call _ _ = _ |- _ => destruct (Hacc _ _ _ _ Hl) as [qa ->] end.
  step_run H.
  match goal with
  | Ha : h Tensor_add [s.2; VFloat qa] ?w0 = (Returned ?r, _) |- _ =>
      destruct (Hadd s.2 (VFloat qa) _ qa w0 Hs2 eq_refl) as [w2' Hb'];
      rewrite Hb' in Ha; injection Ha as <- <-
  end.
  eexists _, _, _, _. split; [exact H |].
  split; [apply (split_at 8%nat); reflexivity |].
  unfold test_inv. rewrite !losses_app, accuracies_app, omap_app, Hr, H0.
  cbn -[total]. rewrite !total_snoc. auto.
Qed.

Lemma idiv_mean (d : nat) (a n : value) (nb : Z) (qs : list Q) (k : value -> prog)
    (w w' : W) (v : value) (log : list (entry W)) :
  number a = Some (total qs) ->
  n = VInt nb -> nb <> 0 ->
  run h d (Vision.idiv a n k) w = (Returned v, w', log) ->
  exists w1 l1 l2,
    run h d (k (VFloat (total qs / inject_Z nb))) w1 = (Returned v, w', l2) /\
    log = l1 ++ l2 /\
    (forall d', losses d' l1 = []) /\ accuracies l1 = [] /\ omap epoch_report l1 = [].
Proof.
  intros Ha -> Hnb H. unfold Vision.idiv in H.
  destruct a as [| | z | q | | | | |]; try discriminate Ha.
  - destruct (Z.eqb_spec nb 0) as [| _]; [contradiction |].
    injection Ha as Ha. rewrite Ha in H.
    exists w, [], log. auto.
  - injection Ha as ->. step_run H.
    match goal with
    | Hd : h Tensor_div _ ?w0 = _ |- _ =>
        destruct (Hdiv (total qs) nb w0 Hnb) as [w1' Hd'];
        rewrite Hd' in Hd; injection Hd as <- <-
    end.
    eexists _, [_], _. split; [exact H |]. cbn. auto.
Qed.

Lemma cons_before_app (e : entry W) (l1 l2 : list (entry W)) :
  e :: (l1 ++ l2) = [e] ++ (l1 ++ l2).
Proof. reflexivity. Qed.

Lemma cons_pass (P : list (entry W) -> Prop) (e : entry W) (l l2 : list (entry W)) :
  (exists l1, l = l1 ++ l2 /\ P (e :: l1)) -> exists l1, e :: l = l1 ++ l2 /\ P l1.
Proof. intros (l1 & -> & HP). exists (e :: l1). auto. Qed.

Lemma app_pass (P : list (entry W) -> Prop) (l0 l l2 : list (entry W)) :
  (exists l1, l = l1 ++ l2 /\ P (l0 ++ l1)) -> exists l1, l0 ++ l = l1 ++ l2 /\ P l1.
Proof. intros (l1 & -> & HP). exists (l0 ++ l1). rewrite app_assoc. auto. Qed.

Lemma vision_epoch_means (m lf opt acc dev tdl vdl : value) (epoch : Z) (s : unit)
    (k : unit -> prog) (w w' : W) (v : value) (log : list (entry W)) :
  run h 0 (Vision.training_epoch m lf opt acc dev tdl vdl epoch s k) w
    = (Returned v, w', log) ->
  exists s1 w1 l1 l2,
    run h 0 (k s1) w1 = (Returned v, w', l2) /\ log = l1 ++ l2 /\
    epoch_means tdl vdl l1.
Proof.
  intros H. unfold Vision.training_epoch, Vision.batches_of in H.
  step_run H.
  apply run_Do_inv in H as (bs & w1 & l2 & Hbs & H & ->).
  destruct bs as [| | | | | bs | | |]; try (apply run_Throw_inv in H; contradiction).
  apply (for_each_acc 0 _ train_inv) with (pre := []) in H
    as (tl & w2 & ltrain & l3 & H & -> & Htrain);
    [| intros *; apply train_batch_acc | repeat split].
  cbn [app] in Htrain. destruct Htrain as (Htl & Hr & Hl1 & Hac).
  apply run_Do_inv in H as (n & w3 & l4 & Hn & H & ->).
  destruct (Hlen _ _ _ _ Hn) as (nb & -> & Hnb).
  apply (idiv_mean 0 tl (VInt nb) nb _ _ _ _ _ _ Htl eq_refl Hnb) in H
    as (w4 & ld & l5 & H & -> & Hd1 & Hd2 & Hd3).
  step_run H. step_with H Hb.
  apply run_Do_inv in Hb as (bs' & w5 & l6 & Hbs' & Hb & ->).
  destruct bs' as [| | | | | bs' | | |]; try (apply run_Throw_inv in Hb; contradiction).
  apply (for_each_acc 1 _ test_inv) with (pre := []) in Hb
    as (st & w6 & ltest & l7 & Hb & -> & Htest);
    [| intros *; apply test_batch_acc | repeat split].
  cbn [app] in Htest. destruct Htest as (Ht1 & Ht2 & Hrt & Hl0).
  apply run_Do_inv in Hb as (n1 & w7 & l8 & Hn1 & Hb & ->).
  destruct (Hlen _ _ _ _ Hn1) as (nb1 & -> & Hnb1).
  apply (idiv_mean 1 st.1 (VInt nb1) nb1 _ _ _ _ _ _ Ht1 eq_refl Hnb1) in Hb
    as (w8 & ld1 & l9 & Hb & -> & He1 & He2 & He3).
  apply run_Do_inv in Hb as (n2 & w9 & l10 & Hn2 & Hb & ->).
  destruct (Hlen _ _ _ _ Hn2) as (nb2 & -> & Hnb2).
  apply (idiv_mean 1 st.2 (VInt nb2) nb2 _ _ _ _ _ _ Ht2 eq_refl Hnb2) in Hb
    as (w10 & ld2 & l11 & Hb & -> & Hf1 & Hf2 & Hf3).
  step_run Hb.
  cbn beta iota in H. step_run H.
  match type of H with
  | run h 0 (k ?u) ?wf = (_, _, ?rest) =>
      exists u, wf;
      match goal with
      | |- exists l1 l2, _ /\ ?L = _ /\ _ =>
          cut (exists l1, L = l1 ++ rest /\ epoch_means tdl vdl l1);
          [intros (l1 & E & HP); exists l1, rest; auto |]
      end
  end.
  repeat first [apply cons_pass | apply app_pass].
  exists []. split; [reflexivity |].
  exists nb, nb1, nb2.
  split; [| split; [| split]].
  - eexists (Entry DataLoader_len [tdl] (Returned (VInt nb)) _ _ 0%nat).
    split; [find_in | repeat split].
  - eexists (Entry DataLoader_len [vdl] (Returned (VInt nb1)) _ _ 1%nat).
    split; [find_in | repeat split].
  - eexists (Entry DataLoader_len [vdl] (Returned (VInt nb2)) _ _ 1%nat).
    split; [find_in | repeat split].
  - rewrite !cons_before_app.
    rewrite ?losses_app, ?accuracies_app, ?omap_app.
    rewrite ?Hr, ?Hl1, ?Hac, ?Hrt, ?Hl0, ?Hd1, ?Hd2, ?Hd3, ?He1, ?He2, ?He3, ?Hf1, ?Hf2, ?Hf3.
    cbn -[total]. rewrite ?app_nil_r. reflexivity.
Qed.

End Accumulate.

(** X19.  Suppose the tensor library adds and divides scalars as numbers,
    losses and accuracies are scalars, and the loaders report lengths other
    than 0.  When the computer-vision training cell runs to its end, its
    record is the seed followed by one segment per epoch, and the closing
    [print] of each epoch reports: the sum of the epoch's training losses,
    accumulated in order from 0, divided by [len(train_dataloader)]; the
    sum of its test losses divided by [len(test_dataloader)]; and the sum
    of the accuracies of its test batches divided by
    [len(test_dataloader)], every batch counting the same whatever its
    size. *)
Theorem epoch_reports_are_means {W} (h : handler W)
    (m lf opt acc dev tdl vdl : value) (n : nat)
    (w w' : W) (v : value) (log : list (entry W)) :
  (forall a b qa qb w0,
      number a = Some qa -> number b = Some qb ->
      exists w1, h Tensor_add [a; b] w0 = (Returned (VFloat (qa + qb)), w1)) ->
  (forall q k w0,
      k <> 0 ->
      exists w1, h Tensor_div [VFloat q; VInt k] w0
                 = (Returned (VFloat (q / inject_Z k)), w1)) ->
  (forall a w0 x w1, h Loss_call a w0 = (Returned x, w1) -> exists q, x = VFloat q) ->
  (forall a w0 x w1, h Accuracy_call a w0 = (Returned x, w1) -> exists q, x = VFloat q) ->
  (forall a w0 x w1,
      h DataLoader_len a w0 = (Returned x, w1) -> exists k, x = VInt k /\ k <> 0) ->
  run h 0 (Vision.training_loop m lf opt acc dev tdl vdl n) w = (Returned v, w', log) ->
  exists (seed : entry W) (epochs : list (list (entry W))),
    log = seed :: concat epochs /\
    length epochs = n /\
    Forall (epoch_means tdl vdl) epochs.
Proof.
  intros Hadd Hdiv Hloss Hacc Hlen H. unfold Vision.training_loop in H.
  apply run_Do_inv in H as (x & w1 & l1 & _ & H & ->).
  apply (for_each_inv h 0 _ (fun _ l => epoch_means tdl vdl l)) in H
    as (s1 & w2 & ls & l2 & H & -> & HF).
  - step_run H. rewrite app_nil_r. eexists _, ls. split; [reflexivity |].
    split.
    + apply Forall2_length in HF. rewrite range_length in HF. symmetry. exact HF.
    + clear -HF. induction HF; constructor; auto.
  - intros epoch s k w0 v0 w0' log0 R.
    eapply vision_epoch_means; eassumption.
Qed.

Lemma epoch_reports_are_means_witness :
  let r := run (arithmetic 2) 0
             (Vision.training_loop a_model a_loss_function an_optimizer an_accuracy
                a_device train_loader test_loader 3) tt in
  exists (seed : entry unit) (epochs : list (list (entry unit))),
    r.2 = seed :: concat epochs /\
    length epochs = 3%nat /\
    Forall (epoch_means train_loader test_loader) epochs.
Proof.
  cbv zeta.
  set (r := run (arithmetic 2) 0
              (Vision.training_loop a_model a_loss_function an_optimizer an_accuracy
                 a_device train_loader test_loader 3) tt).
  apply (epoch_reports_are_means (arithmetic 2)
           a_model a_loss_function an_optimizer an_accuracy a_device
           train_loader test_loader 3 tt r.1.2 (returned r.1.1)).
  - intros a b qa qb w0 Ha Hb. exists w0. unfold arithmetic. rewrite Ha, Hb. reflexivity.
  - intros q k w0 _. exists w0. reflexivity.
  - intros a w0 x w1 [= <- _]. eexists. reflexivity.
  - intros a w0 x w1 [= <- _]. eexists. reflexivity.
  - intros a w0 x w1 [= <- _]. exists 2. split; [reflexivity | discriminate].
  - vm_compute. reflexivity.
Defined.

Example epoch_report_of_two_batches :
  omap epoch_report
    (run (arithmetic 2) 0
       (Vision.training_loop a_model a_loss_function an_optimizer an_accuracy
          a_device train_loader test_loader 1) tt).2
  = [(VFloat ((inject_Z 0 + (1 # 2) + (1 # 2)) / inject_Z 2),
      VFloat ((inject_Z 0 + (1 # 2) + (1 # 2)) / inject_Z 2),
      VFloat ((inject_Z 0 + (3 # 4) + (3 # 4)) / inject_Z 2))].
Proof. reflexivity. Qed.
